(** * E-MU sound banks: the EBL decoder and the WAV encoder

    A shallow embedding of [internal/ebl/parser.go], [internal/ebl/types.go],
    the WAV encoder ([package wav]), [ConvertFile] of [package converter] and
    what [internal/flac/encoder.go] computes before it runs [ffmpeg],
    followed by the properties of the decoder and of the encoder.

    Conventions of the embedding.
    - A Go [[]byte] is a [list byte]; a Go [string] is a [string] (a sequence
      of bytes, as in Go).  [int] and [int64] are [Z], for a platform whose
      [int] has 64 bits: every integer the parser computes is a sum or a
      difference of a few 32-bit words, so no 64-bit operation overflows
      (the one product is written with its wrap-around).
    - The input is a regular file that has been opened: [os.Open] and
      [file.Stat] have succeeded, and the file size is the length of the
      content.
    - Run-time panics (an index out of range, [make] with a negative length)
      are explicit: [None] in the pure code of the encoder, [Panic] in the
      parser monad.
    - The parser runs in a state monad over the open file (content and read
      offset), the [EBLFile] under construction and the lines printed by
      [Debug]. *)

From Stdlib Require Import ZArith Lia Strings.Byte Ascii String.
From stdpp Require Import base option list.

Local Open Scope Z_scope.

(** ** Bytes, words and strings of the Go runtime *)

Abbreviation byte := Byte.byte.

Definition byte_to_Z (b : byte) : Z := Z.of_N (Byte.to_N b).

Definition byte_of_Z (z : Z) : byte :=
  match Byte.of_N (Z.to_N (z mod 256)) with
  | Some b => b
  | None => x00
  end.

(** [make([]byte, n)] for a length that is known to be non-negative. *)
Definition zeros (n : nat) : list byte := replicate n x00.

(** [s[i]]: a run-time panic when [i] is out of range. *)
Definition index (s : list byte) (i : nat) : option byte := s !! i.

(** [s[i] = v]: a run-time panic when [i] is out of range. *)
Definition store (s : list byte) (i : nat) (v : byte) : option (list byte) :=
  if decide (i < length s)%nat then Some (<[i:=v]> s) else None.

(** Truncating conversions [uint16(x)] and [uint32(x)]. *)
Definition uint16 (x : Z) : Z := x mod 2^16.
Definition uint32 (x : Z) : Z := x mod 2^32.
(** Signed 64-bit wrap-around of [int] arithmetic. *)
Definition wrap64 (x : Z) : Z := (x + 2^63) mod 2^64 - 2^63.

(** [binary.BigEndian.Uint32] and [binary.LittleEndian.Uint32] on a 4-byte
    buffer; [binary.LittleEndian.Uint16] on a 2-byte buffer. *)
Definition be_uint32 (b : list byte) : Z :=
  match b with
  | [b0; b1; b2; b3] =>
      Z.lor (Z.lor (Z.lor (byte_to_Z b3) (Z.shiftl (byte_to_Z b2) 8))
                   (Z.shiftl (byte_to_Z b1) 16))
            (Z.shiftl (byte_to_Z b0) 24)
  | _ => 0
  end.

Definition le_uint32 (b : list byte) : Z :=
  match b with
  | [b0; b1; b2; b3] =>
      Z.lor (Z.lor (Z.lor (byte_to_Z b0) (Z.shiftl (byte_to_Z b1) 8))
                   (Z.shiftl (byte_to_Z b2) 16))
            (Z.shiftl (byte_to_Z b3) 24)
  | _ => 0
  end.

Definition le_uint16 (b0 b1 : byte) : Z :=
  Z.lor (byte_to_Z b0) (Z.shiftl (byte_to_Z b1) 8).

(** [binary.LittleEndian.PutUint16] and [PutUint32], as [binary.Write] uses
    them for the fields of a struct. *)
Definition put_le16 (x : Z) : list byte :=
  [byte_of_Z x; byte_of_Z (Z.shiftr x 8)].

Definition put_le32 (x : Z) : list byte :=
  [byte_of_Z x; byte_of_Z (Z.shiftr x 8);
   byte_of_Z (Z.shiftr x 16); byte_of_Z (Z.shiftr x 24)].

Definition put_be32 (x : Z) : list byte := rev (put_le32 x).

(** [string(b)] for a byte slice and [[]byte(s)] for a string. *)
Definition string_of_bytes (b : list byte) : string := string_of_list_byte b.
Definition bytes_of_string (s : string) : list byte := list_byte_of_string s.

(** [strings.TrimSuffix]. *)
Fixpoint string_rev_acc (s acc : string) : string :=
  match s with
  | EmptyString => acc
  | String c r => string_rev_acc r (String c acc)
  end.
Definition string_rev (s : string) : string := string_rev_acc s EmptyString.

Fixpoint strip_prefix (p s : string) : option string :=
  match p, s with
  | EmptyString, _ => Some s
  | String a p', String b s' => if Ascii.eqb a b then strip_prefix p' s' else None
  | String _ _, EmptyString => None
  end.

Definition TrimSuffix (s suffix : string) : string :=
  match strip_prefix (string_rev suffix) (string_rev s) with
  | Some r => string_rev r
  | None => s
  end.

(** ** Package ebl: types.go and parser.go *)

Module ebl.

(** *** types.go

    A field [F] of a struct [T] that [EBLFile] embeds is [T_F]; the fields of
    [EBLFile] keep their names, except the four embedded headers and the
    metadata block, which would clash with the names of their types
    ([Hdr1] ... [Hdr4], [HdrData]). *)

Record Header1 := mkHeader1 {
  Header1_Prefix : list byte;
  Header1_FileSize : Z;
  Header1_Read : Z }.

Record Header2 := mkHeader2 {
  Header2_Prefix : list byte;
  Header2_NextHeaderBytes : Z;
  Header2_Read : Z }.

Record Header3 := mkHeader3 {
  Header3_Prefix : list byte;
  Header3_DataSize : Z;
  Header3_Data : Z;
  Header3_Zeros : list byte;
  Header3_Filename : string;
  Header3_Read : Z }.

Record Header4 := mkHeader4 {
  Header4_Prefix : list byte;
  Header4_Size : Z;
  Header4_Data : list byte;
  Header4_Read : Z }.

Record HeaderData := mkHeaderData {
  HeaderData_Filename : list byte;
  HeaderData_FilenameStr : string;
  HeaderData_V1 : Z;
  HeaderData_V2 : Z;
  HeaderData_V3 : Z;
  HeaderData_V4 : Z;
  HeaderData_V5 : Z;
  HeaderData_V6 : Z;
  HeaderData_V7 : Z;
  HeaderData_V8 : Z;
  HeaderData_V9 : Z;
  HeaderData_SampleRate : Z;
  HeaderData_V11 : Z;
  HeaderData_V12 : Z;
  HeaderData_Comment : list byte;
  HeaderData_CommentStr : string;
  HeaderData_Read : Z }.

Record EBLFile := mkEBLFile {
  Filename : string;
  Path : string;
  Size : Z;
  Read : Z;
  Hdr1 : Header1;
  Hdr2 : Header2;
  Hdr3 : Header3;
  Padding : Z;
  Hdr4 : Header4;
  HdrData : HeaderData;
  Channel1Size : Z;
  Channel2Size : Z;
  DataSizeCalc : Z;
  HeaderRead : Z;
  DataSizeEst : Z;
  Channel1Data : list byte;
  Channel2Data : list byte }.

(** Go's zero values. *)
Definition zeroHeader1 := mkHeader1 [] 0 0.
Definition zeroHeader2 := mkHeader2 [] 0 0.
Definition zeroHeader3 := mkHeader3 [] 0 0 [] EmptyString 0.
Definition zeroHeader4 := mkHeader4 [] 0 [] 0.
Definition zeroHeaderData :=
  mkHeaderData [] EmptyString 0 0 0 0 0 0 0 0 0 0 0 0 [] EmptyString 0.

(** Assignments to the fields of [*EBLFile]. *)
Definition set_Read (v : Z) (f : EBLFile) : EBLFile :=
  mkEBLFile (Filename f) (Path f) (Size f) v (Hdr1 f) (Hdr2 f) (Hdr3 f)
    (Padding f) (Hdr4 f) (HdrData f) (Channel1Size f) (Channel2Size f)
    (DataSizeCalc f) (HeaderRead f) (DataSizeEst f) (Channel1Data f)
    (Channel2Data f).
Definition add_Read (v : Z) (f : EBLFile) : EBLFile := set_Read (Read f + v) f.
Definition set_Header1 (v : Header1) (f : EBLFile) : EBLFile :=
  mkEBLFile (Filename f) (Path f) (Size f) (Read f) v (Hdr2 f) (Hdr3 f)
    (Padding f) (Hdr4 f) (HdrData f) (Channel1Size f) (Channel2Size f)
    (DataSizeCalc f) (HeaderRead f) (DataSizeEst f) (Channel1Data f)
    (Channel2Data f).
Definition set_Header2 (v : Header2) (f : EBLFile) : EBLFile :=
  mkEBLFile (Filename f) (Path f) (Size f) (Read f) (Hdr1 f) v (Hdr3 f)
    (Padding f) (Hdr4 f) (HdrData f) (Channel1Size f) (Channel2Size f)
    (DataSizeCalc f) (HeaderRead f) (DataSizeEst f) (Channel1Data f)
    (Channel2Data f).
Definition set_Header3 (v : Header3) (f : EBLFile) : EBLFile :=
  mkEBLFile (Filename f) (Path f) (Size f) (Read f) (Hdr1 f) (Hdr2 f) v
    (Padding f) (Hdr4 f) (HdrData f) (Channel1Size f) (Channel2Size f)
    (DataSizeCalc f) (HeaderRead f) (DataSizeEst f) (Channel1Data f)
    (Channel2Data f).
Definition set_Padding (v : Z) (f : EBLFile) : EBLFile :=
  mkEBLFile (Filename f) (Path f) (Size f) (Read f) (Hdr1 f) (Hdr2 f) (Hdr3 f)
    v (Hdr4 f) (HdrData f) (Channel1Size f) (Channel2Size f)
    (DataSizeCalc f) (HeaderRead f) (DataSizeEst f) (Channel1Data f)
    (Channel2Data f).
Definition set_Header4 (v : Header4) (f : EBLFile) : EBLFile :=
  mkEBLFile (Filename f) (Path f) (Size f) (Read f) (Hdr1 f) (Hdr2 f) (Hdr3 f)
    (Padding f) v (HdrData f) (Channel1Size f) (Channel2Size f)
    (DataSizeCalc f) (HeaderRead f) (DataSizeEst f) (Channel1Data f)
    (Channel2Data f).
Definition set_HeaderData (v : HeaderData) (f : EBLFile) : EBLFile :=
  mkEBLFile (Filename f) (Path f) (Size f) (Read f) (Hdr1 f) (Hdr2 f) (Hdr3 f)
    (Padding f) (Hdr4 f) v (Channel1Size f) (Channel2Size f)
    (DataSizeCalc f) (HeaderRead f) (DataSizeEst f) (Channel1Data f)
    (Channel2Data f).
Definition set_Channel1Size (v : Z) (f : EBLFile) : EBLFile :=
  mkEBLFile (Filename f) (Path f) (Size f) (Read f) (Hdr1 f) (Hdr2 f) (Hdr3 f)
    (Padding f) (Hdr4 f) (HdrData f) v (Channel2Size f)
    (DataSizeCalc f) (HeaderRead f) (DataSizeEst f) (Channel1Data f)
    (Channel2Data f).
Definition set_Channel2Size (v : Z) (f : EBLFile) : EBLFile :=
  mkEBLFile (Filename f) (Path f) (Size f) (Read f) (Hdr1 f) (Hdr2 f) (Hdr3 f)
    (Padding f) (Hdr4 f) (HdrData f) (Channel1Size f) v
    (DataSizeCalc f) (HeaderRead f) (DataSizeEst f) (Channel1Data f)
    (Channel2Data f).
Definition set_DataSizeCalc (v : Z) (f : EBLFile) : EBLFile :=
  mkEBLFile (Filename f) (Path f) (Size f) (Read f) (Hdr1 f) (Hdr2 f) (Hdr3 f)
    (Padding f) (Hdr4 f) (HdrData f) (Channel1Size f) (Channel2Size f)
    v (HeaderRead f) (DataSizeEst f) (Channel1Data f) (Channel2Data f).
Definition set_HeaderRead (v : Z) (f : EBLFile) : EBLFile :=
  mkEBLFile (Filename f) (Path f) (Size f) (Read f) (Hdr1 f) (Hdr2 f) (Hdr3 f)
    (Padding f) (Hdr4 f) (HdrData f) (Channel1Size f) (Channel2Size f)
    (DataSizeCalc f) v (DataSizeEst f) (Channel1Data f) (Channel2Data f).
Definition set_DataSizeEst (v : Z) (f : EBLFile) : EBLFile :=
  mkEBLFile (Filename f) (Path f) (Size f) (Read f) (Hdr1 f) (Hdr2 f) (Hdr3 f)
    (Padding f) (Hdr4 f) (HdrData f) (Channel1Size f) (Channel2Size f)
    (DataSizeCalc f) (HeaderRead f) v (Channel1Data f) (Channel2Data f).
Definition set_Channel1Data (v : list byte) (f : EBLFile) : EBLFile :=
  mkEBLFile (Filename f) (Path f) (Size f) (Read f) (Hdr1 f) (Hdr2 f) (Hdr3 f)
    (Padding f) (Hdr4 f) (HdrData f) (Channel1Size f) (Channel2Size f)
    (DataSizeCalc f) (HeaderRead f) (DataSizeEst f) v (Channel2Data f).
Definition set_Channel2Data (v : list byte) (f : EBLFile) : EBLFile :=
  mkEBLFile (Filename f) (Path f) (Size f) (Read f) (Hdr1 f) (Hdr2 f) (Hdr3 f)
    (Padding f) (Hdr4 f) (HdrData f) (Channel1Size f) (Channel2Size f)
    (DataSizeCalc f) (HeaderRead f) (DataSizeEst f) (Channel1Data f) v.

(** *** The parser's effects *)

Record Parser := mkParser { debug : bool; errorSave : bool }.

Definition NewParser (debug errorSave : bool) : Parser :=
  mkParser debug errorSave.

(** [io.EOF] and [io.ErrUnexpectedEOF], the two errors a read of a regular
    file of known content can return. *)
Inductive ioerr := EOF | ErrUnexpectedEOF.

(** The errors [ReadFile] builds with [fmt.Errorf], by the text of their
    format: ["error reading <what>: %w"], the same followed by
    ["(read %d of %d bytes)"] (or ["(read %d of 4 bytes)"]), and
    ["invalid EBL file: expected <expected> prefix, got %s (hex: %x)"]. *)
Inductive error :=
| ReadError (what : string) (err : ioerr)
| ReadErrorPartial (what : string) (err : ioerr) (bytesRead : nat) (want : Z)
| InvalidPrefix (expected : string) (got : list byte).

(** A line handed to [Debug]: the format of [fmt.Sprintf] and its
    arguments, left unformatted. *)
Inductive arg :=
| AInt (z : Z)
| ABytes (b : list byte)
| AStr (s : string)
| AErr (e : ioerr).

Record msg := Sprintf { format : string; args : list arg }.

(** The open file: its content and the offset of the next read. *)
Record File := mkFile { content : list byte; offset : nat }.

Record state := mkState {
  file : File;
  eblFile : EBLFile;
  stdout : list msg }.

Inductive outcome (A : Type) :=
| Ok (a : A) (s : state)
| Fail (e : error) (s : state)
| Panic (s : state).
Arguments Ok {A} a s.
Arguments Fail {A} e s.
Arguments Panic {A} s.

Definition M (A : Type) : Type := state -> outcome A.

Definition ret {A} (a : A) : M A := fun s => Ok a s.

Definition bind {A B} (m : M A) (k : A -> M B) : M B :=
  fun s =>
    match m s with
    | Ok a s' => k a s'
    | Fail e s' => Fail e s'
    | Panic s' => Panic s'
    end.

(** [return nil, err]. *)
Definition fail {A} (e : error) : M A := fun s => Fail e s.
Definition panic {A} : M A := fun s => Panic s.

#[export] Instance M_ret : MRet M := @ret.
#[export] Instance M_bind : MBind M := fun A B k m => bind m k.

Definition get_ebl : M EBLFile := fun s => Ok (eblFile s) s.

Definition modify_ebl (g : EBLFile -> EBLFile) : M unit :=
  fun s => Ok tt (mkState (file s) (g (eblFile s)) (stdout s)).

Definition when (b : bool) (m : M unit) : M unit := if b then m else ret tt.

(** [func (p *Parser) Debug(message string)]: prints when debug mode is on. *)
Definition Debug (p : Parser) (message : msg) : M unit :=
  fun s =>
    if debug p then Ok tt (mkState (file s) (eblFile s) (stdout s ++ [message]))
    else Ok tt s.

(** [dumpHex(data, maxLen)]: the bytes that [hex.Dump] formats. *)
Definition dumpHex (data : list byte) (maxLen : nat) : arg :=
  ABytes (if decide (maxLen < length data)%nat then take maxLen data else data).

(** [make([]byte, n)]: panics when [n] is negative. *)
Definition make (n : Z) : M (list byte) :=
  if n <? 0 then panic else ret (zeros (Z.to_nat n)).

(** The bytes of the file that have not been read. *)
Definition remaining (f : File) : list byte := drop (offset f) (content f).

Definition advance (n : nat) (s : state) : state :=
  mkState (mkFile (content (file s)) (offset (file s) + n)) (eblFile s)
    (stdout s).

(** [file.Read(buf)] on a regular file: one [read] system call, which gives
    as many bytes as the buffer takes or the file has left (buffers beyond
    the limit of a single system call, a gigabyte or more, are left aside);
    [io.EOF] when the buffer is not empty and nothing is left.  The result
    is the buffer, the count and the error. *)
Definition file_Read (buf : list byte) : M (list byte * nat * option ioerr) :=
  fun s =>
    let rest := remaining (file s) in
    match buf, rest with
    | [], _ => Ok (buf, O, None) s
    | _, [] => Ok (buf, O, Some EOF) s
    | _, _ =>
        let n := Nat.min (length buf) (length rest) in
        Ok (take n rest ++ drop n buf, n, None) (advance n s)
    end.

(** [io.ReadFull(file, buf)]: reads until the buffer is full; [io.EOF] when
    nothing could be read, [io.ErrUnexpectedEOF] when the file ends before
    the buffer is full. *)
Definition io_ReadFull (buf : list byte) : M (nat * option ioerr * list byte) :=
  fun s =>
    let rest := remaining (file s) in
    if decide (length buf <= length rest)%nat then
      Ok (length buf, None, take (length buf) rest) (advance (length buf) s)
    else
      match rest with
      | [] => Ok (O, Some EOF, buf) s
      | _ =>
          Ok (length rest, Some ErrUnexpectedEOF,
              rest ++ drop (length rest) buf) (advance (length rest) s)
      end.

(** [binary.Read(file, order, &x)] for a [uint32]: [io.ReadFull] of four
    bytes, decoded in the given order; [x] keeps its value on an error. *)
Inductive ByteOrder := BigEndian | LittleEndian.

Definition Uint32 (order : ByteOrder) (b : list byte) : Z :=
  match order with
  | BigEndian => be_uint32 b
  | LittleEndian => le_uint32 b
  end.

Definition binary_Read (order : ByteOrder) : M (Z * option ioerr) :=
  '(_, err, bs) ← io_ReadFull (zeros 4);
  match err with
  | Some e => ret (0, Some e)
  | None => ret (Uint32 order bs, None)
  end.

(** [binary.Read] followed by [if err != nil { return nil, fmt.Errorf(...) }]. *)
Definition read_u32 (order : ByteOrder) (what : string) : M Z :=
  '(x, err) ← binary_Read order;
  match err with
  | Some e => fail (ReadError what e)
  | None => ret x
  end.

(** [buf := make([]byte, n)] followed by [file.Read(buf)] and the same test
    of the error. *)
Definition read_buf (n : nat) (what : string) : M (list byte) :=
  '(buf, _, err) ← file_Read (zeros n);
  match err with
  | Some e => fail (ReadError what e)
  | None => ret buf
  end.

(** *** decodeUTF16 *)

(** [utf16.Decode]: a surrogate pair gives one rune, a lone surrogate the
    replacement character. *)
Definition surr1 : Z := 55296.
Definition surr2 : Z := 56320.
Definition surr3 : Z := 57344.
Definition replacementChar : Z := 65533.

Fixpoint utf16_Decode (s : list Z) : list Z :=
  match s with
  | [] => []
  | r :: rest =>
      if (r <? surr1) || (surr3 <=? r) then r :: utf16_Decode rest
      else
        match rest with
        | r2 :: rest' =>
            if (r <? surr2) && (surr2 <=? r2) && (r2 <? surr3)
            then (Z.lor (Z.shiftl (r - surr1) 10) (r2 - surr2) + 65536)
                   :: utf16_Decode rest'
            else replacementChar :: utf16_Decode rest
        | [] => [replacementChar]
        end
  end.

(** The UTF-8 encoding of a rune, as [string(runes)] appends it. *)
Definition utf8_EncodeRune (r : Z) : list byte :=
  let r := if (r <? 0) || (1114111 <? r) || ((surr1 <=? r) && (r <? surr3))
           then replacementChar else r in
  if r <? 128 then [byte_of_Z r]
  else if r <? 2048 then
    [byte_of_Z (Z.lor 192 (Z.shiftr r 6)); byte_of_Z (Z.lor 128 (Z.land r 63))]
  else if r <? 65536 then
    [byte_of_Z (Z.lor 224 (Z.shiftr r 12));
     byte_of_Z (Z.lor 128 (Z.land (Z.shiftr r 6) 63));
     byte_of_Z (Z.lor 128 (Z.land r 63))]
  else
    [byte_of_Z (Z.lor 240 (Z.shiftr r 18));
     byte_of_Z (Z.lor 128 (Z.land (Z.shiftr r 12) 63));
     byte_of_Z (Z.lor 128 (Z.land (Z.shiftr r 6) 63));
     byte_of_Z (Z.lor 128 (Z.land r 63))].

Definition string_of_runes (runes : list Z) : string :=
  string_of_bytes (concat (map utf8_EncodeRune runes)).

(** [strings.TrimRight(s, "\x00")]. *)
Fixpoint TrimRight_nul (s : string) : string :=
  match s with
  | EmptyString => EmptyString
  | String c r =>
      match TrimRight_nul r with
      | EmptyString => if Ascii.eqb c zero then EmptyString else String c EmptyString
      | r' => String c r'
      end
  end.

(** The loop [for i := 0; i < len(b); i += 2] over an even number of bytes. *)
Fixpoint u16s_of_bytes (b : list byte) : list Z :=
  match b with
  | b0 :: b1 :: rest => le_uint16 b0 b1 :: u16s_of_bytes rest
  | _ => []
  end.

Definition decodeUTF16 (b : list byte) : string :=
  let b := if Nat.eqb (length b mod 2) 0 then b else take (length b - 1) b in
  let u16s := u16s_of_bytes b in
  let runes := utf16_Decode u16s in
  TrimRight_nul (string_of_runes runes).

(** *** ReadFile, stage by stage *)

(** [filepath.Base] on a slash-separated path. *)
Fixpoint drop_trailing_slashes (s : string) : string :=
  match s with
  | EmptyString => EmptyString
  | String c r =>
      match drop_trailing_slashes r with
      | EmptyString => if Ascii.eqb c "/" then EmptyString else String c EmptyString
      | r' => String c r'
      end
  end.

Fixpoint after_last_slash (s : string) : string :=
  match s with
  | EmptyString => EmptyString
  | String c r =>
      if existsb (Ascii.eqb "/"%char) (list_ascii_of_string r)
      then after_last_slash r
      else if Ascii.eqb c "/" then r else s
  end.

Definition filepath_Base (path : string) : string :=
  match path with
  | EmptyString => "."
  | _ =>
      match drop_trailing_slashes path with
      | EmptyString => "/"
      | p => after_last_slash p
      end
  end.

Definition prefix_arg (b : list byte) : list arg :=
  [AStr (string_of_bytes b); ABytes b].

(** Read Header 1 (8 bytes). *)
Definition readHeader1 (p : Parser) : M unit :=
  prefix ← read_buf 4 "prefix";
  when (debug p) (Debug p (Sprintf "Header 1 prefix: %s (hex: %x)" (prefix_arg prefix)));;
  if negb (String.eqb (string_of_bytes prefix) "FORM") then
    when (debug p)
      (Debug p (Sprintf "Invalid Header 1 prefix. Expected 'FORM', got:\n%s"
                  [dumpHex prefix 4]));;
    fail (InvalidPrefix "FORM" prefix)
  else
    filesize ← read_u32 BigEndian "file size";
    modify_ebl (set_Header1 (mkHeader1 prefix filesize 8));;
    modify_ebl (set_Read 8);;
    when (debug p) (Debug p (Sprintf "Header 1 filesize: %d" [AInt filesize])).

(** Read Header 2 (12 bytes). *)
Definition readHeader2 (p : Parser) : M unit :=
  prefix2 ← read_buf 8 "header 2 prefix";
  when (debug p) (Debug p (Sprintf "Header 2 prefix: %s (hex: %x)" (prefix_arg prefix2)));;
  if negb (String.eqb (string_of_bytes prefix2) "E5B0TOC2") then
    when (debug p)
      (Debug p (Sprintf "Invalid Header 2 prefix. Expected 'E5B0TOC2', got:\n%s"
                  [dumpHex prefix2 8]));;
    fail (InvalidPrefix "E5B0TOC2" prefix2)
  else
    nextHeaderBytes ← read_u32 BigEndian "next header bytes";
    when (debug p)
      (Debug p (Sprintf "Header 2 nextHeaderBytes: %d" [AInt nextHeaderBytes]));;
    modify_ebl (set_Header2 (mkHeader2 prefix2 nextHeaderBytes 12));;
    modify_ebl (add_Read 12).

(** Read Header 3 (78 bytes); the result is the decoded filename. *)
Definition readHeader3 (p : Parser) : M string :=
  prefix3 ← read_buf 4 "header 3 prefix";
  when (debug p) (Debug p (Sprintf "Header 3 prefix: %s (hex: %x)" (prefix_arg prefix3)));;
  if negb (String.eqb (string_of_bytes prefix3) "E5S1") then
    when (debug p)
      (Debug p (Sprintf "Invalid Header 3 prefix. Expected 'E5S1', got:\n%s"
                  [dumpHex prefix3 4]));;
    fail (InvalidPrefix "E5S1" prefix3)
  else
    dataSize ← read_u32 BigEndian "data size";
    data ← read_u32 BigEndian "data";
    when (debug p)
      (Debug p (Sprintf "Header 3 dataSize: %d, data: %d" [AInt dataSize; AInt data]));;
    zeros ← read_buf 2 "zeros";
    filenameBytes ← read_buf 64 "filename";
    let filename := decodeUTF16 filenameBytes in
    modify_ebl (set_Header3 (mkHeader3 prefix3 dataSize data zeros filename 74));;
    modify_ebl (add_Read 74);;
    when (debug p) (Debug p (Sprintf "Header 3 filename: %s" [AStr filename]));;
    ret filename.

(** What the padding after Header 3 tells about Header 4:
    [foundHeader4InPadding], [header4PrefixFromPadding] and
    [header4SizeBytes] ([None] for the nil slice). *)
Record Lookahead := mkLookahead {
  foundHeader4InPadding : bool;
  header4PrefixFromPadding : list byte;
  header4SizeBytes : option (list byte) }.

(** Handle padding if necessary. *)
Definition readPadding (p : Parser) : M Lookahead :=
  f ← get_ebl;
  let header3Padding := Header3_Data (Hdr3 f) - Read f in
  if 0 <? header3Padding then
    modify_ebl (set_Padding header3Padding);;
    padding ← make header3Padding;
    when (debug p)
      (Debug p (Sprintf "Reading %d bytes of padding after Header 3"
                  [AInt header3Padding]));;
    '(padding, bytesRead, err) ← file_Read padding;
    match err with
    | Some e =>
        when (debug p)
          (Debug p (Sprintf "Error reading padding: %v (read %d of %d bytes)"
                      [AErr e; AInt (Z.of_nat bytesRead); AInt header3Padding]);;
           when (0 <? bytesRead)%nat
             (Debug p (Sprintf "Partial padding data:\n%s"
                         [dumpHex (take bytesRead padding) bytesRead])));;
        fail (ReadErrorPartial "padding" e bytesRead header3Padding)
    | None =>
        modify_ebl (add_Read header3Padding);;
        when (debug p && (0 <? bytesRead)%nat)
          (Debug p (Sprintf "Padding data (first 16 bytes if available):\n%s"
                      [dumpHex padding 16]));;
        if (4 <=? bytesRead)%nat
           && String.eqb (string_of_bytes (take 4 padding)) "E5S1" then
          when (debug p)
            (Debug p (Sprintf "Found Header 4 prefix (E5S1) in the padding bytes" []));;
          if (8 <=? bytesRead)%nat then
            let sizeBytes := take 4 (drop 4 padding) in
            when (debug p)
              (Debug p (Sprintf "Also found Header 4 size bytes in padding: %x"
                          [ABytes sizeBytes]));;
            ret (mkLookahead true (take 4 padding) (Some sizeBytes))
          else ret (mkLookahead true (take 4 padding) None)
        else ret (mkLookahead false [] None)
    end
  else
    modify_ebl (set_Padding 0);;
    when (debug p)
      (Debug p (Sprintf "No padding needed (header3Padding = %d)"
                  [AInt header3Padding]));;
    ret (mkLookahead false [] None).

(** Read Header 4 (14 bytes), or take from the padding what was found
    there.  [header4Start] is the [if foundHeader4InPadding] statement, which
    sets [prefix4] and [size]. *)
Definition header4Start (p : Parser) (la : Lookahead) : M (list byte * Z) :=
  if foundHeader4InPadding la then
    let prefix4 := header4PrefixFromPadding la in
    size ← match header4SizeBytes la with
           | Some b => ret (be_uint32 b)
           | None => read_u32 BigEndian "size after found header 4 prefix"
           end;
    when (debug p)
      (Debug p (Sprintf "Using Header 4 prefix from padding: %s (hex: %x)"
                  (prefix_arg prefix4));;
       Debug p (Sprintf "Header 4 size: %d" [AInt size]));;
    ret (prefix4, size)
  else
    '(prefix4, bytesRead, err) ← file_Read (zeros 4);
    match err with
    | Some e =>
        when (debug p)
          (Debug p (Sprintf "Error reading header 4 prefix: %v (read %d of 4 bytes)"
                      [AErr e; AInt (Z.of_nat bytesRead)]);;
           when (0 <? bytesRead)%nat
             (Debug p (Sprintf "Partial header 4 prefix:\n%s"
                         [dumpHex (take bytesRead prefix4) bytesRead])));;
        fail (ReadErrorPartial "header 4 prefix" e bytesRead 4)
    | None =>
        when (debug p)
          (Debug p (Sprintf "Header 4 prefix: %s (hex: %x)" (prefix_arg prefix4)));;
        if negb (String.eqb (string_of_bytes prefix4) "E5S1") then
          when (debug p)
            ('(remainingBytes, remainingBytesRead, _) ← file_Read (zeros 20);
             Debug p (Sprintf "Invalid Header 4 prefix. Expected 'E5S1', got '%s' (hex: %x)"
                        (prefix_arg prefix4));;
             Debug p (Sprintf "Next %d bytes after invalid Header 4 prefix:\n%s"
                        [AInt (Z.of_nat remainingBytesRead);
                         dumpHex (take remainingBytesRead remainingBytes)
                           remainingBytesRead]));;
          fail (InvalidPrefix "E5S1" prefix4)
        else
          size ← read_u32 BigEndian "size";
          when (debug p) (Debug p (Sprintf "Header 4 size: %d" [AInt size]));;
          ret (prefix4, size)
    end.

Definition readHeader4 (p : Parser) (la : Lookahead) : M unit :=
  '(prefix4, size) ← header4Start p la;
  data4 ← read_buf 6 "data";
  when (debug p) (Debug p (Sprintf "Header 4 data: %x" [ABytes data4]));;
  let header4ReadBytes :=
    if foundHeader4InPadding la then
      match header4SizeBytes la with
      | Some _ => 6
      | None => 10
      end
    else 14 in
  modify_ebl (set_Header4 (mkHeader4 prefix4 size data4 header4ReadBytes));;
  modify_ebl (add_Read header4ReadBytes).

(** Read Header Data: the second filename, the twelve words, the comment. *)
Definition readHeaderData (p : Parser) (filename : string) : M unit :=
  filenameBytes2 ← read_buf 64 "filename";
  let filename2 := decodeUTF16 filenameBytes2 in
  when (debug p && negb (String.eqb filename filename2))
    (Debug p (Sprintf "Filename mismatch: Header3=%s, HeaderData=%s"
                [AStr filename; AStr filename2]));;
  v1 ← read_u32 LittleEndian "v1";
  v2 ← read_u32 LittleEndian "v2";
  v3 ← read_u32 LittleEndian "v3";
  v4 ← read_u32 LittleEndian "v4";
  v5 ← read_u32 LittleEndian "v5";
  v6 ← read_u32 LittleEndian "v6";
  v7 ← read_u32 LittleEndian "v7";
  v8 ← read_u32 LittleEndian "v8";
  v9 ← read_u32 LittleEndian "v9";
  sampleRate ← read_u32 LittleEndian "frequency";
  v11 ← read_u32 LittleEndian "v11";
  v12 ← read_u32 LittleEndian "v12";
  comment ← read_buf 64 "comment";
  let commentStr := decodeUTF16 comment in
  when (debug p)
    (Debug p (Sprintf "HeaderData values: v1=%d, v2=%d, v3=%d, v4=%d, v5=%d, frequency=%d"
                [AInt v1; AInt v2; AInt v3; AInt v4; AInt v5; AInt sampleRate]);;
     when (negb (String.eqb commentStr ""))
       (Debug p (Sprintf "Comment: %s" [AStr commentStr])));;
  modify_ebl (set_HeaderData
    (mkHeaderData filenameBytes2 filename2 v1 v2 v3 v4 v5 v6 v7 v8 v9
       sampleRate v11 v12 comment commentStr 176));;
  modify_ebl (add_Read 176).

(** Calculate channel sizes: the two differences, and the mono rule. *)
Definition channelSizes (p : Parser) : M unit :=
  f ← get_ebl;
  modify_ebl (set_Channel1Size (HeaderData_V3 (HdrData f) - HeaderData_V2 (HdrData f)));;
  modify_ebl (set_Channel2Size (HeaderData_V5 (HdrData f) - HeaderData_V4 (HdrData f)));;
  f ← get_ebl;
  when (debug p)
    (Debug p (Sprintf "Channel sizes: Channel1=%d, Channel2=%d"
                [AInt (Channel1Size f); AInt (Channel2Size f)]));;
  (if Channel1Size f =? Channel2Size f then
     Debug p (Sprintf "Channels same Length" []);;
     if Channel1Size f =? 0 then
       Debug p (Sprintf "MONO DETECTED" []);;
       modify_ebl (set_Channel1Size
         (HeaderData_V4 (HdrData f) - HeaderData_V3 (HdrData f) + 2));;
       modify_ebl (set_Channel2Size 0);;
       f ← get_ebl;
       Debug p (Sprintf "Updated Channel1 size for mono: %d" [AInt (Channel1Size f)])
     else ret tt
   else
     when (negb (wrap64 (Channel1Size f * Channel2Size f) =? 0))
       (Debug p (Sprintf "Error: Channels Different length. C1: %d, C2: %d"
                   [AInt (Channel1Size f); AInt (Channel2Size f)])));;
  f ← get_ebl;
  modify_ebl (set_DataSizeCalc (Channel1Size f + Channel2Size f)).

(** Handle data padding. *)
Definition readDataPadding (p : Parser) : M unit :=
  f ← get_ebl;
  let dataPadding := HeaderData_V5 (HdrData f) - DataSizeCalc f - 178 in
  when (0 <? dataPadding)
    (Debug p (Sprintf "Reading %d bytes of data padding" [AInt dataPadding]);;
     padding ← make dataPadding;
     '(_, _, err) ← file_Read padding;
     match err with
     | Some e => fail (ReadError "data padding" e)
     | None => modify_ebl (add_Read dataPadding)
     end);;
  f ← get_ebl;
  modify_ebl (set_HeaderRead (Read f));;
  f ← get_ebl;
  modify_ebl (set_DataSizeEst (Size f - HeaderRead f));;
  when (debug p)
    (Debug p (Sprintf "About to read audio data: Channel1Size=%d, Channel2Size=%d"
                [AInt (Channel1Size f); AInt (Channel2Size f)])).

(** Read audio data. *)
Definition readAudio (p : Parser) : M unit :=
  f ← get_ebl;
  buf ← make (Channel1Size f);
  '(bytesRead, err, buf) ← io_ReadFull buf;
  modify_ebl (set_Channel1Data buf);;
  match err with
  | Some e =>
      when (debug p)
        (Debug p (Sprintf "Error reading channel 1 data: %v (read %d of %d bytes)"
                    [AErr e; AInt (Z.of_nat bytesRead); AInt (Channel1Size f)]));;
      fail (ReadErrorPartial "channel 1 data" e bytesRead (Channel1Size f))
  | None =>
      modify_ebl (add_Read (Channel1Size f));;
      buf ← make (Channel2Size f);
      '(bytesRead, err, buf) ← io_ReadFull buf;
      modify_ebl (set_Channel2Data buf);;
      match err with
      | Some e =>
          when (debug p)
            (Debug p (Sprintf "Error reading channel 2 data: %v (read %d of %d bytes)"
                        [AErr e; AInt (Z.of_nat bytesRead); AInt (Channel2Size f)]));;
          fail (ReadErrorPartial "channel 2 data" e bytesRead (Channel2Size f))
      | None => modify_ebl (add_Read (Channel2Size f))
      end
  end.

(** Check if we've reached the end of the file.  [tryTrailer] is the
    attempt to read the 4-byte trailer; it tells whether [ReadFile] returned
    from inside it. *)
Definition tryTrailer (p : Parser) (difference : Z) : M bool :=
  if difference =? 4 then
    '(trailer, bytesRead, err) ← file_Read (zeros 4);
    match err with
    | None =>
        if (bytesRead =? 4)%nat then
          modify_ebl (add_Read 4);;
          when (debug p)
            (Debug p (Sprintf "Read 4-byte trailer: %x" [ABytes trailer]));;
          ret true
        else ret false
    | Some _ => ret false
    end
  else ret false.

Definition checkEnd (p : Parser) : M unit :=
  f ← get_ebl;
  let endOfData := Read f in
  if negb (endOfData =? Size f) then
    let difference := Size f - endOfData in
    returned ← tryTrailer p difference;
    if returned : bool then ret tt
    else if negb (difference =? 40) && negb (difference =? 4) then
      Debug p (Sprintf "ERROR: Inconsistent filesize: Read: %d, Expected: %d, Difference: %d"
                 [AInt endOfData; AInt (Size f); AInt difference])
    else if difference =? 40 then
      Debug p (Sprintf "WARN: Found 40 bytes. Additional data header." [])
    else ret tt
  else ret tt.

(** The state in which [ReadFile] starts, once [os.Open] and [file.Stat]
    have succeeded on a file of content [data]. *)
Definition initial (inputFile : string) (data : list byte) : state :=
  mkState (mkFile data 0)
    (mkEBLFile (filepath_Base inputFile) inputFile (Z.of_nat (length data)) 0
       zeroHeader1 zeroHeader2 zeroHeader3 0 zeroHeader4 zeroHeaderData
       0 0 0 0 0 [] [])
    [].

(** The stages up to and including the fixed metadata block, then the
    stages that depend on its words. *)
Definition readHeaders (p : Parser) : M unit :=
  readHeader1 p;;
  readHeader2 p;;
  filename ← readHeader3 p;
  la ← readPadding p;
  readHeader4 p la;;
  readHeaderData p filename.

Definition readPayload (p : Parser) : M unit :=
  channelSizes p;;
  readDataPadding p;;
  readAudio p.

Definition parse (p : Parser) : M EBLFile :=
  readHeaders p;;
  readPayload p;;
  checkEnd p;;
  get_ebl.

(** [func (p *Parser) ReadFile(inputFile string, errorDir string)], for a
    file that opens: [data] is its content.  The results [(eblFile, nil)]
    and [(nil, err)] are [Ok] and [Fail]. *)
Definition ReadFile (p : Parser) (inputFile errorDir : string)
    (data : list byte) : outcome EBLFile :=
  parse p (initial inputFile data).

End ebl.
(** ** Package wav: types.go and the encoder *)

Module wav.

(** One iteration of the loop of [interleaveChannels]: the left sample is
    copied unconditionally, the right one under the guard
    [i*2+1 < len(channel2)]. *)
Definition interleave_body (channel1 channel2 : list byte) (i : nat)
    (result : list byte) : option (list byte) :=
  l0 ← index channel1 (i * 2);
  result ← store result (i * 4) l0;
  l1 ← index channel1 (i * 2 + 1);
  result ← store result (i * 4 + 1) l1;
  if decide (i * 2 + 1 < length channel2)%nat then
    r0 ← index channel2 (i * 2);
    result ← store result (i * 4 + 2) r0;
    r1 ← index channel2 (i * 2 + 1);
    store result (i * 4 + 3) r1
  else Some result.

(** [for i := i; i < i + n; i++ { body }], by recursion on the number [n] of
    iterations that remain. *)
Fixpoint interleave_loop (channel1 channel2 : list byte) (n i : nat)
    (result : list byte) : option (list byte) :=
  match n with
  | O => Some result
  | S n' =>
      result ← interleave_body channel1 channel2 i result;
      interleave_loop channel1 channel2 n' (S i) result
  end.

Definition interleaveChannels (channel1 channel2 : list byte)
    : option (list byte) :=
  let numSamples := (length channel1 / 2)%nat in
  let result := zeros (numSamples * 4) in
  interleave_loop channel1 channel2 numSamples 0 result.

(** The character class of the regular expression of [cleanFilename],
    [0-9a-zA-Z\.,:%\-_#], without its negation. *)
Definition in_class (c : ascii) : bool :=
  let n := nat_of_ascii c in
  ((48 <=? n) && (n <=? 57))%nat || ((97 <=? n) && (n <=? 122))%nat
  || ((65 <=? n) && (n <=? 90))%nat
  || Ascii.eqb c "." || Ascii.eqb c "," || Ascii.eqb c ":" || Ascii.eqb c "%"
  || Ascii.eqb c "-" || Ascii.eqb c "_" || Ascii.eqb c "#".

(** [regexp.MustCompile(`[^cls]+`).ReplaceAllString(s, repl)].  The matches
    are the leftmost, non-overlapping ones and [+] is greedy, so each match
    is a maximal run of characters outside the class.  The expression is
    matched on UTF-8 runes; every byte of a rune that is not ASCII (and every
    byte that is not valid UTF-8) is outside an ASCII class, so the runs of
    runes are the runs of bytes.  [in_match] tells that the previous
    character belongs to the match being replaced. *)
Fixpoint replace_runs (cls : ascii -> bool) (repl : string) (in_match : bool)
    (s : string) : string :=
  match s with
  | EmptyString => EmptyString
  | String c r =>
      if cls c then String c (replace_runs cls repl false r)
      else if in_match then replace_runs cls repl true r
      else (repl ++ replace_runs cls repl true r)%string
  end.

Definition cleanFilename (filename : string) : string :=
  replace_runs in_class "_" false filename.

(** *** types.go *)

Record WAVHeader := mkWAVHeader {
  RiffID : list byte;
  FileSize : Z;
  WaveID : list byte;
  FmtID : list byte;
  FmtSize : Z;
  AudioFormat : Z;
  NumChannels : Z;
  SampleRate : Z;
  ByteRate : Z;
  BlockAlign : Z;
  BitsPerSample : Z;
  DataID : list byte;
  DataSize : Z }.

(** [binary.Write(file, binary.LittleEndian, &header)]: the fields in the
    order of the struct, 44 bytes. *)
Definition binary_Write (h : WAVHeader) : list byte :=
  RiffID h ++ put_le32 (FileSize h) ++ WaveID h ++ FmtID h
  ++ put_le32 (FmtSize h) ++ put_le16 (AudioFormat h)
  ++ put_le16 (NumChannels h) ++ put_le32 (SampleRate h)
  ++ put_le32 (ByteRate h) ++ put_le16 (BlockAlign h)
  ++ put_le16 (BitsPerSample h) ++ DataID h ++ put_le32 (DataSize h).

(** *** The encoder *)

Record Encoder := mkEncoder {
  debug : bool;
  noWrite : bool;
  preserveFilename : bool;
  exbName : string }.

Definition NewEncoder (debug noWrite preserveFilename : bool)
    (exbName : string) : Encoder :=
  mkEncoder debug noWrite preserveFilename exbName.

(** What the operating system does with the output file: which of
    [os.Create], the write of the header and the write of the audio data
    fails, if any. *)
Inductive fault := NoFault | CreateFault | HeaderFault | DataFault.

(** The errors of [WriteWAV], by the text of their format. *)
Inductive error :=
| ErrCreatingOutputFile
| ErrWritingHeader
| ErrWritingAudioData.

(** The file [filepath.Join(outputDir, outputFilename)] and the bytes that
    reached it. *)
Record Output := mkOutput {
  out_dir : string;
  out_name : string;
  out_bytes : list byte }.

(** The result of [WriteWAV]: the returned name and error, and the file it
    left behind, if it created one.  [WritePanic] is a run-time panic inside
    [interleaveChannels]. *)
Inductive result :=
| Return (outputFilename : string) (err : option error) (out : option Output)
| WritePanic.

(** The header [WriteWAV] builds and the payload [wavData], before any
    output. *)
Definition numChannels_of (eblFile : ebl.EBLFile) : Z :=
  if ebl.Channel2Size eblFile =? 0 then 1 else 2.

Definition wavData_of (eblFile : ebl.EBLFile) : option (list byte) :=
  if numChannels_of eblFile =? 1 then Some (ebl.Channel1Data eblFile)
  else interleaveChannels (ebl.Channel1Data eblFile) (ebl.Channel2Data eblFile).

Definition header_of (eblFile : ebl.EBLFile) (wavData : list byte) : WAVHeader :=
  let wavHeaderLength := 16 in
  let wavPCMMode := 1 in
  let wavBPS := 16 in
  let numChannels := numChannels_of eblFile in
  let sampleRate := uint32 (ebl.HeaderData_SampleRate (ebl.HdrData eblFile)) in
  let byteRate := uint32 (uint32 (sampleRate * numChannels) * wavBPS) / 8 in
  let blockAlign := uint16 (numChannels * wavBPS) / 8 in
  let dataSize := uint32 (Z.of_nat (length wavData)) in
  let fileSize := uint32 (36 + dataSize) in
  mkWAVHeader (bytes_of_string "RIFF") fileSize (bytes_of_string "WAVE")
    (bytes_of_string "fmt ") wavHeaderLength wavPCMMode numChannels sampleRate
    byteRate blockAlign wavBPS (bytes_of_string "data") dataSize.

(** Determine output filename. *)
Definition baseName_of (e : Encoder) (eblFile : ebl.EBLFile) : string :=
  if preserveFilename e then TrimSuffix (ebl.Filename eblFile) ".ebl"
  else
    let baseName := cleanFilename (ebl.HeaderData_FilenameStr (ebl.HdrData eblFile)) in
    let baseName :=
      if String.eqb baseName "" then
        cleanFilename (ebl.Header3_Filename (ebl.Hdr3 eblFile))
      else baseName in
    if String.eqb baseName "" then TrimSuffix (ebl.Filename eblFile) ".ebl"
    else baseName.

Definition outputFilename_of (e : Encoder) (eblFile : ebl.EBLFile) : string :=
  let baseName := baseName_of e eblFile in
  if negb (String.eqb (exbName e) "") then
    (exbName e ++ " - " ++ baseName ++ ".wav")%string
  else (baseName ++ ".wav")%string.

(** [func (e *Encoder) WriteWAV(eblFile *ebl.EBLFile, outputDir string)
    (string, error)]. *)
Definition WriteWAV (e : Encoder) (os : fault) (eblFile : ebl.EBLFile)
    (outputDir : string) : result :=
  match wavData_of eblFile with
  | None => WritePanic
  | Some wavData =>
      let header := header_of eblFile wavData in
      let outputFilename := outputFilename_of e eblFile in
      if noWrite e then Return outputFilename None None
      else
        match os with
        | CreateFault => Return "" (Some ErrCreatingOutputFile) None
        | HeaderFault =>
            Return "" (Some ErrWritingHeader)
              (Some (mkOutput outputDir outputFilename []))
        | DataFault =>
            Return "" (Some ErrWritingAudioData)
              (Some (mkOutput outputDir outputFilename (binary_Write header)))
        | NoFault =>
            Return outputFilename None
              (Some (mkOutput outputDir outputFilename
                       (binary_Write header ++ wavData)))
        end
  end.

End wav.

(** ** Package converter: ConvertFile *)

Module converter.

Record Options := mkOptions {
  Debug : bool;
  NoWrite : bool;
  PreserveFilename : bool;
  ErrorSave : bool;
  ExbName : string }.

Record Converter := mkConverter {
  options : Options;
  parser : ebl.Parser;
  encoder : wav.Encoder }.

Definition NewConverter (options : Options) : Converter :=
  mkConverter options
    (ebl.NewParser (Debug options) (ErrorSave options))
    (wav.NewEncoder (Debug options) (NoWrite options)
       (PreserveFilename options) (ExbName options)).

(** The error [ConvertFile] returns is the one of the parser or the one of
    the encoder. *)
Inductive error :=
| ReadErr (e : ebl.error)
| WriteErr (e : wav.error).

(** What the operating system does with the copy of the input that
    [saveErrorFile] makes: which of [os.MkdirAll], [os.Open], [os.Create]
    and [io.Copy] fails, if any; a copy that fails has written [written]
    bytes at most. *)
Inductive save_fault :=
| SaveOk
| SaveMkdirFault
| SaveOpenFault
| SaveCreateFault
| SaveCopyFault (written : nat).

(** [func (c *Converter) saveErrorFile(inputFile, errorDir string)]: the
    file [filepath.Join(errorDir, filepath.Base(inputFile))] it leaves
    behind, if it creates one.  [data] is the content of the input. *)
Definition saveErrorFile (c : Converter) (sv : save_fault)
    (inputFile errorDir : string) (data : list byte) : option wav.Output :=
  if negb (ErrorSave (options c)) || NoWrite (options c) then None
  else
    match sv with
    | SaveMkdirFault => None
    | SaveOpenFault => None
    | SaveCreateFault => None
    | SaveCopyFault written =>
        Some (wav.mkOutput errorDir (ebl.filepath_Base inputFile)
                (take written data))
    | SaveOk =>
        Some (wav.mkOutput errorDir (ebl.filepath_Base inputFile) data)
    end.

(** The result of [ConvertFile]: the returned pair, the output file and
    the copy of the input saved among the errors; [ConvertPanic] when the
    parser or the encoder panics.  What is printed is not part of the
    result. *)
Inductive result :=
| Return (success : bool) (err : option error) (out : option wav.Output)
    (saved : option wav.Output)
| ConvertPanic.

Definition ConvertFile (c : Converter) (os : wav.fault) (sv : save_fault)
    (inputFile outputDir : string) (data : list byte) : result :=
  let errorDir := (outputDir ++ "/errors")%string in
  match ebl.ReadFile (parser c) inputFile errorDir data with
  | ebl.Fail err _ =>
      Return false (Some (ReadErr err)) None
        (if ErrorSave (options c)
         then saveErrorFile c sv inputFile errorDir data else None)
  | ebl.Panic _ => ConvertPanic
  | ebl.Ok eblFile _ =>
      match wav.WriteWAV (encoder c) os eblFile outputDir with
      | wav.WritePanic => ConvertPanic
      | wav.Return _ (Some err) out =>
          Return false (Some (WriteErr err)) out
            (if ErrorSave (options c)
             then saveErrorFile c sv inputFile errorDir data else None)
      | wav.Return _ None out => Return true None out None
      end
  end.

End converter.

(** ** Package flac: the pure parts of encoder.go

    The converter runs [ffmpeg] on every WAV file, with a pool of workers;
    what is embedded here is what it computes before it does so: the size of
    the pool and the name of the output file. *)

Module flac.

(** Helper functions for min/max operations. *)
Definition min (a b : Z) : Z := if a <? b then a else b.
Definition max (a b : Z) : Z := if b <? a then a else b.

(** [maxWorkers := max(2, min(numCPU*3/4, 12))] in [NewConverter]; the
    division of non-negative integers truncates. *)
Definition maxWorkers_of (numCPU : Z) : Z :=
  max 2 (min (Z.quot (numCPU * 3) 4) 12).

(** [numWorkers := min(c.maxWorkers, len(wavFiles))] in [ConvertDirectory]. *)
Definition numWorkers_of (maxWorkers : Z) (wavFiles : list string) : Z :=
  min maxWorkers (Z.of_nat (length wavFiles)).

(** [flacFile := strings.TrimSuffix(wavFile, ".wav") + ".flac"] in
    [ConvertToFlac]. *)
Definition flacFile_of (wavFile : string) : string :=
  (TrimSuffix wavFile ".wav" ++ ".flac")%string.

End flac.
(** ** Streams for the examples *)

Module streams.

(** A 64-byte UTF-16LE field holding an ASCII name, padded with NULs. *)
Definition utf16_field (name : string) : list byte :=
  let b := flat_map (fun c => [byte_of_ascii c; x00]) (list_ascii_of_string name) in
  take 64 (b ++ zeros 64).

(** A stream with every chunk in place: the outer frame, the table of
    contents, the metadata-frame header with the given [data_offset], the
    second frame header at offset 98, the metadata block with the four
    load-bearing words and the sample rate, and [tail] after the comment. *)
Definition stream (data_offset v2 v3 v4 v5 rate : Z) (tail : list byte)
    : list byte :=
  bytes_of_string "FORM" ++ put_be32 (280 + Z.of_nat (length tail))
  ++ bytes_of_string "E5B0TOC2" ++ put_be32 78
  ++ bytes_of_string "E5S1" ++ put_be32 0 ++ put_be32 data_offset
  ++ [x00; x00] ++ utf16_field "Pad"
  ++ bytes_of_string "E5S1" ++ put_be32 0 ++ zeros 6
  ++ utf16_field "Pad"
  ++ put_le32 301 ++ put_le32 v2 ++ put_le32 v3 ++ put_le32 v4 ++ put_le32 v5
  ++ put_le32 0 ++ put_le32 0 ++ put_le32 0 ++ put_le32 0
  ++ put_le32 rate ++ put_le32 0 ++ put_le32 0
  ++ utf16_field ""
  ++ tail.

(** [n] bytes of audio, counting up from 1. *)
Definition ramp (n : nat) : list byte :=
  map (fun i => byte_of_Z (Z.of_nat i)) (seq 1 n).

Definition quiet : ebl.Parser := ebl.mkParser false false.
Definition verbose : ebl.Parser := ebl.mkParser true false.

(** The words of the spec's mono example, followed by the 22 + 102 bytes
    the decoder reads for them. *)
Definition spec_example : list byte := stream 98 100 100 200 302 44100 (ramp 124).

(** A mono sample of 102 bytes: both differences are zero. *)
Definition mono : list byte := stream 98 100 100 200 200 44100 (ramp 102).

(** The same sample in a file without the alignment gap. *)
Definition mono_nogap : list byte := stream 0 100 100 200 200 44100 (ramp 102).

(** Channel extents 3 and 5: unequal, non-zero, odd. *)
Definition odd_stereo : list byte := stream 98 0 3 0 5 44100 (ramp 8).

(** Channel extents 10 and -5, without and with the bytes of channel A. *)
Definition negative_b_truncated : list byte := stream 98 0 10 5 0 44100 [].
Definition negative_b : list byte := stream 98 0 10 5 0 44100 (ramp 10).

(** Channel extent -1000 for channel A, and a pre-audio padding of 822
    bytes that the file does not have. *)
Definition negative_a_truncated : list byte := stream 98 1000 0 0 0 44100 [].

(** Leftover byte counts 40 and 7 after the payload. *)
Definition mono_extra (n : nat) : list byte :=
  stream 98 100 100 200 200 44100 (ramp 102 ++ zeros n).

End streams.

(** * Vocabulary of the statements *)

Import ebl.

(** ** interleaveChannels: the bytes of a sample *)

(** The guard of the right-channel copy at sample [j]. *)
Definition has_right (B : list byte) (j : nat) : Prop :=
  (j * 2 + 1 < length B)%nat.

#[global] Instance has_right_dec (B : list byte) (j : nat)
    : Decision (has_right B j) :=
  decide (j * 2 + 1 < length B)%nat.

(** What an iteration leaves in the four bytes of sample [j], given the
    buffer [before] it. *)
Definition sample_done (channel1 channel2 before after : list byte) (j : nat)
    : Prop :=
  after !! (j * 4)%nat = channel1 !! (j * 2)%nat
  /\ after !! (j * 4 + 1)%nat = channel1 !! (j * 2 + 1)%nat
  /\ after !! (j * 4 + 2)%nat =
       (if decide (has_right channel2 j) then channel2 !! (j * 2)%nat
        else before !! (j * 4 + 2)%nat)
  /\ after !! (j * 4 + 3)%nat =
       (if decide (has_right channel2 j) then channel2 !! (j * 2 + 1)%nat
        else before !! (j * 4 + 3)%nat).

(** The bytes of sample [j] in the result of [interleaveChannels]. *)
Definition sample_of (channel1 channel2 r : list byte) (j : nat) : Prop :=
  r !! (j * 4)%nat = channel1 !! (j * 2)%nat
  /\ r !! (j * 4 + 1)%nat = channel1 !! (j * 2 + 1)%nat
  /\ r !! (j * 4 + 2)%nat =
       (if decide (has_right channel2 j) then channel2 !! (j * 2)%nat else Some x00)
  /\ r !! (j * 4 + 3)%nat =
       (if decide (has_right channel2 j) then channel2 !! (j * 2 + 1)%nat else Some x00).


(** ** cleanFilename: runs of characters *)

(** Every character of [s] is in the class; no character of [s] is. *)
Fixpoint all_in (cls : ascii -> bool) (s : string) : bool :=
  match s with
  | EmptyString => true
  | String c r => cls c && all_in cls r
  end.

Fixpoint none_in (cls : ascii -> bool) (s : string) : bool :=
  match s with
  | EmptyString => true
  | String c r => negb (cls c) && none_in cls r
  end.

(** [s] is empty or begins with a character of the class; [s] is empty or
    ends with one. *)
Definition starts_in (cls : ascii -> bool) (s : string) : Prop :=
  match s with
  | EmptyString => True
  | String c _ => cls c = true
  end.

Fixpoint ends_in (cls : ascii -> bool) (s : string) : Prop :=
  match s with
  | EmptyString => True
  | String c EmptyString => cls c = true
  | String _ r => ends_in cls r
  end.

(** Whether a match is open after the characters of [s]. *)
Fixpoint open_after (cls : ascii -> bool) (in_match : bool) (s : string)
    : bool :=
  match s with
  | EmptyString => in_match
  | String c r => open_after cls (negb (cls c)) r
  end.


(** ** The parser: states and runs *)

(** The state after [Debug] has printed the lines [l]. *)
Definition printed (l : list msg) (s : state) : state :=
  mkState (file s) (eblFile s) (stdout s ++ l).

(** The state after an assignment to the fields of the [EBLFile]. *)
Definition assigned (g : EBLFile -> EBLFile) (s : state) : state :=
  mkState (file s) (g (eblFile s)) (stdout s).

(** A computation that only prints. *)
Definition prints (m : M unit) : Prop :=
  forall s, exists l, m s = Ok tt (printed l s).


(** The counter lags [k] bytes behind the offset, unless a short read has
    brought the offset to the end of the file. *)
Definition lag (k : nat) (s : state) : Prop :=
  Size (eblFile s) = Z.of_nat (length (content (file s)))
  /\ 0 <= Read (eblFile s)
  /\ offset (file s) =
       Nat.min (Z.to_nat (Read (eblFile s)) + k) (length (content (file s))).

(** The bytes [header4Start] reads from the file: none, the size, or the
    prefix and the size. *)
Definition header4StartBytes (la : Lookahead) : nat :=
  if foundHeader4InPadding la then
    match header4SizeBytes la with
    | Some _ => 0
    | None => 4
    end
  else 8.

(** The words of the metadata block that the decoder interprets are 32-bit
    words. *)
Definition words_in_range (h : HeaderData) : Prop :=
  0 <= HeaderData_V2 h < 2 ^ 32 /\ 0 <= HeaderData_V3 h < 2 ^ 32
  /\ 0 <= HeaderData_V4 h < 2 ^ 32 /\ 0 <= HeaderData_V5 h < 2 ^ 32
  /\ 0 <= HeaderData_SampleRate h < 2 ^ 32.

(** The channel extents the decoder derives from the four load-bearing
    words: the two differences, and the mono rule when both are zero. *)
Definition derived_sizes (v2 v3 v4 v5 : Z) : Z * Z :=
  if (v3 - v2 =? 0) && (v5 - v4 =? 0) then (v4 - v3 + 2, 0)
  else (v3 - v2, v5 - v4).

Definition sizes_of (h : HeaderData) : Z * Z :=
  derived_sizes (HeaderData_V2 h) (HeaderData_V3 h) (HeaderData_V4 h)
    (HeaderData_V5 h).

(** The line that reports unequal, non-zero channel extents. *)
Definition different_length (c1 c2 : Z) : msg :=
  Sprintf "Error: Channels Different length. C1: %d, C2: %d" [AInt c1; AInt c2].

(** What a stage leaves alone. *)
Definition same_file (s s' : state) : Prop := file s' = file s.

Definition same_counters (s s' : state) : Prop :=
  Size (eblFile s') = Size (eblFile s)
  /\ HdrData (eblFile s') = HdrData (eblFile s).

Definition extends (s s' : state) : Prop :=
  exists l, stdout s' = stdout s ++ l.

(** The pre-audio padding of a sample whose extents are known. *)
Definition dataPadding_of (f : EBLFile) : Z :=
  HeaderData_V5 (HdrData f) - DataSizeCalc f - 178.

(** The last lines of [ReadFile]. *)
Definition trailer_read (trailer : list byte) : msg :=
  Sprintf "Read 4-byte trailer: %x" [ABytes trailer].

Definition inconsistent_filesize (f : EBLFile) : msg :=
  Sprintf "ERROR: Inconsistent filesize: Read: %d, Expected: %d, Difference: %d"
    [AInt (Read f); AInt (Size f); AInt (Size f - Read f)].

Definition found_40_bytes : msg :=
  Sprintf "WARN: Found 40 bytes. Additional data header." [].

Definition say (p : Parser) (m : msg) : list msg :=
  if debug p then [m] else [].


(** What a successful decode leaves in the [EBLFile] and in the file. *)
Record decoded (p : Parser) (data : list byte) (f : EBLFile) (s : state)
    : Prop := mkDecoded {
  dec_ebl : f = eblFile s;
  dec_lag : lag 4 s;
  dec_content : content (file s) = data;
  dec_words : words_in_range (HdrData f);
  dec_sizes : (Channel1Size f, Channel2Size f) = sizes_of (HdrData f);
  dec_size1 : Z.of_nat (length (Channel1Data f)) = Channel1Size f;
  dec_size2 : Z.of_nat (length (Channel2Data f)) = Channel2Size f;
  dec_read : Read f = HeaderRead f + Channel1Size f + Channel2Size f;
  dec_log :
    debug p = true -> Channel1Size f <> Channel2Size f ->
    Channel1Size f <> 0 -> Channel2Size f <> 0 ->
    In (different_length (Channel1Size f) (Channel2Size f)) (stdout s) }.


(** The sample a decode returns, if it returns one. *)
Definition sample {A} (o : outcome A) : option A :=
  match o with
  | Ok a _ => Some a
  | _ => None
  end.

(** The four load-bearing words of a decoded sample, and its extents. *)
Definition words (f : EBLFile) : Z * Z * Z * Z :=
  (HeaderData_V2 (HdrData f), HeaderData_V3 (HdrData f),
   HeaderData_V4 (HdrData f), HeaderData_V5 (HdrData f)).

Definition extents (f : EBLFile) : Z * Z := (Channel1Size f, Channel2Size f).

(** The bytes of the magic of the outer frame. *)
Definition FORM : list byte := bytes_of_string "FORM".

(** The error of a decode that fails, with the words it had read. *)
Definition failure {A} (o : outcome A) : option (error * (Z * Z * Z * Z)) :=
  match o with
  | Fail e s => Some (e, words (eblFile s))
  | _ => None
  end.
(** * The vocabulary of the further properties *)

(** ** Reading an interleaved payload back *)

(** The left and the right channel of a stereo payload of 16-bit samples:
    the first two, and the last two, bytes of every frame of four. *)
Fixpoint left_channel (wavData : list byte) : list byte :=
  match wavData with
  | l0 :: l1 :: _ :: _ :: rest => l0 :: l1 :: left_channel rest
  | _ => []
  end.

Fixpoint right_channel (wavData : list byte) : list byte :=
  match wavData with
  | _ :: _ :: r0 :: r1 :: rest => r0 :: r1 :: right_channel rest
  | _ => []
  end.

(** The length of a string, in bytes. *)
Definition strlen (s : string) : nat := String.length s.

(** ** Samples for the examples *)

(** An [EBLFile] that holds the given channels at the given rate, as a
    decode leaves it: the sizes are the lengths of the buffers. *)
Definition ebl_of_channels (name : string) (rate : Z) (A B : list byte)
    : EBLFile :=
  mkEBLFile (name ++ ".ebl") (name ++ ".ebl") 0 0
    zeroHeader1 zeroHeader2
    (mkHeader3 [] 0 0 [] name 74) 0 zeroHeader4
    (mkHeaderData [] name 0 0 0 0 0 0 0 0 0 rate 0 0 [] EmptyString 176)
    (Z.of_nat (length A)) (Z.of_nat (length B)) 0 0 0 A B.

(** A stereo sample of two channels of 4 bytes. *)
Definition stereo_stream : list byte :=
  streams.stream 98 0 4 4 8 44100 (streams.ramp 8).


(** ** Runs of the parser, whatever their outcome *)

(** A computation that does not panic, in any state. *)
Definition never_panics {A} (m : M A) : Prop :=
  forall s s', m s <> Panic s'.

(** A computation that neither fails nor panics. *)
Definition always_returns {A} (m : M A) : Prop :=
  forall s, exists a s', m s = Ok a s'.

(** What [ReadFile] returns: the sample, or the error; nothing on a panic. *)
Definition returned {A} (o : outcome A) : option (A + error) :=
  match o with
  | Ok a _ => Some (inl a)
  | Fail e _ => Some (inr e)
  | Panic _ => None
  end.

(** Two states with the same file, at the same offset, and the same
    [EBLFile]: they differ in what has been printed. *)
Definition agree (s s' : state) : Prop :=
  file s = file s' /\ eblFile s = eblFile s'.

(** Two outcomes of the same kind, with the same value and states that
    agree, or with the same error. *)
Definition same_outcome {A} (o o' : outcome A) : Prop :=
  match o, o' with
  | Ok a t, Ok a' t' => a = a' /\ agree t t'
  | Fail e _, Fail e' _ => e = e'
  | Panic _, Panic _ => True
  | _, _ => False
  end.

(** Two computations that do the same from states that agree. *)
Definition sim {A} (m m' : M A) : Prop :=
  forall s s', agree s s' -> same_outcome (m s) (m' s').

(** ** The layout of a file *)

Definition E5S1 : list byte := bytes_of_string "E5S1".
Definition E5B0TOC2 : list byte := bytes_of_string "E5B0TOC2".

(** The big-endian and the little-endian word at an offset of the file,
    the [len] bytes at an offset, and the same padded with zero bytes when
    the file ends before. *)
Definition be_at (n : nat) (data : list byte) : Z :=
  be_uint32 (take 4 (drop n data)).

Definition le_at (n : nat) (data : list byte) : Z :=
  le_uint32 (take 4 (drop n data)).

Definition bytes_at (n len : nat) (data : list byte) : list byte :=
  take len (drop n data).

Definition padded_at (n len : nat) (data : list byte) : list byte :=
  take len (drop n data ++ zeros len).

(** The offset of the metadata block of a decoded sample: after the three
    frame headers (98 bytes), the padding and what was read of Header 4. *)
Definition metadata_at (f : EBLFile) : nat :=
  Z.to_nat (98 + Padding f + Header4_Read (Hdr4 f)).

(** The fields that the stages after the metadata block leave alone, and
    those that the stages after the derivation of the extents leave alone. *)
Definition headers (f : EBLFile) :=
  (Filename f, Path f, Size f, Hdr1 f, Hdr2 f, Hdr3 f, Padding f, Hdr4 f,
   HdrData f).

Definition plan (f : EBLFile) :=
  (headers f, Channel1Size f, Channel2Size f, DataSizeCalc f).

(** A computation that leaves a part of the [EBLFile] as it is. *)
Definition keeps {A X} (part : EBLFile -> X) (m : M A) : Prop :=
  forall s a s', m s = Ok a s' -> part (eblFile s') = part (eblFile s).

(** What Header 4 of a decoded sample is made of, by the number of bytes
    read for it: all of it after the padding (14); its prefix and its size
    in the padding (6); its prefix in the padding and its size after (10). *)
Definition header4_found (f : EBLFile) (data : list byte) : Prop :=
  let P := Z.to_nat (Padding f) in
  (Header4_Read (Hdr4 f) = 14
   /\ ((P < 4)%nat \/ bytes_at 98 4 data <> E5S1)
   /\ bytes_at (98 + P) 4 data = E5S1
   /\ Header4_Size (Hdr4 f) = be_at (98 + P + 4) data)
  \/ (Header4_Read (Hdr4 f) = 10
      /\ (4 <= P < 8)%nat
      /\ bytes_at 98 4 data = E5S1
      /\ Header4_Size (Hdr4 f) = be_at (98 + P) data)
  \/ (Header4_Read (Hdr4 f) = 6
      /\ (8 <= P)%nat
      /\ bytes_at 98 4 data = E5S1
      /\ Header4_Size (Hdr4 f) = be_at 102 data).

(** The metadata block read at the offset [B] of the file. *)
Definition metadata_of (B : nat) (data : list byte) : HeaderData :=
  mkHeaderData (bytes_at B 64 data) (decodeUTF16 (bytes_at B 64 data))
    (le_at (B + 64) data) (le_at (B + 68) data) (le_at (B + 72) data)
    (le_at (B + 76) data) (le_at (B + 80) data) (le_at (B + 84) data)
    (le_at (B + 88) data) (le_at (B + 92) data) (le_at (B + 96) data)
    (le_at (B + 100) data) (le_at (B + 104) data) (le_at (B + 108) data)
    (padded_at (B + 112) 64 data) (decodeUTF16 (padded_at (B + 112) 64 data))
    176.

(** The headers of a decoded sample and the file it was decoded from. *)
Record laid_out (inputFile : string) (data : list byte) (f : EBLFile)
    : Prop := mkLaidOut {
  lay_length : (225 <= length data)%nat;
  lay_name : Filename f = filepath_Base inputFile;
  lay_path : Path f = inputFile;
  lay_size : Size f = Z.of_nat (length data);
  lay_magic1 : bytes_at 0 4 data = FORM;
  lay_magic2 : bytes_at 8 8 data = E5B0TOC2;
  lay_magic3 : bytes_at 20 4 data = E5S1;
  lay_hdr1 : Hdr1 f = mkHeader1 FORM (be_at 4 data) 8;
  lay_hdr2 : Hdr2 f = mkHeader2 E5B0TOC2 (be_at 16 data) 12;
  lay_hdr3 :
    Hdr3 f = mkHeader3 E5S1 (be_at 24 data) (be_at 28 data)
               (bytes_at 32 2 data) (decodeUTF16 (bytes_at 34 64 data)) 74;
  lay_padding : Padding f = Z.max 0 (be_at 28 data - 94);
  lay_prefix4 : Header4_Prefix (Hdr4 f) = E5S1;
  lay_found4 : header4_found f data;
  lay_data4 : Header4_Data (Hdr4 f) = bytes_at (metadata_at f - 6) 6 data;
  lay_metadata : HdrData f = metadata_of (metadata_at f) data }.

(** ** Names in UTF-16 *)

(** The UTF-16LE bytes of a name whose characters are in ASCII. *)
Definition utf16le (name : string) : list byte :=
  flat_map (fun c => [byte_of_ascii c; x00]) (list_ascii_of_string name).

(** A name of ASCII characters, without the NUL. *)
Definition ascii_char (c : ascii) : bool :=
  (0 <? byte_to_Z (byte_of_ascii c)) && (byte_to_Z (byte_of_ascii c) <? 128).

Definition ascii_name (name : string) : Prop :=
  forallb ascii_char (list_ascii_of_string name) = true.

(** ** Files that decode *)

(** The padding after Header 3 that the word at offset 28 asks for. *)
Definition padding_of (data : list byte) : nat :=
  Z.to_nat (Z.max 0 (be_at 28 data - 94)).

(** Where Header 4 is, and how many bytes [h] of its prefix and size are
    read after the padding: eight when the padding does not start with the
    prefix, so that the prefix must follow it; four when the padding holds
    the prefix and not the size; none when it holds both. *)
Definition header4_start (data : list byte) (h : nat) : Prop :=
  let P := padding_of data in
  (((P < 4)%nat \/ bytes_at 98 4 data <> E5S1)
   /\ bytes_at (98 + P) 4 data = E5S1 /\ h = 8%nat)
  \/ ((4 <= P < 8)%nat /\ bytes_at 98 4 data = E5S1 /\ h = 4%nat)
  \/ ((8 <= P)%nat /\ bytes_at 98 4 data = E5S1 /\ h = 0%nat).

(** The channel extents that the words of the metadata block at offset [B]
    give, and the padding before the audio. *)
Definition extents_at (B : nat) (data : list byte) : Z * Z :=
  derived_sizes (le_at (B + 68) data) (le_at (B + 72) data)
    (le_at (B + 76) data) (le_at (B + 80) data).

Definition audio_padding_at (B : nat) (data : list byte) : Z :=
  Z.max 0 (le_at (B + 80) data
           - ((extents_at B data).1 + (extents_at B data).2) - 178).


(** * Properties *)
(** ** interleaveChannels *)

Section interleave.

Variables channel1 channel2 : list byte.

Lemma store_Some (s : list byte) (i : nat) (v : byte) :
  (i < length s)%nat -> store s i v = Some (<[i:=v]> s).
Proof. intros H. unfold store. by rewrite decide_True. Qed.

Lemma index_Some (s : list byte) (i : nat) :
  (i < length s)%nat -> exists v, index s i = Some v.
Proof. intros H. unfold index. by apply lookup_lt_is_Some_2. Qed.

Lemma interleave_body_spec (i : nat) (result : list byte) :
  (i * 2 + 1 < length channel1)%nat ->
  (i * 4 + 3 < length result)%nat ->
  exists r,
    wav.interleave_body channel1 channel2 i result = Some r
    /\ length r = length result
    /\ sample_done channel1 channel2 result r i
    /\ forall k, (k < i * 4 \/ i * 4 + 4 <= k)%nat -> r !! k = result !! k.
Proof.
  intros H1 Hr. unfold wav.interleave_body.
  destruct (index_Some channel1 (i * 2)) as [l0 Hl0]; [lia|].
  destruct (index_Some channel1 (i * 2 + 1)) as [l1 Hl1]; [lia|].
  rewrite Hl0. simpl. rewrite store_Some by lia. simpl.
  rewrite Hl1. simpl. rewrite store_Some by (rewrite length_insert; lia). simpl.
  unfold sample_done.
  destruct (decide (i * 2 + 1 < length channel2)%nat) as [Hg|Hg].
  - rewrite !(decide_True (P := has_right channel2 i)) by exact Hg.
    destruct (index_Some channel2 (i * 2)) as [r0 Hr0]; [lia|].
    destruct (index_Some channel2 (i * 2 + 1)) as [r1 Hr1]; [lia|].
    rewrite Hr0. simpl. rewrite store_Some by (rewrite !length_insert; lia). simpl.
    rewrite Hr1. simpl. rewrite store_Some by (rewrite !length_insert; lia).
    eexists. split; [reflexivity|]. rewrite !length_insert.
    unfold index in *.
    repeat split.
    + rewrite !list_lookup_insert_ne by lia.
      rewrite list_lookup_insert_eq by lia. done.
    + rewrite !list_lookup_insert_ne by lia.
      rewrite list_lookup_insert_eq by (rewrite ?length_insert; lia). done.
    + rewrite !list_lookup_insert_ne by lia.
      rewrite list_lookup_insert_eq by (rewrite ?length_insert; lia). done.
    + rewrite list_lookup_insert_eq by (rewrite ?length_insert; lia). done.
    + intros k Hk. rewrite !list_lookup_insert_ne by lia. done.
  - rewrite !(decide_False (P := has_right channel2 i)) by exact Hg.
    eexists. split; [reflexivity|]. rewrite !length_insert.
    unfold index in *.
    repeat split.
    + rewrite !list_lookup_insert_ne by lia.
      rewrite list_lookup_insert_eq by lia. done.
    + rewrite list_lookup_insert_eq by (rewrite ?length_insert; lia). done.
    + rewrite !list_lookup_insert_ne by lia. done.
    + rewrite !list_lookup_insert_ne by lia. done.
    + intros k Hk. rewrite !list_lookup_insert_ne by lia. done.
Qed.

(** The loop, from sample [i] with [n] iterations to go, fills the samples
    [i .. i+n-1] and leaves the bytes before them alone. *)
Lemma interleave_loop_spec (n : nat) :
  forall (i : nat) (result : list byte),
    ((i + n) * 2 <= length channel1)%nat ->
    length result = ((i + n) * 4)%nat ->
    exists r,
      wav.interleave_loop channel1 channel2 n i result = Some r
      /\ length r = length result
      /\ (forall k, (k < i * 4)%nat -> r !! k = result !! k)
      /\ forall j, (i <= j < i + n)%nat -> sample_done channel1 channel2 result r j.
Proof.
  induction n as [|n IH]; intros i result H1 Hlen; simpl.
  - exists result. repeat split; auto; lia.
  - destruct (interleave_body_spec i result) as (r1 & Hb & Hl1 & Hs1 & Hk1);
      [lia | lia |].
    rewrite Hb. simpl.
    destruct (IH (S i) r1) as (r & Hloop & Hl & Hk & Hs); [lia | lia |].
    exists r. split; [exact Hloop|]. split; [congruence|]. split.
    + intros k Hlt. rewrite Hk by lia. apply Hk1. lia.
    + intros j Hj. destruct (decide (j = i)) as [->|Hne].
      * destruct Hs1 as (E0 & E1 & E2 & E3).
        unfold sample_done. rewrite !Hk by lia. auto.
      * destruct (Hs j) as (E0 & E1 & E2 & E3); [lia|].
        unfold sample_done. rewrite E0, E1, E2, E3.
        rewrite !Hk1 by lia. auto.
Qed.

Lemma interleaveChannels_spec :
  exists r,
    wav.interleaveChannels channel1 channel2 = Some r
    /\ length r = (length channel1 / 2 * 4)%nat
    /\ forall j, (j < length channel1 / 2)%nat -> sample_of channel1 channel2 r j.
Proof.
  unfold wav.interleaveChannels.
  destruct (interleave_loop_spec (length channel1 / 2) 0
              (zeros (length channel1 / 2 * 4)))
    as (r & Hloop & Hl & _ & Hs).
  - pose proof (Nat.div_mod_eq (length channel1) 2). lia.
  - unfold zeros. by rewrite length_replicate.
  - exists r. split; [exact Hloop|].
    unfold zeros in *. rewrite length_replicate in Hl. split; [exact Hl|].
    intros j Hj. destruct (Hs j) as (E0 & E1 & E2 & E3); [lia|].
    unfold sample_of. rewrite E0, E1, E2, E3.
    rewrite !lookup_replicate_2 by lia. auto.
Qed.

End interleave.

(** Two buffers of [n] samples with the same bytes in every sample are
    equal. *)
Lemma samples_ext (n : nat) (r r' : list byte) :
  length r = (n * 4)%nat -> length r' = (n * 4)%nat ->
  (forall j c, (j < n)%nat -> (c < 4)%nat ->
     r !! (j * 4 + c)%nat = r' !! (j * 4 + c)%nat) ->
  r = r'.
Proof.
  intros Hl Hl' H. apply list_eq. intros k.
  destruct (decide (k < n * 4)%nat) as [Hk|Hk].
  - pose proof (Nat.div_mod_eq k 4) as E.
    pose proof (Nat.mod_upper_bound k 4).
    replace k with (k / 4 * 4 + k mod 4)%nat by lia.
    apply H; lia.
  - rewrite !lookup_ge_None_2 by lia. done.
Qed.

Lemma sample_of_bytes (A B r : list byte) (j c : nat) :
  sample_of A B r j -> (c < 4)%nat ->
  r !! (j * 4 + c)%nat =
    match c with
    | 0%nat => A !! (j * 2)%nat
    | 1%nat => A !! (j * 2 + 1)%nat
    | 2%nat => if decide (has_right B j) then B !! (j * 2)%nat else Some x00
    | _ => if decide (has_right B j) then B !! (j * 2 + 1)%nat else Some x00
    end.
Proof.
  intros (E0 & E1 & E2 & E3) Hc.
  destruct c as [|[|[|[|c]]]]; try lia; rewrite ?Nat.add_0_r; assumption.
Qed.

(** The slice [l[k:k+2]] from its two bytes. *)
Lemma slice2 (l : list byte) (k : nat) (a b : byte) :
  l !! k = Some a -> l !! (k + 1)%nat = Some b -> take 2 (drop k l) = [a; b].
Proof.
  intros Ha Hb. apply list_eq. intros [|[|i]].
  - rewrite lookup_take_lt by lia. rewrite lookup_drop. rewrite Nat.add_0_r. done.
  - rewrite lookup_take_lt by lia. rewrite lookup_drop. done.
  - rewrite lookup_take_ge by lia. done.
Qed.

Lemma slice4 (l : list byte) (k : nat) (a b c d : byte) :
  l !! k = Some a -> l !! (k + 1)%nat = Some b ->
  l !! (k + 2)%nat = Some c -> l !! (k + 3)%nat = Some d ->
  take 4 (drop k l) = [a; b; c; d].
Proof.
  intros Ha Hb Hc Hd. apply list_eq. intros [|[|[|[|i]]]].
  - rewrite lookup_take_lt by lia. rewrite lookup_drop. rewrite Nat.add_0_r. done.
  - rewrite lookup_take_lt by lia. rewrite lookup_drop. done.
  - rewrite lookup_take_lt by lia. rewrite lookup_drop. done.
  - rewrite lookup_take_lt by lia. rewrite lookup_drop. done.
  - rewrite lookup_take_ge by lia. done.
Qed.

(** C4. For channel buffers A and B with B non-empty, [interleaveChannels]
    returns a buffer of [(len(A)/2)*4] bytes in which, for every sample index
    [i < len(A)/2], the four bytes at [4i] are A's 2-byte sample [i] followed
    by B's 2-byte sample [i], or by two zero bytes when B has no sample at
    index [i] (the guard [i*2+1 < len(B)] fails).  In particular two samples
    [L0 L1] and [R0 R1] give [L0 R0 L1 R1] byte for byte. *)
Theorem interleave_stereo (A B : list byte) :
  B <> [] ->
  (exists r,
     wav.interleaveChannels A B = Some r
     /\ length r = (length A / 2 * 4)%nat
     /\ forall i, (i < length A / 2)%nat ->
          take 4 (drop (i * 4) r) =
            take 2 (drop (i * 2) A)
            ++ (if decide (i * 2 + 1 < length B)%nat
                then take 2 (drop (i * 2) B) else [x00; x00]))
  /\ forall l0 l0' l1 l1' r0 r0' r1 r1' : byte,
       wav.interleaveChannels [l0; l0'; l1; l1'] [r0; r0'; r1; r1']
       = Some [l0; l0'; r0; r0'; l1; l1'; r1; r1'].
Proof.
  intros _. split; [|reflexivity].
  destruct (interleaveChannels_spec A B) as (r & Hr & Hl & Hs).
  exists r. split; [exact Hr|]. split; [exact Hl|].
  intros i Hi. destruct (Hs i Hi) as (E0 & E1 & E2 & E3).
  assert (HA : (i * 2 + 1 < length A)%nat)
    by (pose proof (Nat.div_mod_eq (length A) 2); lia).
  destruct (lookup_lt_is_Some_2 A (i * 2)) as [a0 Ha0]; [lia|].
  destruct (lookup_lt_is_Some_2 A (i * 2 + 1)) as [a1 Ha1]; [lia|].
  rewrite (slice2 A (i * 2) a0 a1 Ha0 Ha1).
  destruct (decide (has_right B i)) as [Hg|Hg]; unfold has_right in Hg.
  - rewrite decide_True by lia.
    destruct (lookup_lt_is_Some_2 B (i * 2)) as [b0 Hb0]; [lia|].
    destruct (lookup_lt_is_Some_2 B (i * 2 + 1)) as [b1 Hb1]; [lia|].
    rewrite (slice2 B (i * 2) b0 b1 Hb0 Hb1).
    apply slice4; congruence.
  - rewrite decide_False by lia. apply slice4; congruence.
Qed.

Lemma interleave_stereo_witness :
  [x0a; x0b; x0c] <> []
  /\ exists r,
       wav.interleaveChannels [x01; x02; x03; x04; x05] [x0a; x0b; x0c] = Some r
       /\ length r = 8%nat
       /\ take 4 (drop 0 r) = [x01; x02; x0a; x0b]
       /\ take 4 (drop 4 r) = [x03; x04; x00; x00].
Proof.
  split; [discriminate|].
  destruct (interleave_stereo [x01; x02; x03; x04; x05] [x0a; x0b; x0c])
    as [(r & Hr & Hl & Hs) _]; [discriminate|].
  exists r. split; [exact Hr|]. split; [exact Hl|]. split.
  - apply (Hs 0%nat). simpl. lia.
  - apply (Hs 1%nat). simpl. lia.
Defined.

(** C10. [interleaveChannels] returns for every pair of buffers, whatever
    their lengths and parities (no index is out of range).  The result has
    [4 * floor(len(A)/2)] bytes; the last byte of an odd-length A does not
    matter, and neither do the bytes of B from index [2 * floor(len(A)/2)]
    on. *)
Theorem interleave_total (A B : list byte) :
  exists r,
    wav.interleaveChannels A B = Some r
    /\ length r = (4 * (length A / 2))%nat
    /\ wav.interleaveChannels (take (2 * (length A / 2)) A) B = Some r
    /\ wav.interleaveChannels A (take (2 * (length A / 2)) B) = Some r.
Proof.
  set (n := (length A / 2)%nat).
  assert (Hn : (n * 2 <= length A)%nat)
    by (pose proof (Nat.div_mod_eq (length A) 2); lia).
  destruct (interleaveChannels_spec A B) as (r & Hr & Hl & Hs).
  fold n in Hl, Hs.
  exists r. split; [exact Hr|]. split; [lia|]. split.
  - destruct (interleaveChannels_spec (take (2 * n) A) B) as (r' & Hr' & Hl' & Hs').
    assert (En : (length (take (2 * n) A) / 2)%nat = n).
    { rewrite length_take.
      replace ((2 * n) `min` length A)%nat with (n * 2)%nat by lia.
      apply Nat.div_mul. lia. }
    rewrite En in Hl', Hs'. rewrite Hr'. f_equal.
    apply (samples_ext n); [lia | lia |].
    intros j c Hj Hc.
    rewrite (sample_of_bytes _ _ _ _ _ (Hs' j Hj) Hc).
    rewrite (sample_of_bytes _ _ _ _ _ (Hs j Hj) Hc).
    rewrite !lookup_take_lt by lia. done.
  - destruct (interleaveChannels_spec A (take (2 * n) B)) as (r' & Hr' & Hl' & Hs').
    fold n in Hl', Hs'. rewrite Hr'. f_equal.
    apply (samples_ext n); [lia | lia |].
    intros j c Hj Hc.
    rewrite (sample_of_bytes _ _ _ _ _ (Hs' j Hj) Hc).
    rewrite (sample_of_bytes _ _ _ _ _ (Hs j Hj) Hc).
    destruct (decide (has_right B j)) as [Hg|Hg]; unfold has_right in Hg.
    + rewrite !decide_True by (unfold has_right; rewrite length_take; lia).
      rewrite !lookup_take_lt by lia. done.
    + rewrite !decide_False by (unfold has_right; rewrite length_take; lia).
      done.
Qed.

(** ** cleanFilename *)

Section replace_runs.

Variable cls : ascii -> bool.
Variable repl : string.

Local Open Scope string_scope.

Lemma append_assoc (a b c : string) : (a ++ b) ++ c = a ++ (b ++ c).
Proof. induction a as [|x a IH]; simpl; [done|]. by rewrite IH. Qed.

Lemma replace_runs_app (a s : string) :
  forall m,
    wav.replace_runs cls repl m (a ++ s)
    = wav.replace_runs cls repl m a
      ++ wav.replace_runs cls repl (open_after cls m a) s.
Proof.
  induction a as [|c a IH]; intros m; simpl; [done|].
  destruct (cls c); simpl.
  - by rewrite IH.
  - destruct m.
    + by rewrite IH.
    + rewrite IH. by rewrite append_assoc.
Qed.

Lemma replace_runs_all_in (s : string) :
  forall m, all_in cls s = true -> wav.replace_runs cls repl m s = s.
Proof.
  induction s as [|c s IH]; intros m H; simpl in *; [done|].
  apply andb_prop in H as [Hc Hs]. rewrite Hc. by rewrite IH.
Qed.

Lemma replace_runs_none_in_open (s : string) :
  none_in cls s = true -> wav.replace_runs cls repl true s = "".
Proof.
  induction s as [|c s IH]; intros H; simpl in *; [done|].
  apply andb_prop in H as [Hc Hs]. apply negb_true_iff in Hc. rewrite Hc.
  by apply IH.
Qed.

Lemma append_nil_r (s : string) : s ++ "" = s.
Proof. induction s as [|c s IH]; simpl; [done|]. by rewrite IH. Qed.

Lemma replace_runs_none_in (s : string) :
  s <> "" -> none_in cls s = true -> wav.replace_runs cls repl false s = repl.
Proof.
  destruct s as [|c s]; [done|]. intros _ H. simpl in *.
  apply andb_prop in H as [Hc Hs]. apply negb_true_iff in Hc. rewrite Hc.
  rewrite replace_runs_none_in_open by exact Hs. apply append_nil_r.
Qed.

Lemma open_after_none_in (s : string) (m : bool) :
  s <> "" -> none_in cls s = true -> open_after cls m s = true.
Proof.
  revert m. induction s as [|c s IH]; intros m Hne H; [done|]. simpl in *.
  apply andb_prop in H as [Hc Hs]. rewrite Hc.
  destruct s as [|c' s']; [done|]. apply IH; done.
Qed.

Lemma open_after_ends_in (s : string) :
  forall m, (s = "" -> m = false) -> ends_in cls s -> open_after cls m s = false.
Proof.
  induction s as [|c s IH]; intros m Hm H; [by apply Hm|].
  destruct s as [|c' s'].
  - simpl in *. by rewrite H.
  - change (open_after cls m (String c (String c' s')))
      with (open_after cls (negb (cls c)) (String c' s')).
    apply IH; [done|exact H].
Qed.

Lemma replace_runs_starts_in (s : string) :
  starts_in cls s ->
  wav.replace_runs cls repl true s = wav.replace_runs cls repl false s.
Proof. destruct s as [|c s]; [done|]. simpl. by intros ->. Qed.

(** A maximal run of characters outside the class is replaced by one copy
    of the replacement. *)
Lemma replace_runs_run (a run b : string) :
  run <> "" -> none_in cls run = true -> ends_in cls a -> starts_in cls b ->
  wav.replace_runs cls repl false (a ++ run ++ b)
  = wav.replace_runs cls repl false a ++ repl
    ++ wav.replace_runs cls repl false b.
Proof.
  intros Hne Hrun Ha Hb.
  rewrite !replace_runs_app.
  rewrite (open_after_ends_in a false) by done.
  rewrite (replace_runs_none_in run) by done.
  rewrite (open_after_none_in run false) by done.
  by rewrite replace_runs_starts_in.
Qed.

End replace_runs.

(** C5, as the code has it.  [cleanFilename] leaves a name alone whose
    characters are all in the set [0-9a-zA-Z.,:%-_#]; it replaces every
    maximal run of characters outside the set (a space is outside) by a
    single underscore; and ["Pad/1:Warm*.ebl"] becomes ["Pad_1:Warm_.ebl"]:
    the extension stays. *)
Theorem cleanFilename_runs :
  (forall s : string, all_in wav.in_class s = true -> wav.cleanFilename s = s)
  /\ (forall a run b : string,
        run <> EmptyString -> none_in wav.in_class run = true ->
        ends_in wav.in_class a -> starts_in wav.in_class b ->
        wav.cleanFilename (a ++ run ++ b)
        = (wav.cleanFilename a ++ "_" ++ wav.cleanFilename b)%string)
  /\ wav.in_class " " = false
  /\ wav.cleanFilename "Pad/1:Warm*.ebl" = "Pad_1:Warm_.ebl"%string.
Proof.
  split; [|split; [|split]].
  - intros s H. by apply replace_runs_all_in.
  - intros a run b. apply replace_runs_run.
  - reflexivity.
  - reflexivity.
Qed.

Lemma cleanFilename_runs_witness :
  all_in wav.in_class "Pad_1" = true
  /\ wav.cleanFilename "Pad_1" = "Pad_1"%string
  /\ none_in wav.in_class "/ *" = true
  /\ wav.cleanFilename ("Pad" ++ "/ *" ++ "1:Warm")
     = ("Pad" ++ "_" ++ "1:Warm")%string.
Proof.
  destruct cleanFilename_runs as (H1 & H2 & _ & _).
  split; [reflexivity|]. split; [apply H1; reflexivity|].
  split; [reflexivity|].
  rewrite (H2 "Pad" "/ *" "1:Warm")%string;
    [reflexivity | discriminate | reflexivity | reflexivity | reflexivity].
Defined.

(** C5 as the spec states it fails: the example keeps its extension, a run
    of two slashes gives one underscore, and a space is replaced. *)
Lemma cleanFilename_counterexample :
  wav.cleanFilename "Pad/1:Warm*.ebl" <> "Pad_1:Warm_"%string
  /\ wav.cleanFilename "a//b" <> "a__b"%string
  /\ wav.cleanFilename "a b" <> "a b"%string.
Proof. repeat split; vm_compute; discriminate. Qed.
(** ** The parser monad *)

Lemma mbind_Ok {A B} (k : A -> M B) (m : M A) (s s2 : state) (b : B) :
  (m ≫= k) s = Ok b s2 -> exists a s1, m s = Ok a s1 /\ k a s1 = Ok b s2.
Proof.
  unfold mbind, M_bind, bind. destruct (m s) as [a s1|e s1|s1]; try discriminate.
  intros H. eauto.
Qed.

Lemma mbind_run {A B} (k : A -> M B) (m : M A) (s s1 : state) (a : A) :
  m s = Ok a s1 -> (m ≫= k) s = k a s1.
Proof. intros H. unfold mbind, M_bind, bind. by rewrite H. Qed.

Lemma mbind_Fail {A B} (k : A -> M B) (m : M A) (s s1 : state) (e : error) :
  m s = Fail e s1 -> (m ≫= k) s = Fail e s1.
Proof. intros H. unfold mbind, M_bind, bind. by rewrite H. Qed.

Lemma mbind_Panic {A B} (k : A -> M B) (m : M A) (s s1 : state) :
  m s = Panic s1 -> (m ≫= k) s = Panic s1.
Proof. intros H. unfold mbind, M_bind, bind. by rewrite H. Qed.

Lemma advance_0 (s : state) : advance 0 s = s.
Proof. destruct s as [[c o] f l]. unfold advance. simpl. by rewrite Nat.add_0_r. Qed.

Lemma printed_nil (s : state) : printed [] s = s.
Proof. destruct s as [fl f l]. unfold printed. simpl. by rewrite app_nil_r. Qed.

Lemma Debug_run (p : Parser) (m : msg) (s : state) :
  Debug p m s = Ok tt (printed (if debug p then [m] else []) s).
Proof. unfold Debug. destruct (debug p); [done|]. by rewrite printed_nil. Qed.

Lemma modify_ebl_run (g : EBLFile -> EBLFile) (s : state) :
  modify_ebl g s = Ok tt (assigned g s).
Proof. reflexivity. Qed.

Lemma get_ebl_run (s : state) : get_ebl s = Ok (eblFile s) s.
Proof. reflexivity. Qed.

Lemma prints_Debug p m : prints (Debug p m).
Proof. intros s. rewrite Debug_run. eauto. Qed.

Lemma prints_ret : prints (ret tt).
Proof. intros s. exists []. by rewrite printed_nil. Qed.

Lemma prints_when b m : prints m -> prints (when b m).
Proof. intros H. destruct b; [exact H | exact prints_ret]. Qed.

Lemma prints_seq m1 m2 : prints m1 -> prints m2 -> prints (m1 ;; m2).
Proof.
  intros H1 H2 s. destruct (H1 s) as [l1 E1].
  destruct (H2 (printed l1 s)) as [l2 E2].
  exists (l1 ++ l2). rewrite (mbind_run _ _ _ _ _ E1), E2.
  unfold printed. simpl. by rewrite app_assoc.
Qed.

Create HintDb prints discriminated.
#[global] Hint Resolve prints_Debug prints_ret prints_when prints_seq : prints.

(** ** The reads *)

Lemma length_remaining (f : File) :
  length (remaining f) = (length (content f) - offset f)%nat.
Proof. unfold remaining. by rewrite length_drop. Qed.

Lemma file_Read_run (buf : list byte) (s : state) :
  exists k,
    k = Nat.min (length buf) (length (remaining (file s)))
    /\ file_Read buf s =
         Ok (take k (remaining (file s)) ++ drop k buf, k,
             if decide (buf <> [] /\ remaining (file s) = [])
             then Some EOF else None)
            (advance k s).
Proof.
  eexists. split; [reflexivity|]. unfold file_Read.
  destruct buf as [|b buf].
  - rewrite decide_False by (intros [? _]; done).
    simpl. by rewrite advance_0.
  - destruct (remaining (file s)) as [|r rest] eqn:E.
    + rewrite decide_True by done. simpl. by rewrite advance_0.
    + rewrite decide_False by (intros [_ ?]; done). done.
Qed.

Lemma read_buf_Ok (n : nat) (what : string) (s s' : state) (buf : list byte) :
  read_buf n what s = Ok buf s' ->
  exists k,
    k = Nat.min n (length (remaining (file s)))
    /\ (n <> 0%nat -> k <> 0%nat)
    /\ s' = advance k s
    /\ buf = take k (remaining (file s)) ++ zeros (n - k).
Proof.
  unfold read_buf. intros H.
  destruct (file_Read_run (zeros n) s) as (k & Hk & E).
  rewrite (mbind_run _ _ _ _ _ E) in H.
  unfold zeros in *. rewrite length_replicate in Hk.
  exists k. split; [exact Hk|].
  destruct (decide _) as [[Hn Hr]|Hd] in H; [discriminate|].
  injection H as <- <-. split; [|split; [done|]].
  - intros Hn Hk0. apply Hd. split.
    + destruct n; [done|]. done.
    + destruct (remaining (file s)); [done|]. simpl in *. lia.
  - by rewrite drop_replicate.
Qed.

Lemma io_ReadFull_Ok (buf : list byte) (s s' : state) (n : nat) (r : list byte) :
  io_ReadFull buf s = Ok (n, None, r) s' ->
  (length buf <= length (remaining (file s)))%nat
  /\ n = length buf
  /\ r = take (length buf) (remaining (file s))
  /\ s' = advance (length buf) s.
Proof.
  unfold io_ReadFull. destruct (decide _) as [Hle|Hgt].
  - intros H. injection H as <- <- <-. done.
  - destruct (remaining (file s)); discriminate.
Qed.

Lemma io_ReadFull_run (buf : list byte) (s : state) :
  (length buf <= length (remaining (file s)))%nat ->
  io_ReadFull buf s =
    Ok (length buf, None, take (length buf) (remaining (file s)))
       (advance (length buf) s).
Proof. intros H. unfold io_ReadFull. by rewrite decide_True. Qed.

Lemma io_ReadFull_short (buf : list byte) (s : state) :
  (length (remaining (file s)) < length buf)%nat ->
  exists n e r s', io_ReadFull buf s = Ok (n, Some e, r) s'.
Proof.
  intros H. unfold io_ReadFull. rewrite decide_False by lia.
  destruct (remaining (file s)); eauto.
Qed.

(** A 32-bit word is in range. *)
Lemma byte_to_Z_range (b : byte) : 0 <= byte_to_Z b < 256.
Proof.
  unfold byte_to_Z. pose proof (Byte.to_N_bounded b). lia.
Qed.

Lemma lor_range (n a b : Z) :
  0 <= n -> 0 <= a < 2 ^ n -> 0 <= b < 2 ^ n -> 0 <= Z.lor a b < 2 ^ n.
Proof.
  intros Hn Ha Hb. split; [apply Z.lor_nonneg; lia|].
  destruct (Z.eq_dec (Z.lor a b) 0) as [->|Hne]; [lia|].
  assert (0 < n).
  { destruct (Z.eq_dec n 0) as [->|]; [|lia].
    assert (a = 0) as -> by lia. assert (b = 0) as -> by lia. done. }
  apply Z.log2_lt_pow2; [pose proof (proj2 (Z.lor_nonneg a b)); lia|].
  rewrite Z.log2_lor by lia.
  apply Z.max_lub_lt.
  - destruct (Z.eq_dec a 0) as [->|?]; [simpl; lia|]. apply Z.log2_lt_pow2; lia.
  - destruct (Z.eq_dec b 0) as [->|?]; [simpl; lia|]. apply Z.log2_lt_pow2; lia.
Qed.

Lemma word_range (b0 b1 b2 b3 : byte) :
  0 <= Z.lor (Z.lor (Z.lor (byte_to_Z b0) (Z.shiftl (byte_to_Z b1) 8))
                 (Z.shiftl (byte_to_Z b2) 16))
           (Z.shiftl (byte_to_Z b3) 24) < 2 ^ 32.
Proof.
  pose proof (byte_to_Z_range b0). pose proof (byte_to_Z_range b1).
  pose proof (byte_to_Z_range b2). pose proof (byte_to_Z_range b3).
  rewrite !Z.shiftl_mul_pow2 by lia.
  repeat apply lor_range; lia.
Qed.

Lemma Uint32_range (order : ByteOrder) (b : list byte) :
  0 <= Uint32 order b < 2 ^ 32.
Proof.
  destruct order; simpl.
  - unfold be_uint32. destruct b as [|b0 [|b1 [|b2 [|b3 [|]]]]]; try lia.
    apply word_range.
  - unfold le_uint32. destruct b as [|b0 [|b1 [|b2 [|b3 [|]]]]]; try lia.
    apply word_range.
Qed.

Lemma read_u32_Ok (order : ByteOrder) (what : string) (s s' : state) (x : Z) :
  read_u32 order what s = Ok x s' ->
  (4 <= length (remaining (file s)))%nat
  /\ s' = advance 4 s
  /\ x = Uint32 order (take 4 (remaining (file s)))
  /\ 0 <= x < 2 ^ 32.
Proof.
  unfold read_u32, binary_Read. intros H.
  apply mbind_Ok in H as ([x' err] & s1 & H1 & H).
  apply mbind_Ok in H1 as ([[n e] r] & s2 & H2 & H1).
  destruct e as [e|]; simpl in H1.
  - injection H1 as <- <- <-. discriminate.
  - injection H1 as <- <- <-.
    apply io_ReadFull_Ok in H2 as (Hle & _ & -> & ->).
    injection H as <- <-. simpl in *. repeat split; try done; apply Uint32_range.
Qed.

Lemma make_Ok (n : Z) (s s' : state) (b : list byte) :
  make n s = Ok b s' -> 0 <= n /\ s' = s /\ b = zeros (Z.to_nat n).
Proof.
  unfold make. destruct (Z.ltb_spec n 0) as [Hn|Hn]; [discriminate|].
  intros H. injection H as <- <-. done.
Qed.

Lemma make_Panic (n : Z) (s : state) : n < 0 -> make n s = Panic s.
Proof. intros H. unfold make. destruct (Z.ltb_spec n 0) as [Hn|Hn]; [done|lia]. Qed.
(** ** The stages of ReadFile *)

Ltac simpl_state :=
  cbn [file eblFile stdout content offset advance printed assigned
       Filename Path Size Read Hdr1 Hdr2 Hdr3 Padding Hdr4 HdrData
       Channel1Size Channel2Size DataSizeCalc HeaderRead DataSizeEst
       Channel1Data Channel2Data
       set_Read add_Read set_Header1 set_Header2 set_Header3 set_Padding
       set_Header4 set_HeaderData set_Channel1Size set_Channel2Size
       set_DataSizeCalc set_HeaderRead set_DataSizeEst set_Channel1Data
       set_Channel2Data] in *.

Lemma prints_Ok (m : M unit) (s s' : state) (a : unit) :
  prints m -> m s = Ok a s' -> exists l, s' = printed l s.
Proof. intros Hp H. destruct (Hp s) as [l E]. exists l. congruence. Qed.

(** One step of a run that ends in [Ok]: the first computation of a bind is
    taken apart by what it is. *)
Ltac first_of H1 :=
  lazymatch type of H1 with
  | get_ebl ?s = Ok ?a ?s1 =>
      rewrite get_ebl_run in H1; injection H1 as H1 ?; subst a; subst s1
  | modify_ebl _ _ = Ok _ ?s1 =>
      rewrite modify_ebl_run in H1; injection H1 as H1; subst s1
  | read_buf _ _ _ = Ok _ _ =>
      let k := fresh "k" in let Hk := fresh "Hk" in let Hnz := fresh "Hnz" in
      apply read_buf_Ok in H1 as (k & Hk & Hnz & -> & ->)
  | read_u32 _ _ _ = Ok _ _ =>
      let Hle := fresh "Hle" in let Hx := fresh "Hx" in let Hr := fresh "Hr" in
      apply read_u32_Ok in H1 as (Hle & -> & Hx & Hr)
  | make _ _ = Ok _ _ =>
      let Hn := fresh "Hn" in
      apply make_Ok in H1 as (Hn & -> & ->)
  | _ =>
      let l := fresh "l" in
      apply prints_Ok in H1 as [l ->]; [|solve [auto 10 with prints]]
  end.

Lemma mbind_assoc {A B C} (m : M A) (f : A -> M B) (g : B -> M C) (s : state) :
  ((m ≫= f) ≫= g) s = (m ≫= (fun a => f a ≫= g)) s.
Proof. unfold mbind, M_bind, bind. destruct (m s); reflexivity. Qed.

Ltac step H :=
  rewrite ?mbind_assoc in H;
  lazymatch type of H with
  | (_ ≫= _) _ = Ok _ _ =>
      let a := fresh "a" in let s1 := fresh "s" in let H1 := fresh "Hm" in
      apply mbind_Ok in H as (a & s1 & H1 & H); first_of H1; cbv beta in H
  end.

Lemma initial_lag (inputFile : string) (data : list byte) :
  lag 0 (initial inputFile data).
Proof. unfold lag, initial. simpl. repeat split; lia. Qed.

Ltac lag_solve :=
  unfold lag in *; simpl_state; rewrite ?length_remaining in *; simpl_state;
  repeat match goal with H : _ /\ _ |- _ => destruct H end;
  repeat split; try done; lia.

Lemma readHeader1_Ok (p : Parser) (s s' : state) :
  lag 0 s -> Read (eblFile s) = 0 ->
  readHeader1 p s = Ok tt s' ->
  lag 0 s' /\ Read (eblFile s') = 8
  /\ content (file s') = content (file s).
Proof.
  intros Hl H0 H. unfold readHeader1 in H.
  do 2 step H.
  destruct (negb _) in H.
  - step H. discriminate H.
  - do 3 step H. first_of H.
    lag_solve.
Qed.

Lemma readHeader2_Ok (p : Parser) (s s' : state) :
  lag 0 s ->
  readHeader2 p s = Ok tt s' ->
  lag 0 s' /\ Read (eblFile s') = Read (eblFile s) + 12
  /\ content (file s') = content (file s).
Proof.
  intros Hl H. unfold readHeader2 in H.
  do 2 step H.
  destruct (negb _) in H.
  - step H. discriminate H.
  - do 3 step H. first_of H.
    lag_solve.
Qed.

Lemma readHeader3_Ok (p : Parser) (s s' : state) (filename : string) :
  lag 0 s ->
  readHeader3 p s = Ok filename s' ->
  lag 4 s' /\ Read (eblFile s') = Read (eblFile s) + 74
  /\ content (file s') = content (file s).
Proof.
  intros Hl H. unfold readHeader3 in H.
  do 2 step H.
  destruct (negb _) in H.
  - step H. discriminate H.
  - do 8 step H. injection H as _ <-.
    lag_solve.
Qed.

Lemma readPadding_Ok (p : Parser) (k : nat) (s s' : state) (la : Lookahead) :
  lag k s ->
  readPadding p s = Ok la s' ->
  lag k s' /\ content (file s') = content (file s).
Proof.
  intros Hl H. unfold readPadding in H.
  step H.
  destruct (Z.ltb_spec 0 (Header3_Data (Hdr3 (eblFile s)) - Read (eblFile s)))
    as [Hpos|Hneg].
  - do 3 step H.
    apply mbind_Ok in H as ([[padding bytesRead] err] & s1 & H1 & H).
    destruct (file_Read_run (zeros (Z.to_nat
                (Header3_Data (Hdr3 (eblFile s)) - Read (eblFile s))))
                (printed l (assigned
                   (set_Padding (Header3_Data (Hdr3 (eblFile s)) - Read (eblFile s))) s)))
      as (n & Hmin & E).
    rewrite E in H1. clear E. injection H1 as <- <- <- <-.
    unfold zeros in Hmin. rewrite length_replicate in Hmin.
    destruct (decide _) as [Heof|Hok] in H.
    + step H. discriminate H.
    + do 2 step H. destruct (_ && _) in H.
      * step H. destruct (_ <=? _)%nat in H.
        -- step H. injection H as _ <-. lag_solve.
        -- injection H as _ <-. lag_solve.
      * injection H as _ <-. lag_solve.
  - do 2 step H. injection H as _ <-.
    lag_solve.
Qed.

Lemma header4Start_Ok (p : Parser) (la : Lookahead) (s s' : state)
    (r : list byte * Z) :
  header4Start p la s = Ok r s' ->
  exists l,
    s' = printed l (advance (header4StartBytes la) s)
    /\ (header4StartBytes la <= length (remaining (file s)))%nat.
Proof.
  unfold header4Start, header4StartBytes. intros H.
  destruct (foundHeader4InPadding la).
  - destruct (header4SizeBytes la) as [b|].
    + apply mbind_Ok in H as (a & s1 & H1 & H). injection H1 as <- <-.
      step H. injection H as _ <-. exists l. rewrite advance_0. split; [done|lia].
    + do 2 step H. injection H as _ <-. exists l. split; [done|lia].
  - apply mbind_Ok in H as ([[prefix4 bytesRead] err] & s1 & H1 & H).
    destruct (file_Read_run (zeros 4) s) as (n & Hmin & E).
    rewrite E in H1. clear E. injection H1 as <- <- <- <-.
    unfold zeros in Hmin. rewrite length_replicate in Hmin.
    destruct (decide _) as [Heof|Hok] in H.
    + step H. discriminate H.
    + step H. destruct (negb _) in H.
      * apply mbind_Ok in H as (a' & s2 & _ & H). discriminate H.
      * do 2 step H. injection H as _ <-.
        rewrite length_remaining in *. simpl_state.
        assert (n = 4%nat) as -> by lia.
        exists (l ++ l0). split; [|lia].
        unfold printed, advance. simpl. f_equal.
        -- f_equal. lia.
        -- by rewrite app_assoc.
Qed.

Lemma readHeader4_Ok (p : Parser) (k : nat) (la : Lookahead) (s s' : state) :
  lag k s ->
  readHeader4 p la s = Ok tt s' ->
  lag k s' /\ content (file s') = content (file s).
Proof.
  intros Hl H. unfold readHeader4 in H.
  apply mbind_Ok in H as ([prefix4 size] & s1 & H1 & H).
  apply header4Start_Ok in H1 as (l & -> & Hle).
  do 3 step H. first_of H.
  unfold header4StartBytes in *.
  destruct (foundHeader4InPadding la); [destruct (header4SizeBytes la)|];
    lag_solve.
Qed.

Lemma readHeaderData_Ok (p : Parser) (k : nat) (filename : string)
    (s s' : state) :
  lag k s ->
  readHeaderData p filename s = Ok tt s' ->
  lag k s' /\ content (file s') = content (file s)
  /\ words_in_range (HdrData (eblFile s')).
Proof.
  intros Hl H. unfold readHeaderData in H.
  do 17 step H. first_of H.
  split; [|split].
  - clear Hx Hx0 Hx1 Hx2 Hx3 Hx4 Hx5 Hx6 Hx7 Hx8 Hx9 Hx10. lag_solve.
  - done.
  - unfold words_in_range. simpl. done.
Qed.

Lemma readHeaders_Ok (p : Parser) (inputFile : string) (data : list byte)
    (s : state) :
  readHeaders p (initial inputFile data) = Ok tt s ->
  lag 4 s /\ content (file s) = data
  /\ words_in_range (HdrData (eblFile s)).
Proof.
  unfold readHeaders. intros H.
  apply mbind_Ok in H as ([] & s1 & H1 & H).
  apply readHeader1_Ok in H1 as (L1 & R1 & C1);
    [|apply initial_lag|reflexivity].
  apply mbind_Ok in H as ([] & s2 & H2 & H).
  apply readHeader2_Ok in H2 as (L2 & R2 & C2); [|exact L1].
  apply mbind_Ok in H as (filename & s3 & H3 & H).
  apply readHeader3_Ok in H3 as (L3 & R3 & C3); [|exact L2].
  apply mbind_Ok in H as (la & s4 & H4 & H).
  apply readPadding_Ok with (k := 4%nat) in H4 as (L4 & C4); [|exact L3].
  apply mbind_Ok in H as ([] & s5 & H5 & H).
  apply readHeader4_Ok with (k := 4%nat) in H5 as (L5 & C5); [|exact L4].
  apply readHeaderData_Ok with (k := 4%nat) in H as (L6 & C6 & W); [|exact L5].
  split; [exact L6|]. split; [|exact W].
  rewrite C6, C5, C4, C3, C2, C1. reflexivity.
Qed.

Lemma wrap64_zero (x : Z) : - 2 ^ 64 < x < 2 ^ 64 -> (wrap64 x = 0 <-> x = 0).
Proof.
  unfold wrap64.
  change (2 ^ 64) with 18446744073709551616.
  change (2 ^ 63) with 9223372036854775808.
  intros H. Z.div_mod_to_equations. lia.
Qed.

Lemma extends_refl s : extends s s.
Proof. exists []. by rewrite app_nil_r. Qed.

Lemma extends_trans s1 s2 s3 : extends s1 s2 -> extends s2 s3 -> extends s1 s3.
Proof.
  intros [l1 E1] [l2 E2]. exists (l1 ++ l2). by rewrite E2, E1, app_assoc.
Qed.

Lemma extends_In (m : msg) s s' : extends s s' -> In m (stdout s) -> In m (stdout s').
Proof. intros [l E] H. rewrite E. apply in_or_app. by left. Qed.

Ltac solve_extends :=
  first [ exists []; by rewrite app_nil_r
        | rewrite <- ?app_assoc; eexists; reflexivity ].

Lemma channelSizes_run (p : Parser) (s : state) :
  exists s',
    channelSizes p s = Ok tt s'
    /\ same_file s s' /\ same_counters s s' /\ extends s s'
    /\ Read (eblFile s') = Read (eblFile s)
    /\ (Channel1Size (eblFile s'), Channel2Size (eblFile s'))
       = sizes_of (HdrData (eblFile s))
    /\ DataSizeCalc (eblFile s')
       = Channel1Size (eblFile s') + Channel2Size (eblFile s')
    /\ (words_in_range (HdrData (eblFile s)) ->
        debug p = true ->
        Channel1Size (eblFile s') <> Channel2Size (eblFile s') ->
        Channel1Size (eblFile s') <> 0 -> Channel2Size (eblFile s') <> 0 ->
        In (different_length (Channel1Size (eblFile s'))
              (Channel2Size (eblFile s'))) (stdout s')).
Proof.
  unfold channelSizes, sizes_of, derived_sizes, same_file, same_counters,
    extends, words_in_range.
  unfold mbind, M_bind, bind, get_ebl, modify_ebl, when, Debug, ret.
  cbn [file eblFile stdout]. simpl_state.
  set (v2 := HeaderData_V2 (HdrData (eblFile s))).
  set (v3 := HeaderData_V3 (HdrData (eblFile s))).
  set (v4 := HeaderData_V4 (HdrData (eblFile s))).
  set (v5 := HeaderData_V5 (HdrData (eblFile s))).
  destruct (Z.eqb_spec (v3 - v2) (v5 - v4)) as [E12|N12].
  - destruct (Z.eqb_spec (v3 - v2) 0) as [E0|N0].
    + assert ((v5 - v4 =? 0) = true) as -> by lia.
      destruct (debug p); simpl_state; eexists; (split; [reflexivity|]);
        simpl_state; repeat split; eauto; try lia; try solve_extends.
    + assert ((v5 - v4 =? 0) = false) as -> by lia.
      rewrite andb_false_r.
      destruct (debug p); simpl_state; eexists; (split; [reflexivity|]);
        simpl_state; repeat split; eauto; try lia; try solve_extends.
  - assert ((v3 - v2 =? 0) && (v5 - v4 =? 0) = false) as ->.
    { destruct (Z.eqb_spec (v3 - v2) 0), (Z.eqb_spec (v5 - v4) 0);
        simpl; try done; lia. }
    destruct (Z.eqb_spec (wrap64 ((v3 - v2) * (v5 - v4))) 0) as [Ew|Nw];
      cbn [negb].
    + destruct (debug p); simpl_state; eexists; (split; [reflexivity|]);
        simpl_state; repeat split; eauto; try lia; try solve_extends.
      all: intros (? & ? & ? & ? & ?) _ _ Hc1 Hc2; exfalso.
      all: assert (Hb : - 2 ^ 64 < (v3 - v2) * (v5 - v4) < 2 ^ 64)
        by (change (2 ^ 64) with 18446744073709551616;
            change (2 ^ 32) with 4294967296 in *; subst v2 v3 v4 v5; nia).
      all: apply (proj1 (wrap64_zero _ Hb)) in Ew.
      all: apply Z.eq_mul_0 in Ew as [?|?]; contradiction.
    + destruct (debug p); simpl_state; eexists; (split; [reflexivity|]);
        simpl_state; repeat split; eauto; try lia; try solve_extends; try discriminate.
      intros _ _ _ _ _. rewrite !in_app_iff. right. by left.
Qed.

(** Running a stage forwards. *)
Lemma ret_run {A} (a : A) (s : state) : ret a s = Ok a s.
Proof. reflexivity. Qed.

Lemma make_run (n : Z) (s : state) :
  0 <= n -> make n s = Ok (zeros (Z.to_nat n)) s.
Proof. intros H. unfold make. destruct (Z.ltb_spec n 0); [lia|done]. Qed.

Ltac fwd :=
  rewrite ?mbind_assoc;
  first
    [ erewrite mbind_run by apply get_ebl_run
    | erewrite mbind_run by apply modify_ebl_run
    | erewrite mbind_run by apply Debug_run
    | erewrite mbind_run by apply ret_run
    | erewrite mbind_run by (apply make_run; lia) ];
  cbv beta.

Lemma readDataPadding_Ok (p : Parser) (k : nat) (s s' : state) :
  lag k s ->
  readDataPadding p s = Ok tt s' ->
  lag k s' /\ content (file s') = content (file s)
  /\ same_counters s s' /\ extends s s'
  /\ Channel1Size (eblFile s') = Channel1Size (eblFile s)
  /\ Channel2Size (eblFile s') = Channel2Size (eblFile s)
  /\ HeaderRead (eblFile s') = Read (eblFile s')
  /\ offset (file s') =
       (offset (file s)
        + Nat.min (Z.to_nat (dataPadding_of (eblFile s)))
            (length (remaining (file s))))%nat.
Proof.
  intros Hl H. unfold readDataPadding in H. unfold dataPadding_of.
  step H.
  destruct (Z.ltb_spec 0 (HeaderData_V5 (HdrData (eblFile s))
                          - DataSizeCalc (eblFile s) - 178)) as [Hpos|Hneg];
    cbn [when] in H.
  - do 2 step H.
    rewrite ?mbind_assoc in H.
    apply mbind_Ok in H as ([[padding bytesRead] err] & s1 & H1 & H).
    destruct (file_Read_run (zeros (Z.to_nat
                (HeaderData_V5 (HdrData (eblFile s))
                 - DataSizeCalc (eblFile s) - 178))) (printed l s))
      as (n & Hmin & E).
    rewrite E in H1. clear E. injection H1 as <- <- <- <-.
    unfold zeros in Hmin. rewrite length_replicate in Hmin.
    destruct (decide _) as [Heof|Hok] in H.
    + apply mbind_Ok in H as (a' & s2 & H1 & _). discriminate H1.
    + do 5 step H. first_of H.
      unfold same_counters, extends. simpl_state.
      repeat split; try solve_extends; try lag_solve.
  - do 5 step H. first_of H.
    unfold same_counters, extends. simpl_state.
    repeat split; try solve_extends; try lag_solve.
Qed.

Lemma readAudio_Ok (p : Parser) (k : nat) (s s' : state) :
  lag k s ->
  readAudio p s = Ok tt s' ->
  let c1 := Channel1Size (eblFile s) in
  let c2 := Channel2Size (eblFile s) in
  0 <= c1 /\ 0 <= c2
  /\ (Z.to_nat c1 + Z.to_nat c2 <= length (remaining (file s)))%nat
  /\ lag k s' /\ content (file s') = content (file s)
  /\ same_counters s s' /\ stdout s' = stdout s
  /\ Channel1Size (eblFile s') = c1 /\ Channel2Size (eblFile s') = c2
  /\ HeaderRead (eblFile s') = HeaderRead (eblFile s)
  /\ Read (eblFile s') = Read (eblFile s) + c1 + c2
  /\ Channel1Data (eblFile s') = take (Z.to_nat c1) (remaining (file s))
  /\ Channel2Data (eblFile s')
     = take (Z.to_nat c2) (drop (Z.to_nat c1) (remaining (file s))).
Proof.
  intros Hl H. unfold readAudio in H. cbv zeta.
  do 2 step H.
  apply mbind_Ok in H as ([[n1 e1] r1] & s1 & H1 & H).
  step H. destruct e1 as [e1|].
  { step H. discriminate H. }
  apply io_ReadFull_Ok in H1 as (Hle1 & -> & -> & ->).
  do 2 step H.
  apply mbind_Ok in H as ([[n2 e2] r2] & s2 & H2 & H).
  step H. destruct e2 as [e2|].
  { step H. discriminate H. }
  apply io_ReadFull_Ok in H2 as (Hle2 & -> & -> & ->).
  first_of H.
  unfold zeros in *. rewrite !length_replicate in *.
  unfold same_counters. simpl_state.
  rewrite !length_remaining in *. simpl_state.
  assert (Hrem : remaining
            {| content := content (file s);
               offset := offset (file s) + Z.to_nat (Channel1Size (eblFile s)) |}
          = drop (Z.to_nat (Channel1Size (eblFile s))) (remaining (file s))).
  { unfold remaining. simpl. by rewrite drop_drop. }
  rewrite Hrem.
  repeat split; try done; try lia; lag_solve.
Qed.

Lemma readAudio_panic_a (p : Parser) (s : state) :
  Channel1Size (eblFile s) < 0 -> readAudio p s = Panic s.
Proof.
  intros H. unfold readAudio. fwd.
  erewrite mbind_Panic; [reflexivity|]. by apply make_Panic.
Qed.

Lemma readAudio_panic_b (p : Parser) (s : state) :
  0 <= Channel1Size (eblFile s) ->
  (Z.to_nat (Channel1Size (eblFile s)) <= length (remaining (file s)))%nat ->
  Channel2Size (eblFile s) < 0 ->
  exists s', readAudio p s = Panic s'.
Proof.
  intros H1 Hle H2. unfold readAudio. do 2 fwd.
  erewrite mbind_run;
    [|apply io_ReadFull_run; unfold zeros; rewrite length_replicate; exact Hle].
  cbv beta iota. do 2 fwd.
  erewrite mbind_Panic; [eexists; reflexivity|].
  apply make_Panic. simpl_state. exact H2.
Qed.

Lemma readAudio_fails_a (p : Parser) (s : state) :
  0 <= Channel1Size (eblFile s) ->
  (length (remaining (file s)) < Z.to_nat (Channel1Size (eblFile s)))%nat ->
  exists e n s',
    readAudio p s
    = Fail (ReadErrorPartial "channel 1 data" e n (Channel1Size (eblFile s))) s'.
Proof.
  intros H1 Hlt. unfold readAudio. do 2 fwd.
  destruct (io_ReadFull_short (zeros (Z.to_nat (Channel1Size (eblFile s)))) s)
    as (n & e & r & s1 & E).
  { unfold zeros. rewrite length_replicate. exact Hlt. }
  rewrite (mbind_run _ _ _ _ _ E). cbv beta iota. fwd.
  match goal with
  | |- exists e' n' s', (when ?b ?m ≫= _) ?st = _ =>
      destruct (prints_when b m (prints_Debug _ _) st) as [l El];
      rewrite (mbind_run _ _ _ _ _ El); cbv beta
  end.
  eexists _, _, _. reflexivity.
Qed.

Lemma tryTrailer_run (p : Parser) (d : Z) (s : state) :
  tryTrailer p d s =
    if decide (d = 4) then
      if decide (4 <= length (remaining (file s)))%nat then
        Ok true (printed (say p (trailer_read (take 4 (remaining (file s)))))
                   (assigned (add_Read 4) (advance 4 s)))
      else Ok false (advance (length (remaining (file s))) s)
    else Ok false s.
Proof.
  unfold tryTrailer.
  destruct (Z.eqb_spec d 4) as [E4|N4];
    [rewrite (decide_True (P := d = 4)) by exact E4
    |rewrite (decide_False (P := d = 4)) by exact N4; reflexivity].
  destruct (file_Read_run (zeros 4) s) as (n & Hmin & E).
  unfold zeros in Hmin. rewrite length_replicate in Hmin.
  rewrite (mbind_run _ _ _ _ _ E). cbv beta iota.
  destruct (decide (zeros 4 <> [] /\ remaining (file s) = [])) as [[_ Hr]|Hok].
  - rewrite Hr in *. simpl in Hmin. subst n.
    rewrite decide_False by (simpl; lia). simpl. by rewrite advance_0.
  - destruct (Nat.eqb_spec n 4) as [->|Hn].
    + assert (H4 : (4 <= length (remaining (file s)))%nat) by lia.
      rewrite decide_True by exact H4.
      fwd. unfold say, trailer_read, when.
      change (drop 4 (zeros 4)) with (@nil byte). rewrite app_nil_r.
      destruct (debug p) eqn:Ed.
      * erewrite mbind_run by apply Debug_run. rewrite Ed. reflexivity.
      * fwd. by rewrite printed_nil.
    + rewrite decide_False by lia. unfold ret. f_equal. f_equal. lia.
Qed.

Lemma checkEnd_run (p : Parser) (s : state) :
  let f := eblFile s in
  let d := Size f - Read f in
  exists s',
    checkEnd p s = Ok tt s'
    /\ (d = 0 -> s' = s)
    /\ (d = 4 ->
        if decide (4 <= length (remaining (file s)))%nat
        then s' = printed (say p (trailer_read (take 4 (remaining (file s)))))
                    (assigned (add_Read 4) (advance 4 s))
        else s' = advance (length (remaining (file s))) s)
    /\ (d = 40 -> s' = printed (say p found_40_bytes) s)
    /\ (d <> 0 -> d <> 4 -> d <> 40 ->
        s' = printed (say p (inconsistent_filesize f)) s).
Proof.
  cbv zeta. unfold checkEnd. fwd.
  destruct (Z.eqb_spec (Read (eblFile s)) (Size (eblFile s))) as [E|N];
    cbn [negb].
  { exists s. split; [reflexivity|]. repeat split; intros; try lia; try done. }
  cbv zeta.
  pose proof (tryTrailer_run p (Size (eblFile s) - Read (eblFile s)) s) as T.
  destruct (decide (Size (eblFile s) - Read (eblFile s) = 4)) as [E4|N4].
  - destruct (decide (4 <= length (remaining (file s)))%nat) as [H4|H4].
    + rewrite (mbind_run _ _ _ _ _ T). eexists. split; [reflexivity|].
      repeat split; intros; try lia; try done.
    + rewrite (mbind_run _ _ _ _ _ T). rewrite E4.
      eexists. split; [reflexivity|].
      repeat split; intros; try lia; try done.
  - rewrite (mbind_run _ _ _ _ _ T).
    destruct (Z.eqb_spec (Size (eblFile s) - Read (eblFile s)) 4) as [?|_];
      [contradiction|].
    destruct (Z.eqb_spec (Size (eblFile s) - Read (eblFile s)) 40) as [E40|N40];
      cbn [negb andb]; rewrite Debug_run.
    + eexists. split; [reflexivity|]. repeat split; intros; try lia; try done.
    + eexists. split; [reflexivity|]. repeat split; intros; try lia; try done.
Qed.

(** Behind a counter that lags by four bytes, a difference of four means
    that the file has been read to its end: the trailer is never there. *)
Lemma checkEnd_lag (p : Parser) (s : state) :
  lag 4 s -> exists l, checkEnd p s = Ok tt (printed l s).
Proof.
  intros (HS & HR & Ho).
  destruct (checkEnd_run p s) as (s' & E & H0 & H4 & H40 & Hother).
  cbv zeta in *. rewrite E.
  destruct (Z.eq_dec (Size (eblFile s) - Read (eblFile s)) 0) as [D0|D0].
  { exists []. rewrite printed_nil. by rewrite (H0 D0). }
  destruct (Z.eq_dec (Size (eblFile s) - Read (eblFile s)) 4) as [D4|D4].
  { specialize (H4 D4). rewrite length_remaining in H4.
    rewrite decide_False in H4 by lia.
    replace (length (content (file s)) - offset (file s))%nat with 0%nat in H4
      by lia.
    rewrite advance_0 in H4. exists []. rewrite printed_nil. by rewrite H4. }
  destruct (Z.eq_dec (Size (eblFile s) - Read (eblFile s)) 40) as [D40|D40].
  { eexists. by rewrite (H40 D40). }
  eexists. by rewrite (Hother D0 D4 D40).
Qed.

Lemma readDataPadding_run (p : Parser) (s : state) :
  dataPadding_of (eblFile s) <= 0 \/ remaining (file s) <> [] ->
  exists s', readDataPadding p s = Ok tt s'.
Proof.
  unfold dataPadding_of, readDataPadding. intros H. fwd.
  destruct (Z.ltb_spec 0 (HeaderData_V5 (HdrData (eblFile s))
                          - DataSizeCalc (eblFile s) - 178)) as [Hpos|Hneg];
    cbn [when].
  - destruct H as [H|H]; [lia|]. do 2 fwd.
    rewrite ?mbind_assoc.
    match goal with
    | |- context [(file_Read ?b ≫= _) ?st] =>
        destruct (file_Read_run b st) as (n & _ & E)
    end.
    rewrite (mbind_run _ _ _ _ _ E). cbv beta iota.
    rewrite decide_False by (intros [_ ?]; done).
    do 5 fwd. clear E.
    match goal with
    | |- exists s', ?m ?st = _ =>
        destruct ((prints_when _ _ (prints_Debug _ _) : prints m) st) as [l ->]
    end.
    eauto.
  - do 5 fwd.
    match goal with
    | |- exists s', ?m ?st = _ =>
        destruct ((prints_when _ _ (prints_Debug _ _) : prints m) st) as [l ->]
    end.
    eauto.
Qed.

Lemma readDataPadding_fails (p : Parser) (s : state) :
  0 < dataPadding_of (eblFile s) -> remaining (file s) = [] ->
  exists s', readDataPadding p s = Fail (ReadError "data padding" EOF) s'.
Proof.
  unfold dataPadding_of, readDataPadding. intros Hpos Hr. fwd.
  destruct (Z.ltb_spec 0 (HeaderData_V5 (HdrData (eblFile s))
                          - DataSizeCalc (eblFile s) - 178)) as [_|Hneg];
    [|lia].
  cbn [when]. do 2 fwd.
  rewrite ?mbind_assoc.
  match goal with
  | |- context [(file_Read ?b ≫= _) ?st] =>
      destruct (file_Read_run b st) as (n & _ & E)
  end.
  rewrite (mbind_run _ _ _ _ _ E). cbv beta iota.
  rewrite decide_True.
  - eexists. reflexivity.
  - split; [|exact Hr].
    unfold zeros. destruct (Z.to_nat _) eqn:En; [lia|done].
Qed.

(** ** ReadFile as a whole *)

Lemma lag_same (k : nat) (s s' : state) :
  same_file s s' -> Size (eblFile s') = Size (eblFile s) ->
  Read (eblFile s') = Read (eblFile s) -> lag k s -> lag k s'.
Proof.
  unfold same_file, lag. intros Hf HS HR (H1 & H2 & H3).
  rewrite Hf, HS, HR. done.
Qed.

Lemma ReadFile_Ok (p : Parser) (inputFile errorDir : string)
    (data : list byte) (f : EBLFile) (s : state) :
  ReadFile p inputFile errorDir data = Ok f s -> decoded p data f s.
Proof.
  unfold ReadFile, parse. intros H.
  apply mbind_Ok in H as ([] & s1 & H1 & H).
  apply readHeaders_Ok in H1 as (L1 & C1 & W1).
  apply mbind_Ok in H as ([] & s4 & H4 & H).
  unfold readPayload in H4.
  apply mbind_Ok in H4 as ([] & s2 & H2 & H4).
  destruct (channelSizes_run p s1)
    as (s2' & E2 & F2 & (S2 & D2) & X2 & R2 & Z2 & _ & G2).
  rewrite E2 in H2. injection H2 as ->.
  assert (L2 : lag 4 s2) by (apply (lag_same 4 s1); assumption).
  apply mbind_Ok in H4 as ([] & s3 & H3 & H4).
  apply readDataPadding_Ok with (k := 4%nat) in H3
    as (L3 & C3 & (S3 & D3) & X3 & A3 & B3 & HR3 & _); [|exact L2].
  apply readAudio_Ok with (k := 4%nat) in H4; [|exact L3]. cbv zeta in H4.
  destruct H4 as (P1 & P2 & Hle & L4 & C4 & (S4 & D4) & X4 & A4 & B4 & HR4
                  & R4 & Da & Db).
  apply mbind_Ok in H as ([] & s5 & H5 & H).
  destruct (checkEnd_lag p s4 L4) as [l E5].
  rewrite E5 in H5. injection H5 as <-.
  rewrite get_ebl_run in H. injection H as <- <-.
  simpl_state.
  assert (Hsz : (Channel1Size (eblFile s4), Channel2Size (eblFile s4))
                = sizes_of (HdrData (eblFile s4))).
  { rewrite A4, B4, A3, B3, Z2, D4, D3, D2. reflexivity. }
  split; simpl_state.
  - reflexivity.
  - unfold lag in *. simpl_state. exact L4.
  - rewrite C4, C3. unfold same_file in F2. rewrite F2. exact C1.
  - rewrite D4, D3, D2. exact W1.
  - exact Hsz.
  - rewrite Da, A4, A3. rewrite length_take. lia.
  - rewrite Db, B4, B3. rewrite length_take, length_drop. lia.
  - rewrite R4, HR4, HR3, A4, B4. lia.
  - intros Hd N12 N1 N2. apply in_or_app. left.
    rewrite X4. apply (extends_In _ s2 s3 X3).
    rewrite A4, B4, A3, B3 in *. apply G2; try assumption.
Qed.

(** ** Words and their bytes *)

Lemma byte_to_Z_of_Z (z : Z) : byte_to_Z (byte_of_Z z) = z mod 256.
Proof.
  unfold byte_to_Z, byte_of_Z.
  assert (Hr : 0 <= z mod 256 < 256) by (apply Z.mod_pos_bound; lia).
  destruct (Byte.of_N (Z.to_N (z mod 256))) as [b|] eqn:E.
  - apply Byte.to_of_N in E. rewrite E. lia.
  - apply Byte.of_N_None_iff in E. lia.
Qed.

Lemma byte_of_Z_to_Z (b : byte) : byte_of_Z (byte_to_Z b) = b.
Proof.
  unfold byte_of_Z. pose proof (byte_to_Z_range b) as Hr.
  rewrite Z.mod_small by lia. unfold byte_to_Z.
  rewrite N2Z.id. by rewrite Byte.of_to_N.
Qed.

(** Four bytes put together, as a sum. *)
Lemma word_sum (a b c d : Z) :
  0 <= a < 256 -> 0 <= b < 256 -> 0 <= c < 256 -> 0 <= d < 256 ->
  Z.lor (Z.lor (Z.lor a (Z.shiftl b 8)) (Z.shiftl c 16)) (Z.shiftl d 24)
  = a + b * 2 ^ 8 + c * 2 ^ 16 + d * 2 ^ 24.
Proof.
  intros Ha Hb Hc Hd. rewrite !Z.shiftl_mul_pow2 by lia.
  assert (L : forall n x y, 0 <= n -> 0 <= x < 2 ^ n -> 0 <= y ->
                Z.lor x (y * 2 ^ n) = x + y * 2 ^ n).
  { intros n x y Hn Hx Hy. rewrite <- Z.shiftl_mul_pow2 by lia.
    assert (Hdis : Z.land x (Z.shiftl y n) = 0).
    { apply Z.bits_inj'. intros k Hk. rewrite Z.land_spec, Z.bits_0.
      destruct (Z.lt_ge_cases k n) as [Hlt|Hge].
      - rewrite Z.shiftl_spec_low by lia. apply andb_false_r.
      - destruct (Z.eq_dec x 0) as [->|Hx0]; [by rewrite Z.bits_0|].
        rewrite (Z.bits_above_log2 x k); [reflexivity|lia|].
        apply Z.lt_le_trans with n; [|exact Hge].
        apply Z.log2_lt_pow2; lia. }
    rewrite Z.add_nocarry_lxor by exact Hdis.
    rewrite Z.lxor_lor by exact Hdis. reflexivity. }
  rewrite (L 8) by lia.
  rewrite (L 16) by lia.
  rewrite (L 24) by lia.
  reflexivity.
Qed.

Lemma le_uint32_put (x : Z) : 0 <= x < 2 ^ 32 -> le_uint32 (put_le32 x) = x.
Proof.
  intros Hx. unfold le_uint32, put_le32.
  rewrite word_sum by (rewrite byte_to_Z_of_Z; apply Z.mod_pos_bound; lia).
  rewrite !byte_to_Z_of_Z, !Z.shiftr_div_pow2 by lia.
  change (2 ^ 8) with 256. change (2 ^ 16) with 65536.
  change (2 ^ 24) with 16777216. change (2 ^ 32) with 4294967296 in Hx.
  Z.div_mod_to_equations. lia.
Qed.

Lemma put_le32_uint (b0 b1 b2 b3 : byte) :
  put_le32 (le_uint32 [b0; b1; b2; b3]) = [b0; b1; b2; b3].
Proof.
  unfold le_uint32, put_le32.
  pose proof (byte_to_Z_range b0) as H0. pose proof (byte_to_Z_range b1) as H1.
  pose proof (byte_to_Z_range b2) as H2. pose proof (byte_to_Z_range b3) as H3.
  rewrite word_sum by assumption.
  rewrite !Z.shiftr_div_pow2 by lia.
  change (2 ^ 8) with 256. change (2 ^ 16) with 65536.
  change (2 ^ 24) with 16777216.
  assert (E : forall u v, u mod 256 = v mod 256 -> byte_of_Z u = byte_of_Z v).
  { intros u v E. unfold byte_of_Z. by rewrite E. }
  repeat f_equal;
    (etransitivity; [|apply byte_of_Z_to_Z]); apply E;
    Z.div_mod_to_equations; lia.
Qed.

Lemma le_uint16_put (x : Z) :
  0 <= x < 2 ^ 16 ->
  match put_le16 x with
  | [b0; b1] => le_uint16 b0 b1 = x
  | _ => False
  end.
Proof.
  intros Hx. unfold put_le16, le_uint16.
  pose proof (word_sum (byte_to_Z (byte_of_Z x))
                (byte_to_Z (byte_of_Z (Z.shiftr x 8))) 0 0) as W.
  rewrite !Z.shiftl_0_l, !Z.lor_0_r in W. rewrite W; clear W;
    try lia; try (rewrite byte_to_Z_of_Z; apply Z.mod_pos_bound; lia).
  rewrite !byte_to_Z_of_Z, !Z.shiftr_div_pow2 by lia.
  change (2 ^ 8) with 256. change (2 ^ 16) with 65536 in *.
  Z.div_mod_to_equations. lia.
Qed.

(** ** The decoder's claims *)

(** The sample of a decode that is known to succeed on a given stream. *)
Ltac known_sample E :=
  lazymatch type of E with
  | ?rf = Ok ?f ?s =>
      let H := fresh "H" in
      assert (H : sample rf = Some f) by (rewrite E; reflexivity);
      vm_compute in H; injection H as H; subst f
  end.

(** C1 as the spec states it fails: for the words 100, 100, 200, 302 the
    decoder computes the extents 0 and 102, not 102 and 0. *)
Lemma mono_example_counterexample :
  (words <$> sample (ReadFile streams.quiet "Pad.ebl" "errors" streams.spec_example))
    = Some (100, 100, 200, 302)
  /\ (extents <$> sample (ReadFile streams.quiet "Pad.ebl" "errors" streams.spec_example))
    = Some (0, 102)
  /\ (extents <$> sample (ReadFile streams.quiet "Pad.ebl" "errors" streams.spec_example))
    <> Some (102, 0).
Proof. vm_compute. repeat split. discriminate. Qed.

(** C1, as the code has it.  The derivation of the channel extents always
    completes; it sets [channel_a_size = v3 - v2] and
    [channel_b_size = v5 - v4], except when both differences are zero: then
    [channel_a_size = v4 - v3 + 2] and [channel_b_size = 0].  So the words
    100, 100, 200, 302 give 0 and 102 (only the first difference is zero),
    and the words 100, 100, 200, 200 give 102 and 0.  A successful decode
    returns the extents so derived. *)
Theorem channel_extents (p : Parser) :
  (forall s : state,
     exists s',
       channelSizes p s = Ok tt s'
       /\ extents (eblFile s') = sizes_of (HdrData (eblFile s)))
  /\ (forall v2 v3 v4 v5 : Z,
        v3 - v2 = 0 -> v5 - v4 = 0 ->
        derived_sizes v2 v3 v4 v5 = (v4 - v3 + 2, 0))
  /\ (forall v2 v3 v4 v5 : Z,
        v3 - v2 <> 0 \/ v5 - v4 <> 0 ->
        derived_sizes v2 v3 v4 v5 = (v3 - v2, v5 - v4))
  /\ derived_sizes 100 100 200 302 = (0, 102)
  /\ derived_sizes 100 100 200 200 = (102, 0)
  /\ (forall (inputFile errorDir : string) (data : list byte) (f : EBLFile)
             (s : state),
        ReadFile p inputFile errorDir data = Ok f s ->
        extents f = sizes_of (HdrData f)).
Proof.
  split; [|split; [|split; [|split; [|split]]]].
  - intros s. destruct (channelSizes_run p s) as (s' & E & _ & _ & _ & _ & Z' & _).
    exists s'. split; [exact E|exact Z'].
  - intros v2 v3 v4 v5 H1 H2. unfold derived_sizes. rewrite H1, H2. reflexivity.
  - intros v2 v3 v4 v5 H. unfold derived_sizes.
    destruct (Z.eqb_spec (v3 - v2) 0), (Z.eqb_spec (v5 - v4) 0); simpl;
      try reflexivity. lia.
  - reflexivity.
  - reflexivity.
  - intros inputFile errorDir data f s H.
    apply ReadFile_Ok in H. exact (dec_sizes _ _ _ _ H).
Qed.

Lemma channel_extents_witness :
  derived_sizes 100 100 200 200 = (200 - 100 + 2, 0)
  /\ derived_sizes 100 100 200 302 = (100 - 100, 302 - 200)
  /\ (extents <$> sample (ReadFile streams.quiet "Pad.ebl" "errors" streams.mono))
     = Some (102, 0).
Proof.
  destruct (channel_extents streams.quiet) as (_ & Hmono & Hother & _ & _ & Hdec).
  split; [apply Hmono; reflexivity|].
  split; [apply Hother; right; discriminate|].
  destruct (ReadFile streams.quiet "Pad.ebl" "errors" streams.mono)
    as [f s|e s|s] eqn:E; [|vm_compute in E; discriminate E ..].
  simpl. rewrite (Hdec _ _ _ _ _ E). known_sample E. reflexivity.
Defined.

(** C2 does not hold of the code.  Header 3 is read in 78 bytes (4 + 4 + 4
    + 2 + 64) and counted as 74: after it the counter [Read] is 94 while the
    offset of the file is 98, and from there on to the end of every
    successful decode the counter stays four bytes behind the offset (or the
    file has been read to its end). *)
Theorem counter_lags_stream_position (p : Parser) (inputFile errorDir : string)
    (data : list byte) :
  (forall (filename : string) (s : state),
     (readHeader1 p ;; readHeader2 p ;; readHeader3 p) (initial inputFile data)
       = Ok filename s ->
     Read (eblFile s) = 94 /\ offset (file s) = Nat.min 98 (length data))
  /\ (forall (f : EBLFile) (s : state),
        ReadFile p inputFile errorDir data = Ok f s ->
        offset (file s) = Nat.min (Z.to_nat (Read f) + 4) (length data)).
Proof.
  split.
  - intros filename s H.
    apply mbind_Ok in H as ([] & s1 & H1 & H).
    apply readHeader1_Ok in H1 as (L1 & R1 & C1);
      [|apply initial_lag|reflexivity].
    apply mbind_Ok in H as ([] & s2 & H2 & H).
    apply readHeader2_Ok in H2 as (L2 & R2 & C2); [|exact L1].
    apply readHeader3_Ok in H as ((_ & _ & L3) & R3 & C3); [|exact L2].
    assert (HR : Read (eblFile s) = 94) by lia.
    split; [exact HR|].
    rewrite L3, HR, C3, C2, C1. reflexivity.
  - intros f s H. apply ReadFile_Ok in H.
    destruct (dec_lag _ _ _ _ H) as (_ & _ & Ho).
    rewrite (dec_ebl _ _ _ _ H), <- (dec_content _ _ _ _ H). exact Ho.
Qed.

Lemma counter_lags_stream_position_witness :
  ((fun o => match o with
             | Ok _ s => Some (Read (eblFile s), offset (file s))
             | _ => None
             end)
     ((readHeader1 streams.quiet ;; readHeader2 streams.quiet ;;
       readHeader3 streams.quiet) (initial "Pad.ebl" streams.mono)))
  = Some (94, 98%nat)
  /\ ((fun o => match o with
                | Ok f s => Some (Read f, offset (file s))
                | _ => None
                end)
        (ReadFile streams.quiet "Pad.ebl" "errors" streams.mono))
     = Some (386, 390%nat).
Proof.
  destruct (counter_lags_stream_position streams.quiet "Pad.ebl" "errors"
              streams.mono) as [H3 Hend].
  split.
  - destruct ((readHeader1 streams.quiet ;; readHeader2 streams.quiet ;;
               readHeader3 streams.quiet) (initial "Pad.ebl" streams.mono))
      as [filename s|e s|s] eqn:E; [|vm_compute in E; discriminate E ..].
    destruct (H3 filename s eq_refl) as [-> ->]. reflexivity.
  - destruct (ReadFile streams.quiet "Pad.ebl" "errors" streams.mono)
      as [f s|e s|s] eqn:E; [|vm_compute in E; discriminate E ..].
    rewrite (Hend f s eq_refl). known_sample E. reflexivity.
Defined.

(** C3 does not hold of the code.  The last stage never fails, warns about
    a difference of 40 and reports any difference other than 0, 4 and 40,
    and would consume a 4-byte trailer that the file has; but the
    difference is taken from the counter that lags four bytes behind the
    file, so in a successful decode a difference of four means that the
    file has already been read to its end: no trailer is consumed and the
    counter never reaches the file size. *)
Theorem trailer_never_consumed (p : Parser) :
  (forall s : state,
     let d := Size (eblFile s) - Read (eblFile s) in
     exists s',
       checkEnd p s = Ok tt s'
       /\ (d = 4 -> (4 <= length (remaining (file s)))%nat ->
           s' = printed (say p (trailer_read (take 4 (remaining (file s)))))
                  (assigned (add_Read 4) (advance 4 s)))
       /\ (d = 40 -> s' = printed (say p found_40_bytes) s)
       /\ (d <> 0 -> d <> 4 -> d <> 40 ->
           s' = printed (say p (inconsistent_filesize (eblFile s))) s))
  /\ (forall (inputFile errorDir : string) (data : list byte) (f : EBLFile)
             (s : state),
        ReadFile p inputFile errorDir data = Ok f s ->
        Read f = HeaderRead f + Channel1Size f + Channel2Size f
        /\ (Size f - Read f = 4 -> offset (file s) = length data)).
Proof.
  split.
  - intros s. cbv zeta.
    destruct (checkEnd_run p s) as (s' & E & _ & H4 & H40 & Hother).
    cbv zeta in *. exists s'. split; [exact E|]. split; [|split; assumption].
    intros D4 Hle. specialize (H4 D4). by rewrite decide_True in H4 by exact Hle.
  - intros inputFile errorDir data f s H. apply ReadFile_Ok in H.
    split; [exact (dec_read _ _ _ _ H)|].
    destruct (dec_lag _ _ _ _ H) as (HS & HR & Ho).
    rewrite (dec_ebl _ _ _ _ H), <- (dec_content _ _ _ _ H). lia.
Qed.

Lemma trailer_never_consumed_witness :
  ((fun o => match o with
             | Ok f s => Some (Size f - Read f, Read f, offset (file s))
             | _ => None
             end)
     (ReadFile streams.quiet "Pad.ebl" "errors" streams.mono))
  = Some (4, 386, 390%nat).
Proof.
  destruct (trailer_never_consumed streams.quiet) as [_ Hend].
  destruct (ReadFile streams.quiet "Pad.ebl" "errors" streams.mono)
    as [f s|e s|s] eqn:E; [|vm_compute in E; discriminate E ..].
  destruct (Hend _ _ _ f s E) as [HR Ho].
  assert (D : Size f - Read f = 4) by (known_sample E; reflexivity).
  rewrite (Ho D), D. known_sample E. reflexivity.
Defined.

(** Streams that do hold bytes after the payload: with 4 of them the
    difference is 8, so they are reported as an inconsistency and left
    unread; with 40 the difference is 44, reported in the same way; it takes
    36 bytes to get the warning about 40.  The file without the alignment gap
    behaves as the one with it. *)
Example leftover_bytes :
  let run data :=
    match ReadFile streams.verbose "Pad.ebl" "errors" data with
    | Ok f s => Some (Size f - Read f, offset (file s), last (stdout s))
    | _ => None
    end in
  run (streams.mono_extra 4)
    = Some (8, 390%nat,
            Some (Sprintf "ERROR: Inconsistent filesize: Read: %d, Expected: %d, Difference: %d"
                    [AInt 386; AInt 394; AInt 8]))
  /\ run (streams.mono_extra 40)
     = Some (44, 390%nat,
             Some (Sprintf "ERROR: Inconsistent filesize: Read: %d, Expected: %d, Difference: %d"
                     [AInt 386; AInt 430; AInt 44]))
  /\ run (streams.mono_extra 36) = Some (40, 390%nat, Some found_40_bytes)
  /\ (fst <$> run streams.mono_nogap) = Some (4, 390%nat).
Proof. vm_compute. repeat split. Qed.

(** C6 as the spec states it fails: a stream whose words give the extents 3
    and 5 decodes, and channel A has 3 bytes. *)
Lemma odd_channel_counterexample :
  ((fun f => (length (Channel1Data f), length (Channel2Data f)))
     <$> sample (ReadFile streams.verbose "Pad.ebl" "errors" streams.odd_stereo))
  = Some (3%nat, 5%nat)
  /\ (3 mod 2 <> 0)%nat.
Proof. split; [vm_compute; reflexivity | discriminate]. Qed.

(** C6, as the code has it.  In every sample of a successful decode the
    two channel buffers have the lengths derived from the words of the
    metadata block, whatever their parity; lengths that are unequal and
    both non-zero are not corrected, and with debug mode on they are
    reported by one line. *)
Theorem decoded_channel_lengths (p : Parser) (inputFile errorDir : string)
    (data : list byte) (f : EBLFile) (s : state) :
  ReadFile p inputFile errorDir data = Ok f s ->
  extents f = sizes_of (HdrData f)
  /\ Z.of_nat (length (Channel1Data f)) = Channel1Size f
  /\ Z.of_nat (length (Channel2Data f)) = Channel2Size f
  /\ (debug p = true ->
      Channel1Size f <> Channel2Size f ->
      Channel1Size f <> 0 -> Channel2Size f <> 0 ->
      In (different_length (Channel1Size f) (Channel2Size f)) (stdout s)).
Proof.
  intros H. apply ReadFile_Ok in H.
  split; [exact (dec_sizes _ _ _ _ H)|].
  split; [exact (dec_size1 _ _ _ _ H)|].
  split; [exact (dec_size2 _ _ _ _ H)|].
  exact (dec_log _ _ _ _ H).
Qed.

Lemma decoded_channel_lengths_witness :
  exists f s,
    ReadFile streams.verbose "Pad.ebl" "errors" streams.odd_stereo = Ok f s
    /\ Z.of_nat (length (Channel1Data f)) = 3
    /\ Z.of_nat (length (Channel2Data f)) = 5
    /\ In (different_length 3 5) (stdout s).
Proof.
  destruct (ReadFile streams.verbose "Pad.ebl" "errors" streams.odd_stereo)
    as [f s|e s|s] eqn:E; [|vm_compute in E; discriminate E ..].
  exists f, s. split; [reflexivity|].
  destruct (decoded_channel_lengths _ _ _ _ f s E) as (Hx & H1 & H2 & Hlog).
  assert (Hc : extents f = (3, 5)) by (known_sample E; reflexivity).
  injection Hc as Hc1 Hc2.
  rewrite H1, H2. split; [exact Hc1|]. split; [exact Hc2|].
  rewrite <- Hc1, <- Hc2.
  apply Hlog; [reflexivity | lia | lia | lia].
Defined.

(** C7. Round trip for mono: for a successfully decoded sample whose
    channel B is empty, [WriteWAV] (writing enabled, no fault of the
    operating system) leaves a file made of the 44-byte header that
    [WriteWAV] builds followed by channel A's bytes verbatim; the header's
    channel count is 1 and its sample rate is the decoded one, and so are
    the fields of the file: the bytes 22-23 are 01 00, and the bytes 24-27
    are the sample rate, which is the little-endian word read back from
    them. *)
Theorem mono_round_trip (p : Parser) (inputFile errorDir : string)
    (data : list byte) (f : EBLFile) (s : state)
    (e : wav.Encoder) (outputDir : string) :
  ReadFile p inputFile errorDir data = Ok f s ->
  Channel2Data f = [] ->
  wav.noWrite e = false ->
  exists (h : wav.WAVHeader) (out : list byte),
    wav.WriteWAV e wav.NoFault f outputDir
    = wav.Return (wav.outputFilename_of e f) None
        (Some (wav.mkOutput outputDir (wav.outputFilename_of e f) out))
    /\ out = wav.binary_Write h ++ Channel1Data f
    /\ wav.NumChannels h = 1
    /\ wav.SampleRate h = HeaderData_SampleRate (HdrData f)
    /\ take 2 (drop 22 out) = put_le16 1
    /\ take 4 (drop 24 out) = put_le32 (HeaderData_SampleRate (HdrData f))
    /\ drop 44 out = Channel1Data f
    /\ h = wav.header_of f (Channel1Data f)
    /\ take 2 (drop 22 out) = [x01; x00]
    /\ le_uint32 (take 4 (drop 24 out)) = HeaderData_SampleRate (HdrData f).
Proof.
  intros H HB Hw. apply ReadFile_Ok in H.
  assert (H2 : Channel2Size f = 0).
  { rewrite <- (dec_size2 _ _ _ _ H), HB. reflexivity. }
  destruct (dec_words _ _ _ _ H) as (_ & _ & _ & _ & Hrate).
  assert (Hu : uint32 (HeaderData_SampleRate (HdrData f))
               = HeaderData_SampleRate (HdrData f))
    by (unfold uint32; apply Z.mod_small; exact Hrate).
  exists (wav.header_of f (Channel1Data f)).
  exists (wav.binary_Write (wav.header_of f (Channel1Data f)) ++ Channel1Data f).
  unfold wav.WriteWAV, wav.wavData_of, wav.numChannels_of.
  rewrite H2, Hw. cbn [Z.eqb Pos.eqb].
  split; [reflexivity|]. split; [reflexivity|].
  unfold wav.header_of, wav.numChannels_of, wav.binary_Write. rewrite H2, Hu.
  cbn [wav.NumChannels wav.SampleRate wav.RiffID wav.FileSize wav.WaveID
       wav.FmtID wav.FmtSize wav.AudioFormat wav.ByteRate wav.BlockAlign
       wav.BitsPerSample wav.DataID wav.DataSize Z.eqb].
  do 7 (split; [reflexivity|]).
  change (take 4 (drop 24 _))
    with (put_le32 (HeaderData_SampleRate (HdrData f))).
  apply le_uint32_put. exact Hrate.
Qed.

Lemma mono_round_trip_witness :
  exists f s h,
    ReadFile streams.quiet "Pad.ebl" "errors" streams.mono = Ok f s
    /\ Channel2Data f = []
    /\ wav.WriteWAV (wav.NewEncoder false false false "") wav.NoFault f "out"
       = wav.Return "Pad.wav" None
           (Some (wav.mkOutput "out" "Pad.wav"
                    (wav.binary_Write h ++ streams.ramp 102)))
    /\ wav.NumChannels h = 1
    /\ wav.SampleRate h = 44100
    /\ take 2 (drop 22 (wav.binary_Write h ++ streams.ramp 102)) = [x01; x00]
    /\ take 4 (drop 24 (wav.binary_Write h ++ streams.ramp 102))
       = [x44; xac; x00; x00].
Proof.
  destruct (ReadFile streams.quiet "Pad.ebl" "errors" streams.mono)
    as [f s|e s|s] eqn:E; [|vm_compute in E; discriminate E ..].
  assert (HB : Channel2Data f = []) by (known_sample E; reflexivity).
  destruct (mono_round_trip _ _ _ _ f s (wav.NewEncoder false false false "")
              "out" E HB eq_refl)
    as (h & out & Hw & -> & Hn & Hr & _ & H24 & _ & _ & H22 & _).
  exists f, s, h. split; [reflexivity|]. split; [exact HB|].
  rewrite Hw, Hn, Hr.
  assert (Hname : wav.outputFilename_of (wav.NewEncoder false false false "") f
                  = "Pad.wav"%string) by (known_sample E; reflexivity).
  assert (HA : Channel1Data f = streams.ramp 102)
    by (known_sample E; reflexivity).
  assert (Hrate : HeaderData_SampleRate (HdrData f) = 44100)
    by (known_sample E; reflexivity).
  rewrite HA, Hrate in H24. rewrite HA in H22.
  rewrite Hname, HA, Hrate. repeat split; assumption.
Defined.

Lemma eqb_string_of_bytes (b : list byte) (s : string) :
  b <> bytes_of_string s -> String.eqb (string_of_bytes b) s = false.
Proof.
  intros H. apply String.eqb_neq. intros E. apply H.
  unfold bytes_of_string, string_of_bytes in *. rewrite <- E.
  symmetry. apply list_byte_of_string_of_list_byte.
Qed.

Lemma readHeader1_invalid (p : Parser) (s : state) :
  remaining (file s) <> [] ->
  take 4 (remaining (file s)) <> FORM ->
  exists s',
    readHeader1 p s
    = Fail (InvalidPrefix "FORM" (take 4 (remaining (file s) ++ zeros 4))) s'.
Proof.
  intros Hne Hmagic. unfold readHeader1, read_buf.
  destruct (file_Read_run (zeros 4) s) as (k & Hk & E).
  unfold zeros in Hk. rewrite length_replicate in Hk.
  rewrite mbind_assoc. rewrite (mbind_run _ _ _ _ _ E). cbv beta iota.
  rewrite decide_False by (intros [_ ?]; done).
  fwd.
  assert (Hbuf : take k (remaining (file s)) ++ drop k (zeros 4)
                 = take 4 (remaining (file s) ++ zeros 4)).
  { destruct (remaining (file s)) as [|a [|b [|c [|d rest]]]]; subst k;
      reflexivity. }
  rewrite Hbuf.
  assert (Hbad : take 4 (remaining (file s) ++ zeros 4) <> bytes_of_string "FORM").
  { destruct (remaining (file s)) as [|a [|b [|c [|d rest]]]];
      try (intros Heq; vm_compute in Heq; discriminate Heq).
    exact Hmagic. }
  match goal with
  | |- exists s', (when ?b ?m ≫= _) ?st = _ =>
      destruct (prints_when b m (prints_Debug _ _) st) as [l El];
      rewrite (mbind_run _ _ _ _ _ El); cbv beta
  end.
  rewrite (eqb_string_of_bytes _ _ Hbad). cbn [negb].
  match goal with
  | |- exists s', (when ?b ?m ≫= _) ?st = _ =>
      destruct (prints_when b m (prints_Debug _ _) st) as [l' El'];
      rewrite (mbind_run _ _ _ _ _ El'); cbv beta
  end.
  eexists. reflexivity.
Qed.

(** C8. For every stream whose first four bytes are not ["FORM"],
    [ReadFile] returns an error and no [EBLFile]: the invalid-prefix error
    (the end-of-file read error for the empty stream), and [ConvertFile]
    returns [false] with that error, once, without writing any output; what
    it leaves behind is the copy of the input that [saveErrorFile] makes
    when [ErrorSave] asks for one. *)
Theorem invalid_magic (c : converter.Converter) (os : wav.fault)
    (sv : converter.save_fault)
    (inputFile errorDir outputDir : string) (data : list byte) :
  take 4 data <> FORM ->
  exists (e : error) (s : state),
    ReadFile (converter.parser c) inputFile errorDir data = Fail e s
    /\ (data <> [] -> e = InvalidPrefix "FORM" (take 4 (data ++ zeros 4)))
    /\ (data = [] -> e = ReadError "prefix" EOF)
    /\ converter.ConvertFile c os sv inputFile outputDir data
       = converter.Return false (Some (converter.ReadErr e)) None
           (if converter.ErrorSave (converter.options c)
            then converter.saveErrorFile c sv inputFile
                   (outputDir ++ "/errors") data
            else None).
Proof.
  intros Hmagic.
  assert (HR : exists e s,
             ReadFile (converter.parser c) inputFile errorDir data = Fail e s
             /\ (data <> [] -> e = InvalidPrefix "FORM" (take 4 (data ++ zeros 4)))
             /\ (data = [] -> e = ReadError "prefix" EOF)).
  { destruct data as [|b data'] eqn:Ed.
    - eexists _, _. split; [reflexivity|]. split; [done|reflexivity].
    - rewrite <- Ed in *.
      destruct (readHeader1_invalid (converter.parser c) (initial inputFile data))
        as [s' E].
      + unfold initial, remaining. simpl. rewrite Ed. discriminate.
      + unfold initial, remaining. simpl. exact Hmagic.
      + exists (InvalidPrefix "FORM" (take 4 (data ++ zeros 4))), s'.
        split; [|split; [reflexivity|rewrite Ed; discriminate]].
        unfold ReadFile, parse, readHeaders.
        rewrite !mbind_assoc. apply mbind_Fail. exact E. }
  destruct HR as (e & s & E & H1 & H2).
  exists e, s. split; [exact E|]. split; [exact H1|]. split; [exact H2|].
  unfold converter.ConvertFile.
  replace (ReadFile (converter.parser c) inputFile (outputDir ++ "/errors") data)
    with (ReadFile (converter.parser c) inputFile errorDir data) by reflexivity.
  rewrite E. reflexivity.
Qed.

Lemma invalid_magic_witness :
  exists s,
    ReadFile (converter.parser (converter.NewConverter
                (converter.mkOptions false false false false "")))
      "Pad.ebl" "out/errors" (bytes_of_string "RIFF....WAVE")
    = Fail (InvalidPrefix "FORM" (bytes_of_string "RIFF")) s.
Proof.
  destruct (invalid_magic
              (converter.NewConverter (converter.mkOptions false false false false ""))
              wav.NoFault converter.SaveOk "Pad.ebl" "out/errors" "out"
              (bytes_of_string "RIFF....WAVE"))
    as (e & s & E & H1 & _ & _); [discriminate|].
  exists s. rewrite E. f_equal. apply H1. discriminate.
Defined.

(** C9 as stated fails: with the words 0, 10, 5, 0 (channel B extent -5)
    and a file that ends after the metadata block, the decoder returns the
    error of the channel A read; with the words 1000, 0, 0, 0 (channel A
    extent -1000) it returns the error of the pre-audio padding read.
    Neither decode panics. *)
Lemma negative_size_counterexample :
  failure (ReadFile streams.quiet "Pad.ebl" "errors" streams.negative_b_truncated)
  = Some (ReadErrorPartial "channel 1 data" EOF 0 10, (0, 10, 5, 0))
  /\ failure (ReadFile streams.quiet "Pad.ebl" "errors" streams.negative_a_truncated)
     = Some (ReadError "data padding" EOF, (1000, 0, 0, 0)).
Proof. split; vm_compute; reflexivity. Qed.

(** C9, as the code has it.  Let the metadata block be read, with words
    that make a derived channel extent negative.  If the decoder gets as far
    as the allocation of that channel's buffer, it panics instead of
    returning an error: that is, if the pre-audio padding, when there is
    one, finds at least one byte to read, and, when only channel B's extent
    is negative, the file still holds channel A's bytes.  When instead the
    padding finds the file at its end, or the file is too short for channel
    A, the decoder returns the error of that read. *)
Theorem negative_size_panics (p : Parser) (inputFile errorDir : string)
    (data : list byte) (s : state) :
  readHeaders p (initial inputFile data) = Ok tt s ->
  let h := HdrData (eblFile s) in
  let c1 := fst (sizes_of h) in
  let c2 := snd (sizes_of h) in
  let pad := HeaderData_V5 h - (c1 + c2) - 178 in
  let avail := length (remaining (file s)) in
  let left := (avail - Nat.min (Z.to_nat pad) avail)%nat in
  (pad <= 0 \/ avail <> 0%nat ->
   c1 < 0 \/ (c2 < 0 /\ (Z.to_nat c1 <= left)%nat) ->
   exists s', ReadFile p inputFile errorDir data = Panic s')
  /\ (0 < pad -> avail = 0%nat ->
      exists s',
        ReadFile p inputFile errorDir data
        = Fail (ReadError "data padding" EOF) s')
  /\ (pad <= 0 \/ avail <> 0%nat ->
      0 <= c1 -> (left < Z.to_nat c1)%nat ->
      exists e n s',
        ReadFile p inputFile errorDir data
        = Fail (ReadErrorPartial "channel 1 data" e n c1) s').
Proof.
  intros H. cbv zeta.
  pose proof (readHeaders_Ok _ _ _ _ H) as (L1 & C1 & W1).
  destruct (channelSizes_run p s)
    as (s2 & E2 & F2 & (S2 & D2) & X2 & R2 & Z2 & DS2 & _).
  assert (L2 : lag 4 s2) by (apply (lag_same 4 s); assumption).
  unfold same_file in F2.
  assert (Hc1 : Channel1Size (eblFile s2) = fst (sizes_of (HdrData (eblFile s))))
    by (rewrite <- Z2; reflexivity).
  assert (Hc2 : Channel2Size (eblFile s2) = snd (sizes_of (HdrData (eblFile s))))
    by (rewrite <- Z2; reflexivity).
  assert (Hdp : dataPadding_of (eblFile s2)
                = HeaderData_V5 (HdrData (eblFile s))
                  - (fst (sizes_of (HdrData (eblFile s)))
                     + snd (sizes_of (HdrData (eblFile s)))) - 178).
  { unfold dataPadding_of. rewrite D2, DS2, Hc1, Hc2. reflexivity. }
  (* the decode up to the pre-audio padding *)
  unfold ReadFile, parse, readPayload.
  rewrite (mbind_run _ _ _ _ _ H). cbv beta.
  rewrite !mbind_assoc.
  rewrite (mbind_run _ _ _ _ _ E2). cbv beta.
  rewrite !mbind_assoc.
  (* the decode through the padding, when its read succeeds *)
  assert (Hpadded :
    HeaderData_V5 (HdrData (eblFile s))
      - (fst (sizes_of (HdrData (eblFile s)))
         + snd (sizes_of (HdrData (eblFile s)))) - 178 <= 0
    \/ length (remaining (file s)) <> 0%nat ->
    exists s3,
      readDataPadding p s2 = Ok tt s3
      /\ Channel1Size (eblFile s3) = fst (sizes_of (HdrData (eblFile s)))
      /\ Channel2Size (eblFile s3) = snd (sizes_of (HdrData (eblFile s)))
      /\ length (remaining (file s3))
         = (length (remaining (file s))
            - Nat.min (Z.to_nat
                (HeaderData_V5 (HdrData (eblFile s))
                 - (fst (sizes_of (HdrData (eblFile s)))
                    + snd (sizes_of (HdrData (eblFile s)))) - 178))
                (length (remaining (file s))))%nat).
  { intros Hpad. destruct (readDataPadding_run p s2) as [s3 E3].
    { rewrite Hdp, F2. destruct Hpad as [Hpad|Hpad]; [by left|right].
      destruct (remaining (file s)); [done|discriminate]. }
    pose proof (readDataPadding_Ok p 4 s2 s3 L2 E3)
      as (L3 & C3 & _ & _ & A3 & B3 & _ & O3).
    exists s3. split; [exact E3|]. split; [congruence|]. split; [congruence|].
    rewrite !length_remaining, C3, O3, Hdp, F2, !length_remaining. lia. }
  split; [|split].
  - intros Hpad Hneg. destruct (Hpadded Hpad) as (s3 & E3 & A3 & B3 & Hrem3).
    rewrite (mbind_run _ _ _ _ _ E3). cbv beta. rewrite ?mbind_assoc.
    assert (E4 : exists s4, readAudio p s3 = Panic s4).
    { destruct (Z.lt_ge_cases (Channel1Size (eblFile s3)) 0) as [Hlt|Hge].
      - exists s3. by apply readAudio_panic_a.
      - apply readAudio_panic_b; [exact Hge| |].
        + destruct Hneg as [Hneg|[_ Hle]]; [lia|].
          rewrite Hrem3, A3. exact Hle.
        + destruct Hneg as [Hneg|[Hneg _]]; [lia|].
          rewrite B3. exact Hneg. }
    destruct E4 as [s4 E4]. exists s4. apply mbind_Panic. exact E4.
  - intros Hpos Hav.
    destruct (readDataPadding_fails p s2) as [s3 E3].
    + rewrite Hdp. exact Hpos.
    + rewrite F2. destruct (remaining (file s)); [done|discriminate].
    + exists s3. apply mbind_Fail. exact E3.
  - intros Hpad Hge Hlt. destruct (Hpadded Hpad) as (s3 & E3 & A3 & B3 & Hrem3).
    rewrite (mbind_run _ _ _ _ _ E3). cbv beta. rewrite ?mbind_assoc.
    destruct (readAudio_fails_a p s3) as (e & n & s4 & E4).
    + rewrite A3. exact Hge.
    + rewrite Hrem3, A3. exact Hlt.
    + rewrite A3 in E4. exists e, n, s4. apply mbind_Fail. exact E4.
Qed.

Lemma negative_size_panics_witness :
  exists s', ReadFile streams.quiet "Pad.ebl" "errors" streams.negative_b = Panic s'.
Proof.
  destruct (readHeaders streams.quiet (initial "Pad.ebl" streams.negative_b))
    as [[] s|e s|s] eqn:E; [|vm_compute in E; discriminate E ..].
  assert (Hs : (fun o => match o with
                         | Ok _ s' => Some (sizes_of (HdrData (eblFile s')),
                                            HeaderData_V5 (HdrData (eblFile s')),
                                            length (remaining (file s')))
                         | _ => None
                         end)
                 (readHeaders streams.quiet (initial "Pad.ebl" streams.negative_b))
               = Some (10, -5, 0, 10%nat)) by (vm_compute; reflexivity).
  rewrite E in Hs. injection Hs as Hsz Hv5 Hav.
  destruct (negative_size_panics _ _ "errors" _ s E) as [Hpanic _].
  cbv zeta in Hpanic. rewrite Hsz, Hv5, Hav in Hpanic.
  apply Hpanic.
  - left. simpl. lia.
  - right. simpl. split; lia.
Defined.

(** * Further properties *)

(** ** The interleaved payload, read back *)

Lemma channels_lookup (n : nat) :
  forall r : list byte,
    length r = (n * 4)%nat ->
    length (left_channel r) = (n * 2)%nat
    /\ length (right_channel r) = (n * 2)%nat
    /\ forall j, (j < n)%nat ->
         left_channel r !! (j * 2)%nat = r !! (j * 4)%nat
         /\ left_channel r !! (j * 2 + 1)%nat = r !! (j * 4 + 1)%nat
         /\ right_channel r !! (j * 2)%nat = r !! (j * 4 + 2)%nat
         /\ right_channel r !! (j * 2 + 1)%nat = r !! (j * 4 + 3)%nat.
Proof.
  induction n as [|n IH]; intros r Hl.
  - destruct r; [|discriminate]. simpl. repeat split; lia.
  - destruct r as [|a [|b [|c [|d r]]]]; try discriminate.
    simpl in Hl. destruct (IH r) as (L1 & L2 & Hj); [lia|].
    cbn [left_channel right_channel length]. split; [lia|]. split; [lia|].
    intros [|j] Hlt.
    + repeat split; reflexivity.
    + destruct (Hj j) as (E0 & E1 & E2 & E3); [lia|].
      replace (S j * 2)%nat with (S (S (j * 2))) by lia.
      replace (S j * 2 + 1)%nat with (S (S (j * 2 + 1))) by lia.
      replace (S j * 4)%nat with (S (S (S (S (j * 4))))) by lia.
      replace (S j * 4 + 1)%nat with (S (S (S (S (j * 4 + 1))))) by lia.
      replace (S j * 4 + 2)%nat with (S (S (S (S (j * 4 + 2))))) by lia.
      replace (S j * 4 + 3)%nat with (S (S (S (S (j * 4 + 3))))) by lia.
      simpl. auto.
Qed.

(** Two buffers of [n] 2-byte samples with the same bytes are equal. *)
Lemma pairs_ext (n : nat) (l l' : list byte) :
  length l = (n * 2)%nat -> length l' = (n * 2)%nat ->
  (forall j, (j < n)%nat ->
     l !! (j * 2)%nat = l' !! (j * 2)%nat
     /\ l !! (j * 2 + 1)%nat = l' !! (j * 2 + 1)%nat) ->
  l = l'.
Proof.
  intros Hl Hl' H. apply list_eq. intros k.
  destruct (decide (k < n * 2)%nat) as [Hk|Hk].
  - pose proof (Nat.div_mod_eq k 2) as E.
    pose proof (Nat.mod_upper_bound k 2) as Hm.
    destruct (H (k / 2)%nat) as [H0 H1]; [lia|].
    destruct (Nat.eq_dec (k mod 2)%nat 0%nat) as [E0|E0].
    + replace k with (k / 2 * 2)%nat by lia. exact H0.
    + replace k with (k / 2 * 2 + 1)%nat by lia. exact H1.
  - rewrite !lookup_ge_None_2 by lia. done.
Qed.

Section read_back.

Variables A B r : list byte.
Hypothesis Hr : wav.interleaveChannels A B = Some r.

Let n := (length A / 2)%nat.

Lemma interleave_left : left_channel r = take (n * 2) A.
Proof.
  subst n.
  destruct (interleaveChannels_spec A B) as (r' & Hr' & Hl & Hs).
  rewrite Hr in Hr'. injection Hr' as <-.
  destruct (channels_lookup (length A / 2) r Hl) as (L1 & L2 & Hc).
  assert (HA : (length A / 2 * 2 <= length A)%nat)
    by (pose proof (Nat.div_mod_eq (length A) 2); lia).
  apply (pairs_ext (length A / 2)); [exact L1|rewrite length_take; lia|].
  intros j Hj. destruct (Hc j Hj) as (E0 & E1 & _ & _).
  destruct (Hs j Hj) as (S0 & S1 & _ & _).
  rewrite E0, E1, S0, S1. rewrite !lookup_take_lt by lia. done.
Qed.

Lemma interleave_right_padded :
  right_channel r = take (n * 2) (take (length B / 2 * 2) B ++ zeros (n * 2)).
Proof.
  subst n.
  destruct (interleaveChannels_spec A B) as (r' & Hr' & Hl & Hs).
  rewrite Hr in Hr'. injection Hr' as <-.
  destruct (channels_lookup (length A / 2) r Hl) as (L1 & L2 & Hc).
  assert (HB : (length B / 2 * 2 <= length B)%nat)
    by (pose proof (Nat.div_mod_eq (length B) 2); lia).
  apply (pairs_ext (length A / 2)); [exact L2| |].
  { rewrite length_take, length_app, length_take. unfold zeros.
    rewrite length_replicate. lia. }
  intros j Hj. destruct (Hc j Hj) as (_ & _ & E2 & E3).
  destruct (Hs j Hj) as (_ & _ & S2 & S3).
  rewrite E2, E3, S2, S3.
  rewrite !lookup_take_lt by lia.
  pose proof (Nat.div_mod_eq (length B) 2) as EB.
  pose proof (Nat.mod_upper_bound (length B) 2).
  destruct (decide (has_right B j)) as [Hg|Hg]; unfold has_right in Hg.
  - rewrite !lookup_app_l by (rewrite length_take; lia).
    rewrite !lookup_take_lt by lia. done.
  - rewrite !lookup_app_r by (rewrite length_take; lia).
    unfold zeros. rewrite !lookup_replicate_2 by (rewrite length_take; lia).
    done.
Qed.

Lemma interleave_right_whole :
  (n * 2 <= length B)%nat -> right_channel r = take (n * 2) B.
Proof.
  intros Hle. rewrite interleave_right_padded. subst n.
  apply (pairs_ext (length A / 2)).
  { rewrite length_take, length_app, length_take. unfold zeros.
    rewrite length_replicate. lia. }
  { rewrite length_take. lia. }
  intros j Hj.
  pose proof (Nat.div_mod_eq (length B) 2) as EB.
  pose proof (Nat.mod_upper_bound (length B) 2).
  rewrite !lookup_take_lt by lia.
  rewrite !lookup_app_l by (rewrite length_take; lia).
  rewrite !lookup_take_lt by lia. done.
Qed.

End read_back.

(** X1. Reading an interleaved payload back gives the channels: the left
    channel of the result of [interleaveChannels] is channel A without the
    odd last byte, and its right channel is channel B's whole samples, cut
    or padded with zero bytes to the same length.  When B is at least as
    long, that is B's first bytes. *)
Theorem interleave_read_back (A B r : list byte) :
  wav.interleaveChannels A B = Some r ->
  let n := (length A / 2)%nat in
  left_channel r = take (n * 2) A
  /\ right_channel r = take (n * 2) (take (length B / 2 * 2) B ++ zeros (n * 2))
  /\ ((n * 2 <= length B)%nat -> right_channel r = take (n * 2) B).
Proof.
  intros Hr. cbv zeta. split; [|split].
  - exact (interleave_left A B r Hr).
  - exact (interleave_right_padded A B r Hr).
  - exact (interleave_right_whole A B r Hr).
Qed.

Lemma interleave_read_back_witness :
  exists r,
    wav.interleaveChannels [x01; x02; x03; x04; x05] [x0a; x0b; x0c] = Some r
    /\ left_channel r = [x01; x02; x03; x04]
    /\ right_channel r = [x0a; x0b; x00; x00].
Proof.
  destruct (wav.interleaveChannels [x01; x02; x03; x04; x05] [x0a; x0b; x0c])
    as [r|] eqn:E; [|discriminate E].
  destruct (interleave_read_back _ _ r E) as (HL & HR & _).
  exists r. split; [reflexivity|]. rewrite HL, HR. split; reflexivity.
Defined.

(** ** WriteWAV *)

Lemma length_put_le32 (x : Z) : length (put_le32 x) = 4%nat.
Proof. reflexivity. Qed.

Lemma wavData_of_Some (f : EBLFile) :
  exists payload,
    wav.wavData_of f = Some payload
    /\ length payload
       = (if Channel2Size f =? 0 then length (Channel1Data f)
          else (length (Channel1Data f) / 2 * 4)%nat)
    /\ (Channel2Size f = 0 -> payload = Channel1Data f)
    /\ (Channel2Size f <> 0 ->
        wav.interleaveChannels (Channel1Data f) (Channel2Data f)
        = Some payload).
Proof.
  unfold wav.wavData_of, wav.numChannels_of.
  destruct (Z.eqb_spec (Channel2Size f) 0) as [E0|N0]; cbn [Z.eqb Pos.eqb].
  - exists (Channel1Data f). repeat split; done.
  - destruct (interleaveChannels_spec (Channel1Data f) (Channel2Data f))
      as (r & Hr & Hl & _).
    exists r. split; [exact Hr|]. split; [exact Hl|]. split; done.
Qed.

(** X2. [WriteWAV] never panics, whatever the sample and the faults of the
    operating system.  When it writes, the file is the 44-byte header
    followed by the payload, and nothing else: the payload is channel A's
    bytes, as they are, for a sample whose [Channel2Size] is zero, and what
    [interleaveChannels] makes of the two channels, [len(A)/2] frames of
    four bytes, otherwise.  As long as the payload and the 36 bytes before
    it fit in 32 bits, the RIFF size read back from bytes 4-7 is the length
    of the file less 8 and the data size read back from bytes 40-43 is the
    length of the payload. *)
Theorem WriteWAV_sizes (e : wav.Encoder) (f : EBLFile) (outputDir : string) :
  (forall os, wav.WriteWAV e os f outputDir <> wav.WritePanic)
  /\ (wav.noWrite e = false ->
      exists payload out,
        wav.WriteWAV e wav.NoFault f outputDir
        = wav.Return (wav.outputFilename_of e f) None
            (Some (wav.mkOutput outputDir (wav.outputFilename_of e f) out))
        /\ out = wav.binary_Write (wav.header_of f payload) ++ payload
        /\ length out = (44 + length payload)%nat
        /\ length payload
           = (if Channel2Size f =? 0 then length (Channel1Data f)
              else (length (Channel1Data f) / 2 * 4)%nat)
        /\ (36 + Z.of_nat (length payload) < 2 ^ 32 ->
            le_uint32 (take 4 (drop 4 out)) = Z.of_nat (length out) - 8
            /\ le_uint32 (take 4 (drop 40 out)) = Z.of_nat (length payload))
        /\ drop 44 out = payload
        /\ (Channel2Size f = 0 -> payload = Channel1Data f)
        /\ (Channel2Size f <> 0 ->
            wav.interleaveChannels (Channel1Data f) (Channel2Data f)
            = Some payload)).
Proof.
  destruct (wavData_of_Some f) as (payload & Hp & Hlen & Hmono & Hstereo).
  split.
  - intros os. unfold wav.WriteWAV. rewrite Hp.
    destruct (wav.noWrite e); [discriminate|]. destruct os; discriminate.
  - intros Hw. exists payload.
    exists (wav.binary_Write (wav.header_of f payload) ++ payload).
    unfold wav.WriteWAV. rewrite Hp, Hw.
    split; [reflexivity|]. split; [reflexivity|].
    assert (H44 : length (wav.binary_Write (wav.header_of f payload)) = 44%nat)
      by reflexivity.
    split; [rewrite length_app, H44; reflexivity|]. split; [exact Hlen|].
    split; [|split; [reflexivity|split; assumption]].
    intros Hfit. rewrite length_app, H44.
    unfold wav.binary_Write, wav.header_of.
    cbn [wav.RiffID wav.FileSize wav.WaveID wav.FmtID wav.FmtSize
         wav.AudioFormat wav.NumChannels wav.SampleRate wav.ByteRate
         wav.BlockAlign wav.BitsPerSample wav.DataID wav.DataSize].
    assert (Hd : uint32 (Z.of_nat (length payload)) = Z.of_nat (length payload))
      by (unfold uint32; apply Z.mod_small; lia).
    rewrite Hd.
    assert (Hf : uint32 (36 + Z.of_nat (length payload))
                 = 36 + Z.of_nat (length payload))
      by (unfold uint32; apply Z.mod_small; lia).
    rewrite Hf.
    split.
    + change (take 4 (drop 4 _))
        with (put_le32 (36 + Z.of_nat (length payload))).
      rewrite le_uint32_put by lia. lia.
    + change (take 4 (drop 40 _)) with (put_le32 (Z.of_nat (length payload))).
      rewrite le_uint32_put by lia. reflexivity.
Qed.

Lemma WriteWAV_sizes_witness :
  exists out,
    wav.WriteWAV (wav.NewEncoder false false false "") wav.NoFault
      (ebl_of_channels "Pad" 44100 [x01; x02; x03; x04] [x05; x06; x07; x08])
      "out"
    = wav.Return "Pad.wav" None (Some (wav.mkOutput "out" "Pad.wav" out))
    /\ length out = 52%nat
    /\ le_uint32 (take 4 (drop 4 out)) = 44
    /\ le_uint32 (take 4 (drop 40 out)) = 8
    /\ drop 44 out = [x01; x02; x05; x06; x03; x04; x07; x08].
Proof.
  destruct (WriteWAV_sizes (wav.NewEncoder false false false "")
              (ebl_of_channels "Pad" 44100 [x01; x02; x03; x04]
                 [x05; x06; x07; x08]) "out")
    as [_ H].
  destruct (H eq_refl)
    as (payload & out & Hw & _ & Hl & Hp & Hfit & Hd & _ & Hs).
  exists out. split; [exact Hw|].
  simpl in Hp. rewrite Hp in Hl, Hfit.
  split; [exact Hl|].
  destruct Hfit as [H4 H40]; [simpl; lia|].
  rewrite H4, H40, Hl. split; [reflexivity|]. split; [reflexivity|].
  rewrite Hd. specialize (Hs ltac:(discriminate)).
  vm_compute in Hs. by injection Hs as <-.
Defined.

(** X3. The format fields of the header agree with each other: linear PCM
    (format 1) of 16 bits, one or two channels, a block of two bytes per
    channel; and, for a sample rate below 2^27 (beyond it the 32-bit product
    wraps), the byte rate is the sample rate times the block size. *)
Theorem header_format (f : EBLFile) (payload : list byte) :
  let h := wav.header_of f payload in
  let rate := HeaderData_SampleRate (HdrData f) in
  wav.AudioFormat h = 1 /\ wav.BitsPerSample h = 16 /\ wav.FmtSize h = 16
  /\ wav.NumChannels h = (if Channel2Size f =? 0 then 1 else 2)
  /\ wav.BlockAlign h = 2 * wav.NumChannels h
  /\ (0 <= rate < 2 ^ 27 ->
      wav.SampleRate h = rate
      /\ wav.ByteRate h = rate * wav.BlockAlign h).
Proof.
  cbv zeta. unfold wav.header_of, wav.numChannels_of.
  cbn [wav.AudioFormat wav.BitsPerSample wav.FmtSize wav.NumChannels
       wav.BlockAlign wav.SampleRate wav.ByteRate].
  split; [reflexivity|]. split; [reflexivity|]. split; [reflexivity|].
  split; [reflexivity|].
  split.
  - destruct (Channel2Size f =? 0); reflexivity.
  - intros Hr. change (2 ^ 27) with 134217728 in Hr.
    unfold uint32, uint16. change (2 ^ 32) with 4294967296.
    change (2 ^ 16) with 65536.
    destruct (Channel2Size f =? 0).
    + change ((1 * 16) mod 65536 / 8) with 2.
      split; Z.div_mod_to_equations; lia.
    + change ((2 * 16) mod 65536 / 8) with 4.
      split; Z.div_mod_to_equations; lia.
Qed.

Lemma header_format_witness :
  let h := wav.header_of
             (ebl_of_channels "Pad" 44100 [x01; x02; x03; x04]
                [x05; x06; x07; x08]) [] in
  wav.NumChannels h = 2 /\ wav.BlockAlign h = 4
  /\ wav.SampleRate h = 44100 /\ wav.ByteRate h = 176400.
Proof.
  cbv zeta.
  destruct (header_format
              (ebl_of_channels "Pad" 44100 [x01; x02; x03; x04]
                 [x05; x06; x07; x08]) [])
    as (_ & _ & _ & Hn & Hb & Hrate).
  cbv zeta in *. destruct Hrate as [Hs Hy]; [simpl; lia|].
  rewrite Hy, Hb, Hs, Hn. repeat split.
Defined.

(** X4. Stereo round trip: for a successfully decoded sample whose channels
    have the same even, non-zero length, [WriteWAV] writes the header with
    two channels followed by a payload whose left channel is channel A and
    whose right channel is channel B, byte for byte. *)
Theorem stereo_round_trip (p : Parser) (inputFile errorDir : string)
    (data : list byte) (f : EBLFile) (s : state)
    (e : wav.Encoder) (outputDir : string) :
  ReadFile p inputFile errorDir data = Ok f s ->
  Channel2Data f <> [] ->
  length (Channel1Data f) = length (Channel2Data f) ->
  (length (Channel1Data f) mod 2 = 0)%nat ->
  wav.noWrite e = false ->
  exists payload,
    wav.WriteWAV e wav.NoFault f outputDir
    = wav.Return (wav.outputFilename_of e f) None
        (Some (wav.mkOutput outputDir (wav.outputFilename_of e f)
                 (wav.binary_Write (wav.header_of f payload) ++ payload)))
    /\ wav.NumChannels (wav.header_of f payload) = 2
    /\ length payload = (2 * length (Channel1Data f))%nat
    /\ left_channel payload = Channel1Data f
    /\ right_channel payload = Channel2Data f.
Proof.
  intros H HB Heq Heven Hw. apply ReadFile_Ok in H.
  assert (H2 : Channel2Size f <> 0).
  { rewrite <- (dec_size2 _ _ _ _ H). destruct (Channel2Data f); [done|].
    simpl. lia. }
  assert (E2 : (Channel2Size f =? 0) = false) by (apply Z.eqb_neq; exact H2).
  destruct (interleaveChannels_spec (Channel1Data f) (Channel2Data f))
    as (r & Hr & Hl & _).
  pose proof (interleave_left _ _ r Hr) as HL.
  pose proof (interleave_right_whole _ _ r Hr) as HR.
  pose proof (Nat.div_mod_eq (length (Channel1Data f)) 2) as Ed.
  exists r. unfold wav.WriteWAV, wav.wavData_of, wav.numChannels_of.
  rewrite E2, Hw. cbn [Z.eqb]. rewrite Hr.
  split; [reflexivity|].
  split; [unfold wav.header_of, wav.numChannels_of; rewrite E2; reflexivity|].
  split; [lia|]. split.
  - rewrite HL. apply take_ge. lia.
  - rewrite HR by lia. apply take_ge. lia.
Qed.

Lemma stereo_round_trip_witness :
  exists f s payload,
    ReadFile streams.quiet "Pad.ebl" "errors" stereo_stream = Ok f s
    /\ Channel1Data f = [x01; x02; x03; x04]
    /\ Channel2Data f = [x05; x06; x07; x08]
    /\ wav.WriteWAV (wav.NewEncoder false false false "") wav.NoFault f "out"
       = wav.Return "Pad.wav" None
           (Some (wav.mkOutput "out" "Pad.wav"
                    (wav.binary_Write (wav.header_of f payload) ++ payload)))
    /\ left_channel payload = [x01; x02; x03; x04]
    /\ right_channel payload = [x05; x06; x07; x08].
Proof.
  destruct (ReadFile streams.quiet "Pad.ebl" "errors" stereo_stream)
    as [f s|e s|s] eqn:E; [|vm_compute in E; discriminate E ..].
  assert (HA : Channel1Data f = [x01; x02; x03; x04])
    by (known_sample E; reflexivity).
  assert (HB : Channel2Data f = [x05; x06; x07; x08])
    by (known_sample E; reflexivity).
  assert (Hname : wav.outputFilename_of (wav.NewEncoder false false false "") f
                  = "Pad.wav"%string) by (known_sample E; reflexivity).
  destruct (stereo_round_trip _ _ _ _ f s (wav.NewEncoder false false false "")
              "out" E) as (payload & Hw & _ & _ & HL & HR).
  - rewrite HB. discriminate.
  - rewrite HA, HB. reflexivity.
  - rewrite HA. reflexivity.
  - reflexivity.
  - exists f, s, payload. rewrite Hname in Hw. rewrite HL, HR, HA, HB.
    repeat split. exact Hw.
Defined.

(** ** Names: cleanFilename, TrimSuffix and the output files *)

Lemma replace_runs_all_in_class (s : string) :
  forall m, all_in wav.in_class (wav.replace_runs wav.in_class "_" m s) = true.
Proof.
  induction s as [|c s IH]; intros m; simpl; [reflexivity|].
  destruct (wav.in_class c) eqn:Ec.
  - simpl. rewrite Ec. apply IH.
  - destruct m; [apply IH|]. simpl.
    change (wav.in_class "_") with true. apply IH.
Qed.

Lemma replace_runs_length (s : string) :
  forall m,
    (String.length (wav.replace_runs wav.in_class "_" m s) <= String.length s)%nat.
Proof.
  induction s as [|c s IH]; intros m; simpl; [lia|].
  destruct (wav.in_class c).
  - simpl. specialize (IH false). lia.
  - destruct m.
    + specialize (IH true). lia.
    + simpl. specialize (IH true). lia.
Qed.

Lemma cleanFilename_empty (s : string) :
  wav.cleanFilename s = EmptyString <-> s = EmptyString.
Proof.
  split; [|intros ->; reflexivity].
  unfold wav.cleanFilename. destruct s as [|c s]; [reflexivity|]. simpl.
  destruct (wav.in_class c); discriminate.
Qed.

(** X5. The name [cleanFilename] returns has only characters of the set
    [0-9a-zA-Z.,:%-_#]; it is not longer than the name given; it is empty
    only for the empty name; and cleaning a second time changes nothing. *)
Theorem cleanFilename_safe (s : string) :
  all_in wav.in_class (wav.cleanFilename s) = true
  /\ (strlen (wav.cleanFilename s) <= strlen s)%nat
  /\ (wav.cleanFilename s = EmptyString <-> s = EmptyString)
  /\ wav.cleanFilename (wav.cleanFilename s) = wav.cleanFilename s.
Proof.
  split; [apply replace_runs_all_in_class|].
  split; [apply replace_runs_length|].
  split; [apply cleanFilename_empty|].
  apply replace_runs_all_in. apply replace_runs_all_in_class.
Qed.

(** X6. Without [preserveFilename], the output is named after the name in
    the metadata block, cleaned, whenever that name is not empty; after the
    name in Header 3, cleaned, when only the first is empty; and after the
    input file without its [.ebl] only when both are empty.  The test the
    code makes on the cleaned names is a test on the names. *)
Theorem baseName_fallback (e : wav.Encoder) (f : EBLFile) :
  wav.preserveFilename e = false ->
  let n1 := HeaderData_FilenameStr (HdrData f) in
  let n2 := Header3_Filename (Hdr3 f) in
  (n1 <> EmptyString -> wav.baseName_of e f = wav.cleanFilename n1)
  /\ (n1 = EmptyString -> n2 <> EmptyString ->
      wav.baseName_of e f = wav.cleanFilename n2)
  /\ (n1 = EmptyString -> n2 = EmptyString ->
      wav.baseName_of e f = TrimSuffix (Filename f) ".ebl")
  /\ (n1 <> EmptyString \/ n2 <> EmptyString ->
      all_in wav.in_class (wav.baseName_of e f) = true
      /\ wav.baseName_of e f <> EmptyString).
Proof.
  intros Hp. cbv zeta. unfold wav.baseName_of. rewrite Hp.
  assert (Hc : forall n, n <> EmptyString ->
                 String.eqb (wav.cleanFilename n) "" = false).
  { intros n Hn. apply String.eqb_neq. intros E.
    exact (Hn (proj1 (cleanFilename_empty n) E)). }
  split; [|split; [|split]].
  - intros H1. rewrite !(Hc _ H1). reflexivity.
  - intros -> H2. cbn [wav.cleanFilename wav.replace_runs String.eqb].
    rewrite (Hc _ H2). reflexivity.
  - intros -> ->. reflexivity.
  - intros H.
    destruct (string_dec (HeaderData_FilenameStr (HdrData f)) "") as [E1|N1].
    + destruct H as [H|H]; [contradiction|]. rewrite E1.
      cbn [wav.cleanFilename wav.replace_runs String.eqb]. rewrite (Hc _ H).
      split; [apply replace_runs_all_in_class|].
      intros E. apply (proj1 (cleanFilename_empty _)) in E. congruence.
    + rewrite !(Hc _ N1).
      split; [apply replace_runs_all_in_class|].
      intros E. apply (proj1 (cleanFilename_empty _)) in E. congruence.
Qed.

Lemma baseName_fallback_witness :
  wav.baseName_of (wav.NewEncoder false false false "")
    (ebl_of_channels "Warm Pad/1" 44100 [] [])
  = "Warm_Pad_1"%string.
Proof.
  destruct (baseName_fallback (wav.NewEncoder false false false "")
              (ebl_of_channels "Warm Pad/1" 44100 [] []) eq_refl)
    as (H1 & _). cbv zeta in H1.
  rewrite H1; [reflexivity|discriminate].
Defined.

Section strings.

Local Open Scope string_scope.

Lemma string_rev_acc_app (s : string) :
  forall acc, string_rev_acc s acc = string_rev s ++ acc.
Proof.
  unfold string_rev. induction s as [|c s IH]; intros acc; simpl; [done|].
  rewrite (IH (String c acc)), (IH (String c "")).
  rewrite append_assoc. reflexivity.
Qed.

Lemma string_rev_app (a b : string) :
  string_rev (a ++ b) = string_rev b ++ string_rev a.
Proof.
  induction a as [|c a IH]; simpl.
  - by rewrite append_nil_r.
  - unfold string_rev at 1 3. simpl. rewrite !string_rev_acc_app, IH.
    by rewrite append_assoc.
Qed.

Lemma string_rev_involutive (s : string) : string_rev (string_rev s) = s.
Proof.
  induction s as [|c s IH]; [reflexivity|].
  change (String c s) with (String c "" ++ s) at 1.
  rewrite string_rev_app, string_rev_app, IH. reflexivity.
Qed.

Lemma strip_prefix_app (p t : string) : strip_prefix p (p ++ t) = Some t.
Proof.
  induction p as [|c p IH]; simpl; [by destruct t|].
  by rewrite Ascii.eqb_refl.
Qed.

Lemma strip_prefix_Some (p t r : string) :
  strip_prefix p t = Some r -> t = p ++ r.
Proof.
  revert t. induction p as [|c p IH]; intros t H; simpl in *.
  - destruct t; by injection H as <-.
  - destruct t as [|d t]; [discriminate|].
    destruct (Ascii.eqb_spec c d) as [->|]; [|discriminate].
    by rewrite (IH _ H).
Qed.

End strings.

(** X7. [TrimSuffix] removes the suffix from a string that ends with it and
    returns any other string unchanged; so the result followed by the suffix
    is the string, or the result is the string.  With [preserveFilename] an
    input file [stem.ebl] gives the output [stem.wav] (behind the name of
    the EXB file, if there is one), and the FLAC converter names its output
    [stem.flac]. *)
Theorem names_keep_stem :
  (forall s suffix : string, TrimSuffix (s ++ suffix) suffix = s)
  /\ (forall s suffix : string,
        s = (TrimSuffix s suffix ++ suffix)%string \/ TrimSuffix s suffix = s)
  /\ (forall (e : wav.Encoder) (f : EBLFile) (stem : string),
        wav.preserveFilename e = true ->
        Filename f = (stem ++ ".ebl")%string ->
        wav.outputFilename_of e f
        = (if String.eqb (wav.exbName e) ""
           then stem ++ ".wav" else wav.exbName e ++ " - " ++ stem ++ ".wav")%string
        /\ flac.flacFile_of (wav.outputFilename_of e f)
           = (if String.eqb (wav.exbName e) ""
              then stem ++ ".flac"
              else wav.exbName e ++ " - " ++ stem ++ ".flac")%string).
Proof.
  assert (T : forall s suffix : string, TrimSuffix (s ++ suffix) suffix = s).
  { intros s suffix. unfold TrimSuffix.
    rewrite string_rev_app, strip_prefix_app. apply string_rev_involutive. }
  split; [exact T|]. split.
  - intros s suffix. unfold TrimSuffix.
    destruct (strip_prefix (string_rev suffix) (string_rev s)) as [r|] eqn:E;
      [left|right; reflexivity].
    apply strip_prefix_Some in E.
    rewrite <- (string_rev_involutive s), E, string_rev_app.
    by rewrite string_rev_involutive.
  - intros e f stem Hp Hf.
    unfold flac.flacFile_of, wav.outputFilename_of, wav.baseName_of.
    rewrite Hp, Hf, T.
    destruct (String.eqb (wav.exbName e) ""); cbn [negb].
    + split; [reflexivity|]. by rewrite T.
    + split; [reflexivity|].
      rewrite <- !append_assoc. by rewrite T.
Qed.

Lemma names_keep_stem_witness :
  wav.outputFilename_of (wav.NewEncoder false false true "Bank")
    (ebl_of_channels "Pad 1" 44100 [] [])
  = "Bank - Pad 1.wav"%string
  /\ flac.flacFile_of "Bank - Pad 1.wav" = "Bank - Pad 1.flac"%string.
Proof.
  destruct names_keep_stem as (_ & _ & H).
  destruct (H (wav.NewEncoder false false true "Bank")
              (ebl_of_channels "Pad 1" 44100 [] []) "Pad 1"%string
              eq_refl eq_refl) as [H1 H2].
  rewrite H1 in H2. split; [exact H1|exact H2].
Defined.

(** ** The pool of workers of the FLAC converter *)

Ltac cases_ltb :=
  repeat match goal with
         | |- context [if ?a <? ?b then _ else _] =>
             destruct (Z.ltb_spec a b); cbv iota
         | H : context [if ?a <? ?b then _ else _] |- _ =>
             destruct (Z.ltb_spec a b); cbv iota in H
         end.

(** X8. The pool has between 2 and 12 workers whatever the number of
    processors, three quarters of them in between; and the converter starts
    at least one worker and never more workers than files, nor more than
    the pool has. *)
Theorem worker_bounds (numCPU : Z) (wavFiles : list string) :
  2 <= flac.maxWorkers_of numCPU <= 12
  /\ (3 <= numCPU <= 16 -> flac.maxWorkers_of numCPU = Z.quot (numCPU * 3) 4)
  /\ (wavFiles <> [] ->
      1 <= flac.numWorkers_of (flac.maxWorkers_of numCPU) wavFiles
      /\ flac.numWorkers_of (flac.maxWorkers_of numCPU) wavFiles
         <= Z.of_nat (length wavFiles)
      /\ flac.numWorkers_of (flac.maxWorkers_of numCPU) wavFiles
         <= flac.maxWorkers_of numCPU).
Proof.
  unfold flac.numWorkers_of, flac.maxWorkers_of, flac.max, flac.min.
  split; [|split].
  - cases_ltb; lia.
  - intros H.
    assert (2 <= Z.quot (numCPU * 3) 4 <= 12).
    { split.
      - apply Z.quot_le_lower_bound; lia.
      - apply Z.quot_le_upper_bound; lia. }
    cases_ltb; lia.
  - intros Hne.
    assert (1 <= Z.of_nat (length wavFiles))
      by (destruct wavFiles; [done|simpl; lia]).
    cases_ltb; lia.
Qed.

Lemma worker_bounds_witness :
  flac.maxWorkers_of 8 = 6
  /\ flac.numWorkers_of (flac.maxWorkers_of 8) ["a.wav"; "b.wav"]%string = 2.
Proof.
  destruct (worker_bounds 8 ["a.wav"; "b.wav"]%string) as (_ & H & Hn).
  split; [rewrite H; [reflexivity|lia]|].
  destruct Hn as (H1 & H2 & _); [discriminate|]. simpl in H2.
  assert (flac.numWorkers_of (flac.maxWorkers_of 8) ["a.wav"; "b.wav"]%string
          = 2) by reflexivity.
  assumption.
Defined.

(** ** Where the decoder can panic *)

Lemma mbind_Panic_inv {A B} (k : A -> M B) (m : M A) (s s' : state) :
  (m ≫= k) s = Panic s' ->
  m s = Panic s' \/ exists a s1, m s = Ok a s1 /\ k a s1 = Panic s'.
Proof.
  unfold mbind, M_bind, bind. destruct (m s) as [a s1|e s1|s1]; intros H.
  - right. eauto.
  - discriminate H.
  - left. injection H as ->. reflexivity.
Qed.

Lemma np_bind {A B} (m : M A) (k : A -> M B) :
  never_panics m -> (forall a, never_panics (k a)) -> never_panics (m ≫= k).
Proof.
  intros Hm Hk s s' H.
  apply mbind_Panic_inv in H as [H|(a & s1 & _ & H)].
  - exact (Hm _ _ H).
  - exact (Hk _ _ _ H).
Qed.

Lemma np_ret {A} (a : A) : never_panics (ret a).
Proof. intros s s' H. discriminate H. Qed.

Lemma np_fail {A} (e : error) : never_panics (fail (A := A) e).
Proof. intros s s' H. discriminate H. Qed.

Lemma np_get : never_panics get_ebl.
Proof. intros s s' H. discriminate H. Qed.

Lemma np_modify (g : EBLFile -> EBLFile) : never_panics (modify_ebl g).
Proof. intros s s' H. discriminate H. Qed.

Lemma np_Debug (p : Parser) (m : msg) : never_panics (Debug p m).
Proof. intros s s' H. rewrite Debug_run in H. discriminate H. Qed.

Lemma np_when (b : bool) (m : M unit) : never_panics m -> never_panics (when b m).
Proof. intros H. destruct b; [exact H|apply np_ret]. Qed.

Lemma np_file_Read (buf : list byte) : never_panics (file_Read buf).
Proof.
  intros s s' H. destruct (file_Read_run buf s) as (k & _ & E).
  rewrite E in H. discriminate H.
Qed.

Lemma io_ReadFull_returns (buf : list byte) (s : state) :
  exists n e r k, io_ReadFull buf s = Ok (n, e, r) (advance k s).
Proof.
  unfold io_ReadFull. destruct (decide _); [eauto|].
  destruct (remaining (file s)).
  - exists 0%nat, (Some EOF), buf, 0%nat. by rewrite advance_0.
  - eauto.
Qed.

Lemma np_io_ReadFull (buf : list byte) : never_panics (io_ReadFull buf).
Proof.
  intros s s' H. destruct (io_ReadFull_returns buf s) as (n & e & r & k & E).
  rewrite E in H. discriminate H.
Qed.

Lemma np_make (n : Z) : 0 <= n -> never_panics (make n).
Proof. intros Hn s s' H. rewrite make_run in H by exact Hn. discriminate H. Qed.

Create HintDb np discriminated.
#[global] Hint Resolve np_ret np_fail np_get np_modify np_Debug np_when
  np_file_Read np_io_ReadFull : np.

(** The proof that a stage does not panic follows the stage: one step for
    every statement, one case for every branch. *)
Ltac np :=
  repeat first
    [ apply np_bind; [|intros ?]
    | solve [auto with np]
    | apply np_when
    | match goal with
      | |- never_panics (match ?x with _ => _ end) => destruct x eqn:?
      end ].

Lemma np_read_u32 (order : ByteOrder) (what : string) :
  never_panics (read_u32 order what).
Proof. unfold read_u32, binary_Read. np. Qed.

Lemma np_read_buf (n : nat) (what : string) : never_panics (read_buf n what).
Proof. unfold read_buf. np. Qed.

#[global] Hint Resolve np_read_u32 np_read_buf : np.

Lemma np_readHeader1 (p : Parser) : never_panics (readHeader1 p).
Proof. unfold readHeader1. np. Qed.

Lemma np_readHeader2 (p : Parser) : never_panics (readHeader2 p).
Proof. unfold readHeader2. np. Qed.

Lemma np_readHeader3 (p : Parser) : never_panics (readHeader3 p).
Proof. unfold readHeader3. np. Qed.

(** The padding after Header 3 is allocated only for a positive size. *)
Lemma np_readPadding (p : Parser) : never_panics (readPadding p).
Proof.
  unfold readPadding. apply np_bind; [auto with np|]. intros f.
  destruct (Z.ltb_spec 0 (Header3_Data (Hdr3 f) - Read f)); [|np].
  apply np_bind; [auto with np|]. intros _.
  apply np_bind; [apply np_make; lia|]. intros padding. np.
Qed.

Lemma np_readHeader4 (p : Parser) (la : Lookahead) :
  never_panics (readHeader4 p la).
Proof. unfold readHeader4, header4Start. np. Qed.

Lemma np_readHeaderData (p : Parser) (filename : string) :
  never_panics (readHeaderData p filename).
Proof. unfold readHeaderData. np. Qed.

Lemma np_readHeaders (p : Parser) : never_panics (readHeaders p).
Proof.
  unfold readHeaders.
  apply np_bind; [apply np_readHeader1|intros _].
  apply np_bind; [apply np_readHeader2|intros _].
  apply np_bind; [apply np_readHeader3|intros filename].
  apply np_bind; [apply np_readPadding|intros la].
  apply np_bind; [apply np_readHeader4|intros _].
  apply np_readHeaderData.
Qed.

(** So is the padding before the audio. *)
Lemma np_readDataPadding (p : Parser) : never_panics (readDataPadding p).
Proof.
  unfold readDataPadding. apply np_bind; [auto with np|]. intros f.
  apply np_bind; [|intros ?; np].
  destruct (Z.ltb_spec 0 (HeaderData_V5 (HdrData f) - DataSizeCalc f - 178));
    cbn [when]; [|auto with np].
  apply np_bind; [auto with np|]. intros _.
  apply np_bind; [apply np_make; lia|]. intros padding. np.
Qed.

(** The buffers of the channels are allocated for the derived sizes,
    whatever their sign. *)
Lemma readAudio_Panic (p : Parser) (s s' : state) :
  readAudio p s = Panic s' ->
  (Channel1Size (eblFile s) < 0 \/ Channel2Size (eblFile s) < 0)
  /\ Channel1Size (eblFile s') = Channel1Size (eblFile s)
  /\ Channel2Size (eblFile s') = Channel2Size (eblFile s)
  /\ HdrData (eblFile s') = HdrData (eblFile s).
Proof.
  unfold readAudio. intros H.
  rewrite (mbind_run _ _ _ _ _ (get_ebl_run s)) in H. cbv beta in H.
  destruct (Z.ltb_spec (Channel1Size (eblFile s)) 0) as [N1|P1].
  { rewrite (mbind_Panic _ _ _ _ (make_Panic _ s N1)) in H.
    injection H as <-. split; [left; exact N1|done]. }
  rewrite (mbind_run _ _ _ _ _ (make_run _ s P1)) in H. cbv beta in H.
  destruct (io_ReadFull_returns (zeros (Z.to_nat (Channel1Size (eblFile s)))) s)
    as (n1 & e1 & r1 & k1 & E1).
  rewrite (mbind_run _ _ _ _ _ E1) in H. cbv beta iota in H.
  rewrite (mbind_run _ _ _ _ _ (modify_ebl_run _ _)) in H. cbv beta in H.
  destruct e1 as [e1|].
  { exfalso. revert H. apply np_bind; [|intros ?]; auto with np. }
  rewrite (mbind_run _ _ _ _ _ (modify_ebl_run _ _)) in H. cbv beta in H.
  simpl_state.
  destruct (Z.ltb_spec (Channel2Size (eblFile s)) 0) as [N2|P2].
  { match type of H with
    | (make ?n ≫= _) ?st = _ =>
        rewrite (mbind_Panic _ _ _ _ (make_Panic n st N2)) in H
    end.
    injection H as <-. split; [right; exact N2|done]. }
  exfalso. revert H.
  apply np_bind; [apply np_make; exact P2|]. intros buf. np.
Qed.

Lemma np_checkEnd (p : Parser) : never_panics (checkEnd p).
Proof.
  intros s s' H. destruct (checkEnd_run p s) as (s1 & E & _).
  rewrite E in H. discriminate H.
Qed.

(** X9. The decoder panics only on a negative channel extent: when
    [ReadFile] panics, the twelve words of the metadata block have been
    read, the extents derived from them are those of the sample, and one of
    the two is negative. *)
Theorem panic_only_negative_size (p : Parser) (inputFile errorDir : string)
    (data : list byte) (s : state) :
  ReadFile p inputFile errorDir data = Panic s ->
  let f := eblFile s in
  words_in_range (HdrData f)
  /\ (Channel1Size f, Channel2Size f) = sizes_of (HdrData f)
  /\ (Channel1Size f < 0 \/ Channel2Size f < 0).
Proof.
  unfold ReadFile, parse. intros H. cbv zeta.
  apply mbind_Panic_inv in H as [H|([] & s1 & H1 & H)];
    [exfalso; exact (np_readHeaders p _ _ H)|].
  apply readHeaders_Ok in H1 as (L1 & C1 & W1).
  apply mbind_Panic_inv in H as [H|([] & s4 & _ & H)].
  - unfold readPayload in H.
    destruct (channelSizes_run p s1)
      as (s2 & E2 & F2 & (S2 & D2) & X2 & R2 & Z2 & _).
    rewrite (mbind_run _ _ _ _ _ E2) in H. cbv beta in H.
    assert (L2 : lag 4 s2) by (apply (lag_same 4 s1); assumption).
    apply mbind_Panic_inv in H as [H|([] & s3 & H3 & H)];
      [exfalso; exact (np_readDataPadding p _ _ H)|].
    apply readDataPadding_Ok with (k := 4%nat) in H3
      as (_ & _ & (_ & D3) & _ & A3 & B3 & _); [|exact L2].
    apply readAudio_Panic in H as (Hneg & A4 & B4 & D4).
    rewrite A4, B4, D4, A3, B3, D3, D2. rewrite A3, B3 in Hneg.
    split; [exact W1|]. split; [exact Z2|exact Hneg].
  - exfalso. apply mbind_Panic_inv in H as [H|([] & s5 & _ & H)].
    + exact (np_checkEnd p _ _ H).
    + discriminate H.
Qed.

Lemma panic_only_negative_size_witness :
  exists s,
    ReadFile streams.quiet "Pad.ebl" "errors" streams.negative_b = Panic s
    /\ (Channel1Size (eblFile s), Channel2Size (eblFile s)) = (10, -5).
Proof.
  destruct (ReadFile streams.quiet "Pad.ebl" "errors" streams.negative_b)
    as [f s|e s|s] eqn:E; [vm_compute in E; discriminate E ..|].
  destruct (panic_only_negative_size _ _ _ _ s E) as (_ & Hs & _).
  exists s. split; [reflexivity|]. rewrite Hs.
  assert (Hw : (fun o => match o with
                         | Panic s' => Some (sizes_of (HdrData (eblFile s')))
                         | _ => None
                         end)
                 (ReadFile streams.quiet "Pad.ebl" "errors" streams.negative_b)
               = Some (10, -5)) by (vm_compute; reflexivity).
  rewrite E in Hw. injection Hw as ->. reflexivity.
Defined.

(** ** Where the audio comes from *)

Lemma ReadFile_audio (p : Parser) (inputFile errorDir : string)
    (data : list byte) (f : EBLFile) (s : state) :
  ReadFile p inputFile errorDir data = Ok f s ->
  let start := (Z.to_nat (HeaderRead f) + 4)%nat in
  let n1 := Z.to_nat (Channel1Size f) in
  let n2 := Z.to_nat (Channel2Size f) in
  0 <= HeaderRead f
  /\ Channel1Data f = take n1 (drop start data)
  /\ Channel2Data f = take n2 (drop (start + n1) data)
  /\ ((0 < n1 + n2)%nat -> (start + n1 + n2 <= length data)%nat).
Proof.
  unfold ReadFile, parse. intros H. cbv zeta.
  apply mbind_Ok in H as ([] & s1 & H1 & H).
  apply readHeaders_Ok in H1 as (L1 & C1 & W1).
  apply mbind_Ok in H as ([] & s4 & H4 & H).
  unfold readPayload in H4.
  apply mbind_Ok in H4 as ([] & s2 & H2 & H4).
  destruct (channelSizes_run p s1)
    as (s2' & E2 & F2 & (S2 & D2) & X2 & R2 & Z2 & _ & G2).
  rewrite E2 in H2. injection H2 as ->.
  assert (L2 : lag 4 s2) by (apply (lag_same 4 s1); assumption).
  apply mbind_Ok in H4 as ([] & s3 & H3 & H4).
  apply readDataPadding_Ok with (k := 4%nat) in H3
    as (L3 & C3 & (S3 & D3) & X3 & A3 & B3 & HR3 & _); [|exact L2].
  pose proof L3 as (HS3 & HP3 & HO3).
  apply readAudio_Ok with (k := 4%nat) in H4; [|exact L3]. cbv zeta in H4.
  destruct H4 as (P1 & P2 & Hle & L4 & C4 & (S4 & D4) & X4 & A4 & B4 & HR4
                  & R4 & Da & Db).
  apply mbind_Ok in H as ([] & s5 & H5 & H).
  destruct (checkEnd_lag p s4 L4) as [l E5].
  rewrite E5 in H5. injection H5 as <-.
  rewrite get_ebl_run in H. injection H as <- <-.
  simpl_state. rewrite HR4, A4, B4, Da, Db, HR3.
  unfold remaining in *. rewrite length_drop in Hle. rewrite drop_drop.
  assert (Hc : content (file s3) = data).
  { rewrite C3. unfold same_file in F2. by rewrite F2. }
  rewrite Hc in *.
  split; [exact HP3|].
  destruct (decide (Z.to_nat (Read (eblFile s3)) + 4 <= length data)%nat)
    as [Hin|Hout].
  - replace (offset (file s3)) with (Z.to_nat (Read (eblFile s3)) + 4)%nat
      in * by lia.
    split; [reflexivity|]. split; [reflexivity|]. lia.
  - assert (Z.to_nat (Channel1Size (eblFile s3)) = 0%nat) as -> by lia.
    assert (Z.to_nat (Channel2Size (eblFile s3)) = 0%nat) as -> by lia.
    split; [reflexivity|]. split; [reflexivity|]. lia.
Qed.

(** ** ConvertFile *)


(** ** The debug mode and the result *)

Lemma sim_bind {A B} (m m' : M A) (k k' : A -> M B) :
  sim m m' -> (forall a, sim (k a) (k' a)) -> sim (m ≫= k) (m' ≫= k').
Proof.
  intros Hm Hk s s' Hs. specialize (Hm s s' Hs).
  unfold mbind, M_bind, bind.
  destruct (m s) as [a t|e t|t], (m' s') as [a' t'|e' t'|t']; try done.
  destruct Hm as [<- Ht]. exact (Hk a t t' Ht).
Qed.

Lemma sim_ret {A} (a : A) : sim (ret a) (ret a).
Proof. intros s s' Hs. split; [reflexivity|exact Hs]. Qed.

Lemma sim_fail {A} (e : error) : sim (fail (A := A) e) (fail e).
Proof. intros s s' Hs. reflexivity. Qed.

Lemma sim_get : sim get_ebl get_ebl.
Proof. intros s s' [Hf He]. split; [exact He|by split]. Qed.

Lemma sim_modify (g : EBLFile -> EBLFile) : sim (modify_ebl g) (modify_ebl g).
Proof.
  intros s s' [Hf He]. split; [reflexivity|].
  split; simpl; [exact Hf|by rewrite He].
Qed.

Lemma agree_advance (n : nat) (s s' : state) :
  agree s s' -> agree (advance n s) (advance n s').
Proof. intros [Hf He]. split; simpl; [by rewrite Hf|exact He]. Qed.

Lemma sim_file_Read (buf : list byte) : sim (file_Read buf) (file_Read buf).
Proof.
  intros s s' Hs.
  destruct (file_Read_run buf s) as (k & Hk & ->).
  destruct (file_Read_run buf s') as (k' & Hk' & ->).
  destruct Hs as [Hf He]. rewrite <- Hf in *. subst k k'.
  split; [reflexivity|]. apply agree_advance. by split.
Qed.

Lemma sim_io_ReadFull (buf : list byte) : sim (io_ReadFull buf) (io_ReadFull buf).
Proof.
  intros s s' Hs. pose proof Hs as [Hf He]. unfold io_ReadFull.
  rewrite <- Hf. destruct (decide _).
  - split; [reflexivity|]. by apply agree_advance.
  - destruct (remaining (file s)).
    + by split.
    + split; [reflexivity|]. by apply agree_advance.
Qed.

Lemma sim_make (n : Z) : sim (make n) (make n).
Proof.
  intros s s' Hs. unfold make. destruct (n <? 0); [exact I|].
  split; [reflexivity|exact Hs].
Qed.

(** Printing changes nothing but what has been printed. *)
Lemma sim_prints (m m' : M unit) : prints m -> prints m' -> sim m m'.
Proof.
  intros Hm Hm' s s' [Hf He].
  destruct (Hm s) as [l ->]. destruct (Hm' s') as [l' ->].
  split; [reflexivity|]. by split.
Qed.

Lemma returns_prints (m : M unit) : prints m -> always_returns m.
Proof. intros H s. destruct (H s) as [l E]. eauto. Qed.

Lemma returns_bind {A B} (m : M A) (k : A -> M B) :
  always_returns m -> (forall a, always_returns (k a)) ->
  always_returns (m ≫= k).
Proof.
  intros Hm Hk s. destruct (Hm s) as (a & s1 & E).
  rewrite (mbind_run _ _ _ _ _ E). apply Hk.
Qed.

Lemma returns_file_Read (buf : list byte) : always_returns (file_Read buf).
Proof. intros s. destruct (file_Read_run buf s) as (k & _ & E). eauto. Qed.

Lemma returns_when (b : bool) (m : M unit) :
  always_returns m -> always_returns (when b m).
Proof. intros H. destruct b; [exact H|]. intros s. by eexists _, _. Qed.

(** Before an error is returned, what the two runs have done no longer
    matters, as long as they get there. *)
Lemma sim_then_fail {A B} (m m' : M A) (e : error) :
  always_returns m -> always_returns m' ->
  sim (m ≫= fun _ => fail (A := B) e) (m' ≫= fun _ => fail e).
Proof.
  intros Hm Hm' s s' _.
  destruct (Hm s) as (a & t & E). destruct (Hm' s') as (a' & t' & E').
  rewrite (mbind_run _ _ _ _ _ E), (mbind_run _ _ _ _ _ E'). reflexivity.
Qed.

Create HintDb sim discriminated.
#[global] Hint Resolve sim_ret sim_fail sim_get sim_modify sim_file_Read
  sim_io_ReadFull sim_make : sim.

(** The two runs are followed statement by statement: the primitives do
    the same, and the statements under [debug] only print. *)
Ltac sim :=
  repeat first
    [ solve [auto with sim]
    | solve [apply sim_prints; auto 10 with prints]
    | apply sim_then_fail;
      [solve [apply returns_prints; auto 10 with prints]
      |solve [apply returns_prints; auto 10 with prints]]
    | apply sim_bind; [|intros ?]
    | match goal with
      | |- sim (match ?x with _ => _ end) (match ?x with _ => _ end) =>
          destruct x
      | |- sim (when ?b _) (when ?b _) => destruct b; cbn [when]
      end ].

Lemma sim_read_u32 (order : ByteOrder) (what : string) :
  sim (read_u32 order what) (read_u32 order what).
Proof. unfold read_u32, binary_Read. sim. Qed.

Lemma sim_read_buf (n : nat) (what : string) :
  sim (read_buf n what) (read_buf n what).
Proof. unfold read_buf. sim. Qed.

#[global] Hint Resolve sim_read_u32 sim_read_buf : sim.

Section two_parsers.

Variables p p' : Parser.

Lemma sim_readHeader1 : sim (readHeader1 p) (readHeader1 p').
Proof. unfold readHeader1. sim. Qed.

Lemma sim_readHeader2 : sim (readHeader2 p) (readHeader2 p').
Proof. unfold readHeader2. sim. Qed.

Lemma sim_readHeader3 : sim (readHeader3 p) (readHeader3 p').
Proof. unfold readHeader3. sim. Qed.

Lemma sim_readPadding : sim (readPadding p) (readPadding p').
Proof. unfold readPadding. sim. Qed.

(** With the debug mode on, a run that finds no Header 4 reads twenty more
    bytes to print them, and then returns the same error. *)
Lemma sim_header4Start (la : Lookahead) :
  sim (header4Start p la) (header4Start p' la).
Proof.
  unfold header4Start.
  destruct (foundHeader4InPadding la); [sim|].
  apply sim_bind; [auto with sim|]. intros [[prefix4 bytesRead] err].
  destruct err as [e|]; [sim|].
  apply sim_bind; [apply sim_prints; auto 10 with prints|]. intros _.
  destruct (negb _); [|sim].
  apply sim_then_fail; apply returns_when;
    (apply returns_bind; [apply returns_file_Read|]);
    intros [[b n] e]; apply returns_prints; auto 10 with prints.
Qed.

Lemma sim_readHeader4 (la : Lookahead) :
  sim (readHeader4 p la) (readHeader4 p' la).
Proof.
  unfold readHeader4. apply sim_bind; [apply sim_header4Start|]. intros [a b].
  sim.
Qed.

Lemma sim_readHeaderData (filename : string) :
  sim (readHeaderData p filename) (readHeaderData p' filename).
Proof. unfold readHeaderData. sim. Qed.

Lemma sim_channelSizes : sim (channelSizes p) (channelSizes p').
Proof. unfold channelSizes. sim. Qed.

Lemma sim_readDataPadding : sim (readDataPadding p) (readDataPadding p').
Proof. unfold readDataPadding. sim. Qed.

Lemma sim_readAudio : sim (readAudio p) (readAudio p').
Proof. unfold readAudio. sim. Qed.

Lemma sim_checkEnd : sim (checkEnd p) (checkEnd p').
Proof. unfold checkEnd, tryTrailer. sim. Qed.

Lemma sim_readHeaders : sim (readHeaders p) (readHeaders p').
Proof.
  unfold readHeaders.
  apply sim_bind; [apply sim_readHeader1|intros _].
  apply sim_bind; [apply sim_readHeader2|intros _].
  apply sim_bind; [apply sim_readHeader3|intros filename].
  apply sim_bind; [apply sim_readPadding|intros la].
  apply sim_bind; [apply sim_readHeader4|intros _].
  apply sim_readHeaderData.
Qed.

Lemma sim_readPayload : sim (readPayload p) (readPayload p').
Proof.
  unfold readPayload.
  apply sim_bind; [apply sim_channelSizes|intros _].
  apply sim_bind; [apply sim_readDataPadding|intros _].
  apply sim_readAudio.
Qed.

Lemma sim_parse : sim (parse p) (parse p').
Proof.
  unfold parse.
  apply sim_bind; [apply sim_readHeaders|intros _].
  apply sim_bind; [apply sim_readPayload|intros _].
  apply sim_bind; [apply sim_checkEnd|intros _].
  apply sim_get.
Qed.

End two_parsers.

(** X11. The debug mode changes what is printed, not what is decoded: two
    parsers, whatever their [debug] and [errorSave], return the same sample,
    or the same error, or both panic, on the same file.  So [ConvertFile]
    returns the same, and leaves the same output file and the same copy of
    the input among the errors, with [Debug] on and off. *)
Theorem debug_independent (inputFile : string) (data : list byte) :
  (forall (p p' : Parser) (errorDir errorDir' : string),
     returned (ReadFile p inputFile errorDir data)
     = returned (ReadFile p' inputFile errorDir' data))
  /\ (forall (d d' noWrite preserve errorSave : bool) (exbName : string)
             (os : wav.fault) (sv : converter.save_fault) (outputDir : string),
        converter.ConvertFile
          (converter.NewConverter
             (converter.mkOptions d noWrite preserve errorSave exbName))
          os sv inputFile outputDir data
        = converter.ConvertFile
            (converter.NewConverter
               (converter.mkOptions d' noWrite preserve errorSave exbName))
            os sv inputFile outputDir data).
Proof.
  assert (R : forall (p p' : Parser) (errorDir errorDir' : string),
             returned (ReadFile p inputFile errorDir data)
             = returned (ReadFile p' inputFile errorDir' data)).
  { intros p p' errorDir errorDir'. unfold ReadFile.
    pose proof (sim_parse p p' (initial inputFile data) (initial inputFile data))
      as H.
    destruct (parse p _) as [f t|e t|t], (parse p' _) as [f' t'|e' t'|t'];
      simpl in *; try (exfalso; apply H; by split).
    - destruct H as [-> _]; [by split|reflexivity].
    - rewrite H; [reflexivity|by split].
    - reflexivity. }
  split; [exact R|].
  intros d d' noWrite preserve errorSave exbName os sv outputDir.
  unfold converter.ConvertFile, converter.NewConverter.
  cbn [converter.parser converter.encoder converter.Debug converter.NoWrite
       converter.PreserveFilename converter.ErrorSave converter.ExbName].
  specialize (R (NewParser d errorSave) (NewParser d' errorSave)
                (outputDir ++ "/errors")%string (outputDir ++ "/errors")%string).
  destruct (ReadFile (NewParser d errorSave) _ _ _) as [f t|e t|t],
    (ReadFile (NewParser d' errorSave) _ _ _) as [f' t'|e' t'|t'];
    simpl in R; try discriminate R.
  - injection R as <-. reflexivity.
  - injection R as <-. reflexivity.
  - reflexivity.
Qed.

(** ** The layout of the file that the decoder accepts *)

Lemma remaining_advance (k : nat) (s : state) :
  remaining (file (advance k s)) = drop k (remaining (file s)).
Proof. unfold remaining. simpl. by rewrite drop_drop. Qed.

Lemma string_of_bytes_eqb (b : list byte) (s : string) :
  String.eqb (string_of_bytes b) s = true -> b = bytes_of_string s.
Proof.
  intros H. apply String.eqb_eq in H. subst s.
  unfold bytes_of_string, string_of_bytes.
  symmetry. apply list_byte_of_string_of_list_byte.
Qed.

Lemma file_printed (l : list msg) (s : state) : file (printed l s) = file s.
Proof. reflexivity. Qed.

Lemma file_assigned (g : EBLFile -> EBLFile) (s : state) :
  file (assigned g s) = file s.
Proof. reflexivity. Qed.

Lemma eblFile_printed (l : list msg) (s : state) :
  eblFile (printed l s) = eblFile s.
Proof. reflexivity. Qed.

Lemma eblFile_assigned (g : EBLFile -> EBLFile) (s : state) :
  eblFile (assigned g s) = g (eblFile s).
Proof. reflexivity. Qed.

Lemma eblFile_advance (k : nat) (s : state) :
  eblFile (advance k s) = eblFile s.
Proof. reflexivity. Qed.

Lemma remaining_mk_add (c : list byte) (o n : nat) :
  remaining {| content := c; offset := o + n |}
  = drop n (remaining {| content := c; offset := o |}).
Proof. unfold remaining. simpl. by rewrite drop_drop. Qed.

Lemma remaining_mk_eta (f : File) :
  remaining {| content := content f; offset := offset f |} = remaining f.
Proof. reflexivity. Qed.

Create Rewrite HintDb run.
#[global] Hint Rewrite file_printed file_assigned eblFile_printed
  eblFile_assigned eblFile_advance remaining_advance remaining_mk_add
  remaining_mk_eta @drop_drop
  @length_drop : run.

(** The bytes a run has read, in terms of what was left of the file when it
    started. *)
Ltac norm := autorewrite with run in *.

(** A read that is followed by a read that succeeds is a whole read. *)
Ltac whole k n :=
  let E := fresh "E" in
  assert (E : k = n) by lia;
  repeat match goal with
         | H : k = Nat.min _ _ |- _ => clear H
         | H : _ -> k <> _ |- _ => clear H
         end;
  subst k;
  change (zeros (n - n)) with (@nil byte) in *; rewrite ?app_nil_r in *.

Lemma readHeader1_bytes (p : Parser) (s s' : state) :
  readHeader1 p s = Ok tt s' ->
  let r := remaining (file s) in
  (8 <= length r)%nat
  /\ take 4 r = FORM
  /\ remaining (file s') = drop 8 r
  /\ eblFile s'
     = set_Read 8 (set_Header1 (mkHeader1 FORM (be_uint32 (take 4 (drop 4 r))) 8)
                     (eblFile s)).
Proof.
  intros H. cbv zeta. unfold readHeader1 in H.
  do 2 step H.
  destruct (negb _) eqn:Em in H.
  - step H. discriminate H.
  - do 3 step H. first_of H.
    apply negb_false_iff, string_of_bytes_eqb in Em. norm.
    whole k 4%nat. subst a0. rewrite Em.
    split; [lia|]. split; [reflexivity|]. split; reflexivity.
Qed.

Lemma readHeader2_bytes (p : Parser) (s s' : state) :
  readHeader2 p s = Ok tt s' ->
  let r := remaining (file s) in
  (12 <= length r)%nat
  /\ take 8 r = E5B0TOC2
  /\ remaining (file s') = drop 12 r
  /\ eblFile s'
     = add_Read 12
         (set_Header2 (mkHeader2 E5B0TOC2 (be_uint32 (take 4 (drop 8 r))) 12)
            (eblFile s)).
Proof.
  intros H. cbv zeta. unfold readHeader2 in H.
  do 2 step H.
  destruct (negb _) eqn:Em in H.
  - step H. discriminate H.
  - do 3 step H. first_of H.
    apply negb_false_iff, string_of_bytes_eqb in Em. norm.
    whole k 8%nat. subst a0. rewrite Em.
    split; [lia|]. split; [reflexivity|]. split; reflexivity.
Qed.

Lemma readHeader3_bytes (p : Parser) (s s' : state) (filename : string) :
  readHeader3 p s = Ok filename s' ->
  let r := remaining (file s) in
  let k := Nat.min 64 (length r - 14) in
  (15 <= length r)%nat
  /\ take 4 r = E5S1
  /\ remaining (file s') = drop (14 + k) r
  /\ filename = decodeUTF16 (take k (drop 14 r) ++ zeros (64 - k))
  /\ eblFile s'
     = add_Read 74
         (set_Header3
            (mkHeader3 E5S1 (be_uint32 (take 4 (drop 4 r)))
               (be_uint32 (take 4 (drop 8 r))) (take 2 (drop 12 r))
               filename 74)
            (eblFile s)).
Proof.
  intros H. cbv zeta. unfold readHeader3 in H.
  do 2 step H.
  destruct (negb _) eqn:Em in H.
  - step H. discriminate H.
  - do 8 step H. injection H as <- <-.
    apply negb_false_iff, string_of_bytes_eqb in Em. norm.
    whole k 4%nat. whole k0 2%nat. subst a0 a1. rewrite Em.
    replace (length (remaining (file s)) - 4 - 4 - 4 - 2)%nat
      with (length (remaining (file s)) - 14)%nat in * by lia.
    subst k1.
    split; [lia|]. split; [reflexivity|]. split; [f_equal; lia|].
    split; reflexivity.
Qed.

Lemma take_read_prefix (r z : list byte) (n m a : nat) :
  (a + m <= n)%nat -> (n <= length r)%nat ->
  take m (drop a (take n r ++ z)) = take m (drop a r).
Proof.
  intros Hm Hn. apply list_eq. intros i.
  destruct (decide (i < m)%nat) as [Hi|Hi].
  - rewrite !lookup_take_lt by lia. rewrite !lookup_drop.
    rewrite lookup_app_l by (rewrite length_take; lia).
    by rewrite lookup_take_lt by lia.
  - by rewrite !lookup_take_ge by lia.
Qed.

(** The padding after Header 3, and what it tells about Header 4: nothing,
    its prefix, or its prefix and its size. *)
Lemma readPadding_bytes (p : Parser) (s s' : state) (la : Lookahead) :
  readPadding p s = Ok la s' ->
  let r := remaining (file s) in
  let f := eblFile s in
  let P := Header3_Data (Hdr3 f) - Read f in
  let n := if 0 <? P then Nat.min (Z.to_nat P) (length r) else 0%nat in
  remaining (file s') = drop n r
  /\ eblFile s' = (if 0 <? P then add_Read P (set_Padding P f)
                   else set_Padding 0 f)
  /\ ((foundHeader4InPadding la = false
       /\ ((n < 4)%nat \/ take 4 r <> E5S1))
      \/ (foundHeader4InPadding la = true
          /\ header4PrefixFromPadding la = E5S1 /\ take 4 r = E5S1
          /\ ((header4SizeBytes la = None /\ (4 <= n < 8)%nat)
              \/ (header4SizeBytes la = Some (take 4 (drop 4 r))
                  /\ (8 <= n)%nat)))).
Proof.
  intros H. cbv zeta. unfold readPadding in H.
  step H.
  destruct (Z.ltb_spec 0 (Header3_Data (Hdr3 (eblFile s)) - Read (eblFile s)))
    as [Hpos|Hneg].
  - do 3 step H.
    apply mbind_Ok in H as ([[padding bytesRead] err] & s1 & H1 & H).
    destruct (file_Read_run (zeros (Z.to_nat
                (Header3_Data (Hdr3 (eblFile s)) - Read (eblFile s))))
                (printed l (assigned
                   (set_Padding (Header3_Data (Hdr3 (eblFile s)) - Read (eblFile s))) s)))
      as (n & Hmin & E).
    rewrite E in H1. clear E. injection H1 as <- <- <- <-.
    unfold zeros in Hmin. rewrite length_replicate in Hmin.
    destruct (decide _) as [Heof|Hok] in H.
    + step H. discriminate H.
    + do 2 step H. norm.
      cbv iota. rewrite <- Hmin.
      assert (Hp4 : (4 <= n)%nat ->
                take 4 (take n (remaining (file s)) ++ drop n
                  (replicate (Z.to_nat (Header3_Data (Hdr3 (eblFile s))
                                        - Read (eblFile s))) x00))
                = take 4 (remaining (file s))).
      { intros H4. apply (take_read_prefix _ _ n 4 0); lia. }
      assert (Hp8 : (8 <= n)%nat ->
                take 4 (drop 4 (take n (remaining (file s)) ++ drop n
                  (replicate (Z.to_nat (Header3_Data (Hdr3 (eblFile s))
                                        - Read (eblFile s))) x00)))
                = take 4 (drop 4 (remaining (file s)))).
      { intros H8. apply (take_read_prefix _ _ n 4 4); lia. }
      unfold zeros in H.
      destruct (Nat.leb_spec 4 n) as [H4|H4]; cbn [andb] in H.
      * rewrite (Hp4 H4) in H.
        destruct (String.eqb _ _) eqn:Em in H.
        -- apply string_of_bytes_eqb in Em. step H.
           destruct (Nat.leb_spec 8 n) as [H8|H8].
           ++ step H. injection H as <- <-. norm. rewrite (Hp8 H8).
              split; [reflexivity|]. split; [reflexivity|]. right.
              split; [reflexivity|]. split; [exact Em|]. split; [exact Em|].
              right. split; [reflexivity|exact H8].
           ++ injection H as <- <-. norm.
              split; [reflexivity|]. split; [reflexivity|]. right.
              split; [reflexivity|]. split; [exact Em|]. split; [exact Em|].
              left. split; [reflexivity|lia].
        -- injection H as <- <-. norm.
           split; [reflexivity|]. split; [reflexivity|]. left.
           split; [reflexivity|]. right. intros Em'.
           unfold E5S1 in Em'. rewrite Em' in Em.
           vm_compute in Em. discriminate Em.
      * injection H as <- <-. norm.
        split; [reflexivity|]. split; [reflexivity|]. left.
        split; [reflexivity|]. left. exact H4.
  - do 2 step H. injection H as <- <-. norm.
    cbv iota.
    split; [reflexivity|]. split; [reflexivity|]. left.
    split; [reflexivity|]. left. lia.
Qed.


Lemma header4Start_bytes (p : Parser) (la : Lookahead) (s s' : state)
    (prefix4 : list byte) (size : Z) :
  header4Start p la s = Ok (prefix4, size) s' ->
  let r := remaining (file s) in
  let h := header4StartBytes la in
  (h <= length r)%nat
  /\ remaining (file s') = drop h r
  /\ eblFile s' = eblFile s
  /\ (if foundHeader4InPadding la
      then prefix4 = header4PrefixFromPadding la
           /\ size = match header4SizeBytes la with
                     | Some b => be_uint32 b
                     | None => be_uint32 (take 4 r)
                     end
      else take 4 r = E5S1 /\ prefix4 = E5S1
           /\ size = be_uint32 (take 4 (drop 4 r))).
Proof.
  unfold header4Start, header4StartBytes. intros H. cbv zeta.
  destruct (foundHeader4InPadding la).
  - destruct (header4SizeBytes la) as [b|].
    + apply mbind_Ok in H as (a & s1 & H1 & H). injection H1 as <- <-.
      step H. injection H as <- <- <-. norm.
      split; [lia|]. done.
    + do 2 step H. injection H as <- <- <-. norm. subst a.
      split; [lia|]. done.
  - apply mbind_Ok in H as ([[pfx bytesRead] err] & s1 & H1 & H).
    destruct (file_Read_run (zeros 4) s) as (n & Hmin & E).
    rewrite E in H1. clear E. injection H1 as <- <- <- <-.
    unfold zeros in Hmin. rewrite length_replicate in Hmin.
    destruct (decide _) as [Heof|Hok] in H.
    + step H. discriminate H.
    + step H. destruct (negb _) eqn:Em in H.
      * apply mbind_Ok in H as (a' & s2 & _ & H). discriminate H.
      * do 2 step H. injection H as <- <- <-.
        apply negb_false_iff, string_of_bytes_eqb in Em. norm.
        assert (n = 4%nat) as -> by lia.
        change (drop 4 (zeros 4)) with (@nil byte) in *.
        rewrite app_nil_r in *. subst a0.
        split; [lia|]. split; [f_equal|]. done.
Qed.

Lemma readHeader4_bytes (p : Parser) (la : Lookahead) (s s' : state) :
  readHeader4 p la s = Ok tt s' ->
  let r := remaining (file s) in
  let h := header4StartBytes la in
  let k := Nat.min 6 (length r - h) in
  (h + 1 <= length r)%nat
  /\ remaining (file s') = drop (h + k) r
  /\ exists prefix4 size,
       eblFile s'
       = add_Read (Z.of_nat h + 6)
           (set_Header4
              (mkHeader4 prefix4 size (take k (drop h r) ++ zeros (6 - k))
                 (Z.of_nat h + 6))
              (eblFile s))
       /\ (if foundHeader4InPadding la
           then prefix4 = header4PrefixFromPadding la
                /\ size = match header4SizeBytes la with
                          | Some b => be_uint32 b
                          | None => be_uint32 (take 4 r)
                          end
           else take 4 r = E5S1 /\ prefix4 = E5S1
                /\ size = be_uint32 (take 4 (drop 4 r))).
Proof.
  intros H. cbv zeta. unfold readHeader4 in H.
  apply mbind_Ok in H as ([prefix4 size] & s1 & H1 & H).
  apply header4Start_bytes in H1 as (Hle & Hr1 & He1 & Hv). cbv zeta in *.
  do 3 step H. first_of H. norm. rewrite Hr1 in *. norm.
  subst k. rewrite He1.
  split; [lia|]. split; [reflexivity|].
  exists prefix4, size. split; [|exact Hv].
  unfold header4StartBytes.
  destruct (foundHeader4InPadding la); [destruct (header4SizeBytes la)|];
    reflexivity.
Qed.

Lemma readHeaderData_bytes (p : Parser) (filename : string) (s s' : state) :
  readHeaderData p filename s = Ok tt s' ->
  let r := remaining (file s) in
  let k := Nat.min 64 (length r - 112) in
  let w := fun n => le_uint32 (take 4 (drop n r)) in
  let comment := take k (drop 112 r) ++ zeros (64 - k) in
  (113 <= length r)%nat
  /\ remaining (file s') = drop (112 + k) r
  /\ eblFile s'
     = add_Read 176
         (set_HeaderData
            (mkHeaderData (take 64 r) (decodeUTF16 (take 64 r))
               (w 64%nat) (w 68%nat) (w 72%nat) (w 76%nat) (w 80%nat)
               (w 84%nat) (w 88%nat) (w 92%nat) (w 96%nat) (w 100%nat)
               (w 104%nat) (w 108%nat) comment (decodeUTF16 comment) 176)
            (eblFile s)).
Proof.
  intros H. cbv zeta. unfold readHeaderData in H.
  do 17 step H. first_of H. norm.
  whole k 64%nat.
  subst a0 a1 a2 a3 a4 a5 a6 a7 a8 a9 a10 a11.
  replace (length (remaining (file s)) - 64 - 4 - 4 - 4 - 4 - 4 - 4 - 4 - 4
           - 4 - 4 - 4 - 4)%nat
    with (length (remaining (file s)) - 112)%nat in * by lia.
  subst k0.
  split; [lia|]. split; [f_equal; lia|]. reflexivity.
Qed.

(** *** What the later stages leave alone *)

Section keeps.

Context {X : Type} (part : EBLFile -> X).

Lemma keeps_bind {A B} (m : M A) (k : A -> M B) :
  keeps part m -> (forall a, keeps part (k a)) -> keeps part (m ≫= k).
Proof.
  intros Hm Hk s b s' H. apply mbind_Ok in H as (a & s1 & H1 & H).
  rewrite (Hk _ _ _ _ H). exact (Hm _ _ _ H1).
Qed.

Lemma keeps_ret {A} (a : A) : keeps part (ret a).
Proof. intros s b s' H. by injection H as _ <-. Qed.

Lemma keeps_fail {A} (e : error) : keeps part (fail (A := A) e).
Proof. intros s b s' H. discriminate H. Qed.

Lemma keeps_get : keeps part get_ebl.
Proof. intros s b s' H. by injection H as _ <-. Qed.

Lemma keeps_modify (g : EBLFile -> EBLFile) :
  (forall f, part (g f) = part f) -> keeps part (modify_ebl g).
Proof. intros Hg s b s' H. injection H as H. subst s'. apply Hg. Qed.

Lemma keeps_prints (m : M unit) : prints m -> keeps part m.
Proof. intros Hp s b s' H. apply prints_Ok in H as [l ->]; done. Qed.

Lemma keeps_file_Read (buf : list byte) : keeps part (file_Read buf).
Proof.
  intros s b s' H. destruct (file_Read_run buf s) as (k & _ & E).
  rewrite E in H. by injection H as _ <-.
Qed.

Lemma keeps_io_ReadFull (buf : list byte) : keeps part (io_ReadFull buf).
Proof.
  intros s b s' H. destruct (io_ReadFull_returns buf s) as (n & e & r & k & E).
  rewrite E in H. by injection H as _ <-.
Qed.

Lemma keeps_make (n : Z) : keeps part (make n).
Proof. intros s b s' H. by apply make_Ok in H as (_ & -> & _). Qed.

End keeps.

Ltac keeps :=
  repeat first
    [ apply keeps_ret | apply keeps_fail | apply keeps_get
    | apply keeps_file_Read | apply keeps_io_ReadFull | apply keeps_make
    | apply keeps_modify; intros ?; reflexivity
    | apply keeps_prints; solve [auto 10 with prints]
    | apply keeps_bind; [|intros ?]
    | match goal with
      | |- keeps _ (when ?b _) => destruct b; cbn [when]
      | |- keeps _ (match ?x with _ => _ end) => destruct x
      end ].

Lemma keeps_channelSizes (p : Parser) : keeps headers (channelSizes p).
Proof. unfold channelSizes. keeps. Qed.

Lemma keeps_readDataPadding (p : Parser) : keeps plan (readDataPadding p).
Proof. unfold readDataPadding. keeps. Qed.

Lemma keeps_readAudio (p : Parser) : keeps plan (readAudio p).
Proof. unfold readAudio. keeps. Qed.

(** The counter after the padding before the audio. *)
Lemma readDataPadding_Read (p : Parser) (s s' : state) :
  readDataPadding p s = Ok tt s' ->
  Read (eblFile s')
  = Read (eblFile s) + Z.max 0 (dataPadding_of (eblFile s)).
Proof.
  intros H. unfold readDataPadding in H. unfold dataPadding_of.
  step H.
  destruct (Z.ltb_spec 0 (HeaderData_V5 (HdrData (eblFile s))
                          - DataSizeCalc (eblFile s) - 178)) as [Hpos|Hneg];
    cbn [when] in H.
  - do 2 step H.
    rewrite ?mbind_assoc in H.
    apply mbind_Ok in H as ([[padding bytesRead] err] & s1 & H1 & H).
    destruct (file_Read_run (zeros (Z.to_nat
                (HeaderData_V5 (HdrData (eblFile s))
                 - DataSizeCalc (eblFile s) - 178))) (printed l s))
      as (n & Hmin & E).
    rewrite E in H1. clear E. injection H1 as <- <- <- <-.
    destruct (decide _) as [Heof|Hok] in H.
    + apply mbind_Ok in H as (a' & s2 & H1 & _). discriminate H1.
    + do 5 step H. first_of H. simpl_state. lia.
  - do 5 step H. first_of H. simpl_state. lia.
Qed.

(** *** The decoded sample and the file *)

Lemma padded_read (x : list byte) (n k : nat) :
  k = Nat.min n (length x) ->
  take k x ++ zeros (n - k) = take n (x ++ zeros n).
Proof.
  intros ->. unfold zeros.
  destruct (decide (n <= length x)%nat) as [Hle|Hgt].
  - rewrite Nat.min_l by lia. rewrite Nat.sub_diag, app_nil_r.
    by rewrite take_app_le by lia.
  - rewrite Nat.min_r by lia. rewrite take_ge by lia.
    rewrite take_app_ge by lia. by rewrite take_replicate, Nat.min_l by lia.
Qed.

Lemma readHeaders_layout (p : Parser) (inputFile : string) (data : list byte)
    (s : state) :
  readHeaders p (initial inputFile data) = Ok tt s ->
  laid_out inputFile data (eblFile s)
  /\ Read (eblFile s) = Z.of_nat (metadata_at (eblFile s)) + 172.
Proof.
  unfold readHeaders. intros HH.
  apply mbind_Ok in HH as ([] & s1 & H1 & HH).
  apply readHeader1_bytes in H1 as (N1 & M1 & R1 & F1).
  apply mbind_Ok in HH as ([] & s2 & H2 & HH).
  apply readHeader2_bytes in H2 as (N2 & M2 & R2 & F2).
  apply mbind_Ok in HH as (filename & s3 & H3 & HH).
  apply readHeader3_bytes in H3 as (N3 & M3 & R3 & Fn & F3).
  apply mbind_Ok in HH as (la & s4 & H4 & HH).
  apply readPadding_bytes in H4 as (R4 & F4 & L4).
  apply mbind_Ok in HH as ([] & s5 & H5 & HH).
  apply readHeader4_bytes in H5 as (N5 & R5 & prefix4 & size & F5 & V5).
  apply readHeaderData_bytes in HH as (N6 & R6 & F6).
  cbv zeta in *.
  change (remaining (file (initial inputFile data))) with data in *.
  rewrite R1 in *. rewrite R2 in *. norm.
  (* the counter and the offset of the padding after Header 3 *)
  assert (HR3 : Read (eblFile s3) = 94) by (rewrite F3, F2, F1; reflexivity).
  assert (HD3 : Header3_Data (Hdr3 (eblFile s3)) = be_at 28 data)
    by (rewrite F3; reflexivity).
  rewrite HR3, HD3 in *.
  set (P := be_at 28 data - 94) in *.
  remember (if 0 <? P then Nat.min (Z.to_nat P) (length (remaining (file s3)))
            else 0%nat) as n eqn:En.
  remember (header4StartBytes la) as h eqn:Eh.
  (* every read before the comment is a whole read *)
  rewrite R4 in *. norm.
  assert (Hn : n = Z.to_nat (Z.max 0 P)).
  { destruct (Z.ltb_spec 0 P); lia. }
  assert (E3 : Nat.min 64 (length data - 8 - 12 - 14) = 64%nat)
    by (rewrite R3, length_drop in N5; lia).
  rewrite E3 in *. change (zeros (64 - 64)) with (@nil byte) in Fn.
  rewrite app_nil_r in Fn.
  change (8 + (12 + (14 + 64)))%nat with 98%nat in R3.
  rewrite R3 in *. norm.
  assert (E6 : Nat.min 6 (length data - 98 - n - h) = 6%nat)
    by (rewrite R5, length_drop in N6; lia).
  rewrite E6 in *. change (zeros (6 - 6)) with (@nil byte) in F5.
  rewrite app_nil_r in F5.
  rewrite R5 in *. norm. clear R1 R2 R3 R4 R5 R6.
  (* the fields of the sample *)
  assert (HP : Padding (eblFile s) = Z.of_nat n).
  { rewrite F6, F5, F4. destruct (Z.ltb_spec 0 P); simpl_state; lia. }
  assert (H4r : Header4_Read (Hdr4 (eblFile s)) = Z.of_nat h + 6)
    by (rewrite F6, F5; reflexivity).
  assert (HB : metadata_at (eblFile s) = (98 + n + h + 6)%nat)
    by (unfold metadata_at; rewrite HP, H4r; lia).
  assert (Hrd : Read (eblFile s) = Z.of_nat (metadata_at (eblFile s)) + 172).
  { rewrite HB, F6, F5, F4.
    destruct (Z.ltb_spec 0 P); simpl_state; rewrite HR3; lia. }
  split; [|exact Hrd].
  assert (Hh : (8 <= n + h)%nat
               /\ Header4_Prefix (Hdr4 (eblFile s)) = E5S1
               /\ header4_found (eblFile s) data).
  { unfold header4_found. rewrite HP, H4r, Nat2Z.id.
    assert (Hs : Header4_Size (Hdr4 (eblFile s)) = size)
      by (rewrite F6, F5; reflexivity).
    assert (Hx : Header4_Prefix (Hdr4 (eblFile s)) = prefix4)
      by (rewrite F6, F5; reflexivity).
    rewrite Hs, Hx. unfold header4StartBytes in Eh. unfold bytes_at, be_at.
    destruct L4 as [[Ef Hno]|(Ef & Epfx & Em & [[Es Hn48]|[Es Hn8]])];
      rewrite Ef in *; rewrite ?Es in *; subst h.
    - destruct V5 as (Vm & -> & ->).
      split; [lia|]. split; [reflexivity|]. left.
      split; [lia|]. split; [exact Hno|]. split; [exact Vm|].
      do 3 f_equal; lia.
    - destruct V5 as (-> & ->).
      split; [lia|]. split; [exact Epfx|]. right. left.
      split; [lia|]. split; [exact Hn48|]. split; [exact Em|]. reflexivity.
    - destruct V5 as (-> & ->).
      split; [lia|]. split; [exact Epfx|]. right. right.
      split; [lia|]. split; [exact Hn8|]. split; [exact Em|]. reflexivity. }
  destruct Hh as (Hnh & Hpfx & Hfound).
  split.
  - lia.
  - rewrite F6, F5, F4, F3, F2, F1. by destruct (0 <? P).
  - rewrite F6, F5, F4, F3, F2, F1. by destruct (0 <? P).
  - rewrite F6, F5, F4, F3, F2, F1. by destruct (0 <? P).
  - exact M1.
  - exact M2.
  - exact M3.
  - rewrite F6, F5, F4, F3, F2, F1. by destruct (0 <? P).
  - rewrite F6, F5, F4, F3, F2, F1. by destruct (0 <? P).
  - rewrite F6, F5, F4, F3, Fn. by destruct (0 <? P).
  - rewrite HP, Hn. subst P. lia.
  - exact Hpfx.
  - exact Hfound.
  - rewrite HB, F6, F5. simpl_state. cbn [Header4_Data]. unfold bytes_at.
    do 2 f_equal. lia.
  - rewrite HB, F6. simpl_state. unfold metadata_of, bytes_at, le_at, padded_at.
    rewrite (padded_read (drop (98 + (n + (h + 6)) + 112) data) 64
               (Nat.min 64 (length data - (98 + (n + (h + 6))) - 112)))
      by (rewrite length_drop; lia).
    replace (98 + (n + (h + 6)))%nat with (98 + n + h + 6)%nat by lia.
    reflexivity.
Qed.

Lemma laid_out_headers (inputFile : string) (data : list byte)
    (f f' : EBLFile) :
  headers f' = headers f -> laid_out inputFile data f ->
  laid_out inputFile data f'.
Proof.
  intros E [].
  pose proof (f_equal (fun x => x.1.1.1.1.1.1.1.1) E) as E1.
  pose proof (f_equal (fun x => x.1.1.1.1.1.1.1.2) E) as E2.
  pose proof (f_equal (fun x => x.1.1.1.1.1.1.2) E) as E3.
  pose proof (f_equal (fun x => x.1.1.1.1.1.2) E) as E4.
  pose proof (f_equal (fun x => x.1.1.1.1.2) E) as E5.
  pose proof (f_equal (fun x => x.1.1.1.2) E) as E6.
  pose proof (f_equal (fun x => x.1.1.2) E) as E7.
  pose proof (f_equal (fun x => x.1.2) E) as E8.
  pose proof (f_equal (fun x => x.2) E) as E9.
  cbn [headers fst snd] in E1, E2, E3, E4, E5, E6, E7, E8, E9.
  assert (EB : metadata_at f' = metadata_at f)
    by (unfold metadata_at; by rewrite E7, E8).
  split; unfold header4_found in *;
    rewrite ?EB, ?E1, ?E2, ?E3, ?E4, ?E5, ?E6, ?E7, ?E8, ?E9; assumption.
Qed.

Lemma ReadFile_layout (p : Parser) (inputFile errorDir : string)
    (data : list byte) (f : EBLFile) (s : state) :
  ReadFile p inputFile errorDir data = Ok f s ->
  laid_out inputFile data f
  /\ DataSizeCalc f = Channel1Size f + Channel2Size f
  /\ HeaderRead f
     = Z.of_nat (metadata_at f) + 172 + Z.max 0 (dataPadding_of f).
Proof.
  unfold ReadFile, parse. intros H.
  apply mbind_Ok in H as ([] & s1 & H1 & H).
  pose proof (readHeaders_Ok _ _ _ _ H1) as (L1 & C1 & W1).
  apply readHeaders_layout in H1 as (Lay & Rd).
  apply mbind_Ok in H as ([] & s4 & H4 & H).
  unfold readPayload in H4.
  apply mbind_Ok in H4 as ([] & s2 & H2 & H4).
  pose proof (keeps_channelSizes _ _ _ _ H2) as K2.
  destruct (channelSizes_run p s1)
    as (s2' & E2 & F2 & (S2 & D2) & X2 & R2 & Z2 & DS2 & _).
  rewrite E2 in H2. injection H2 as ->.
  assert (L2 : lag 4 s2) by (apply (lag_same 4 s1); assumption).
  apply mbind_Ok in H4 as ([] & s3 & H3 & H4).
  pose proof (keeps_readDataPadding _ _ _ _ H3) as K3.
  pose proof (readDataPadding_Read _ _ _ H3) as R3.
  apply readDataPadding_Ok with (k := 4%nat) in H3
    as (L3 & C3 & _ & _ & _ & _ & HR3 & _); [|exact L2].
  pose proof (keeps_readAudio _ _ _ _ H4) as K4.
  apply readAudio_Ok with (k := 4%nat) in H4; [|exact L3]. cbv zeta in H4.
  destruct H4 as (_ & _ & _ & L4 & _ & _ & _ & _ & _ & HR4 & _).
  apply mbind_Ok in H as ([] & s5 & H5 & H).
  destruct (checkEnd_lag p s4 L4) as [l E5].
  rewrite E5 in H5. injection H5 as <-.
  rewrite get_ebl_run in H. injection H as <- <-.
  simpl_state.
  rewrite K3 in K4.
  pose proof (f_equal (fun x => x.1.1.1) K4) as Kh.
  pose proof (f_equal (fun x => x.1.1.2) K4) as K1.
  pose proof (f_equal (fun x => x.1.2) K4) as K2'.
  pose proof (f_equal (fun x => x.2) K4) as Kd.
  cbn [plan fst snd] in Kh, K1, K2', Kd.
  assert (Hh : headers (eblFile s4) = headers (eblFile s1)) by congruence.
  split; [exact (laid_out_headers _ _ _ _ Hh Lay)|].
  split; [rewrite Kd, K1, K2'; exact DS2|].
  assert (EB : metadata_at (eblFile s4) = metadata_at (eblFile s1)).
  { pose proof (f_equal (fun x => x.1.1.2) Hh) as E7.
    pose proof (f_equal (fun x => x.1.2) Hh) as E8.
    cbn [headers fst snd] in E7, E8.
    unfold metadata_at. by rewrite E7, E8. }
  assert (Ep : dataPadding_of (eblFile s4) = dataPadding_of (eblFile s2)).
  { pose proof (f_equal (fun x => x.2) Kh) as E9.
    cbn [headers fst snd] in E9.
    unfold dataPadding_of. by rewrite E9, Kd. }
  rewrite HR4, HR3, R3, R2, Rd, EB, Ep. lia.
Qed.

(** X12. What a file that decodes looks like, up to the padding: it has at
    least 225 bytes; it starts with [FORM], has [E5B0TOC2] at offset 8 and
    [E5S1] at offset 20; and the three frame headers of the sample are the
    big-endian words at the offsets 4, 16, 24 and 28, the two bytes at 32
    and the UTF-16 name in the 64 bytes at 34.  The sample carries the base
    name and the path of the input and the length of the file. *)
Theorem decoded_frames (p : Parser) (inputFile errorDir : string)
    (data : list byte) (f : EBLFile) (s : state) :
  ReadFile p inputFile errorDir data = Ok f s ->
  (225 <= length data)%nat
  /\ Filename f = filepath_Base inputFile
  /\ Path f = inputFile
  /\ Size f = Z.of_nat (length data)
  /\ bytes_at 0 4 data = FORM
  /\ bytes_at 8 8 data = E5B0TOC2
  /\ bytes_at 20 4 data = E5S1
  /\ Hdr1 f = mkHeader1 FORM (be_at 4 data) 8
  /\ Hdr2 f = mkHeader2 E5B0TOC2 (be_at 16 data) 12
  /\ Hdr3 f = mkHeader3 E5S1 (be_at 24 data) (be_at 28 data)
                (bytes_at 32 2 data) (decodeUTF16 (bytes_at 34 64 data)) 74.
Proof.
  intros H. apply ReadFile_layout in H as (L & _).
  destruct L. repeat split; assumption.
Qed.

Lemma decoded_frames_witness :
  exists f s,
    ReadFile streams.quiet "in/Pad.ebl" "errors" stereo_stream = Ok f s
    /\ Filename f = "Pad.ebl"%string
    /\ Hdr3 f = mkHeader3 E5S1 0 98 [x00; x00] "Pad" 74.
Proof.
  destruct (ReadFile streams.quiet "in/Pad.ebl" "errors" stereo_stream)
    as [f s|e s|s] eqn:E; [|vm_compute in E; discriminate E ..].
  destruct (decoded_frames _ _ _ _ f s E)
    as (_ & Hn & _ & _ & _ & _ & _ & _ & _ & H3).
  exists f, s. split; [reflexivity|]. rewrite Hn, H3. split; reflexivity.
Defined.

(** X13. And from the padding on.  The padding is what the word at offset
    28 exceeds 94 by; after its [Padding] bytes, at offset 98 + [Padding],
    comes what is read of Header 4: its prefix [E5S1], its size and six
    bytes, or only the rest of it when the padding starts with [E5S1].  The
    metadata block follows: the sample's [HeaderData] is the UTF-16 name,
    the twelve little-endian words and the comment found there.  The channel
    extents add up to [DataSizeCalc]; and [HeaderRead], the position four
    bytes before the audio, is the end of the metadata block less four, plus
    the bytes by which the word [V5] exceeds [DataSizeCalc + 178]. *)
Theorem decoded_metadata (p : Parser) (inputFile errorDir : string)
    (data : list byte) (f : EBLFile) (s : state) :
  ReadFile p inputFile errorDir data = Ok f s ->
  Padding f = Z.max 0 (Header3_Data (Hdr3 f) - 94)
  /\ Header4_Prefix (Hdr4 f) = E5S1
  /\ header4_found f data
  /\ Header4_Data (Hdr4 f) = bytes_at (metadata_at f - 6) 6 data
  /\ HdrData f = metadata_of (metadata_at f) data
  /\ DataSizeCalc f = Channel1Size f + Channel2Size f
  /\ HeaderRead f
     = Z.of_nat (metadata_at f) + 172 + Z.max 0 (dataPadding_of f).
Proof.
  intros H. apply ReadFile_layout in H as (L & Hc & Ha).
  split; [rewrite (lay_hdr3 _ _ _ L); exact (lay_padding _ _ _ L)|].
  destruct L. repeat split; assumption.
Qed.

Lemma decoded_metadata_witness :
  exists f s,
    ReadFile streams.quiet "in/Pad.ebl" "errors" stereo_stream = Ok f s
    /\ metadata_at f = 112%nat
    /\ HeaderData_V5 (HdrData f) = 8
    /\ HeaderData_SampleRate (HdrData f) = 44100
    /\ HeaderRead f = 284.
Proof.
  destruct (ReadFile streams.quiet "in/Pad.ebl" "errors" stereo_stream)
    as [f s|e s|s] eqn:E; [|vm_compute in E; discriminate E ..].
  destruct (decoded_metadata _ _ _ _ f s E) as (_ & _ & _ & _ & HD & HC & HR).
  assert (HB : metadata_at f = 112%nat) by (known_sample E; reflexivity).
  assert (H1 : Channel1Size f = 4) by (known_sample E; reflexivity).
  assert (H2 : Channel2Size f = 4) by (known_sample E; reflexivity).
  exists f, s. split; [reflexivity|]. split; [exact HB|].
  rewrite HR. unfold dataPadding_of. rewrite HC, H1, H2, HD, HB.
  repeat split; reflexivity.
Defined.

(** X14. The channels of a decoded sample are bytes of the file, as they
    are.  The audio starts after the 176 bytes of the metadata block and the
    padding that the word [V5] asks for, which is four bytes after the
    position that [HeaderRead] counts: channel A is the [Channel1Size] bytes
    from there, channel B the [Channel2Size] bytes that follow; and when
    there is audio at all, the file holds all of it. *)
Theorem audio_from_file (p : Parser) (inputFile errorDir : string)
    (data : list byte) (f : EBLFile) (s : state) :
  ReadFile p inputFile errorDir data = Ok f s ->
  let start :=
    (metadata_at f + 176 + Z.to_nat (Z.max 0 (dataPadding_of f)))%nat in
  let n1 := Z.to_nat (Channel1Size f) in
  let n2 := Z.to_nat (Channel2Size f) in
  Z.of_nat start = HeaderRead f + 4
  /\ Channel1Data f = bytes_at start n1 data
  /\ Channel2Data f = bytes_at (start + n1) n2 data
  /\ ((0 < n1 + n2)%nat -> (start + n1 + n2 <= length data)%nat).
Proof.
  intros H. cbv zeta.
  pose proof (ReadFile_audio _ _ _ _ _ _ H) as (_ & HA & HB & Hle).
  apply ReadFile_layout in H as (_ & _ & HR).
  assert (E : (metadata_at f + 176 + Z.to_nat (Z.max 0 (dataPadding_of f)))%nat
              = (Z.to_nat (HeaderRead f) + 4)%nat) by lia.
  unfold bytes_at. rewrite E. split; [lia|]. split; [exact HA|].
  split; [exact HB|exact Hle].
Qed.

Lemma audio_from_file_witness :
  exists f s,
    ReadFile streams.quiet "Pad.ebl" "errors" stereo_stream = Ok f s
    /\ Channel1Data f = bytes_at 288 4 stereo_stream
    /\ Channel2Data f = bytes_at 292 4 stereo_stream.
Proof.
  destruct (ReadFile streams.quiet "Pad.ebl" "errors" stereo_stream)
    as [f s|e s|s] eqn:E; [|vm_compute in E; discriminate E ..].
  destruct (audio_from_file _ _ _ _ f s E) as (_ & HA & HB & _).
  cbv zeta in HA, HB.
  assert (HM : metadata_at f = 112%nat) by (known_sample E; reflexivity).
  assert (HP : dataPadding_of f = -178) by (known_sample E; reflexivity).
  assert (H1 : Channel1Size f = 4) by (known_sample E; reflexivity).
  assert (H2 : Channel2Size f = 4) by (known_sample E; reflexivity).
  rewrite HM, HP, H1 in HA. rewrite HM, HP, H1, H2 in HB.
  exists f, s. split; [reflexivity|]. split; [exact HA|exact HB].
Defined.

(** ** decodeUTF16 *)

Lemma u16s_of_bytes_utf16 (l : list ascii) (rest : list byte) :
  u16s_of_bytes (flat_map (fun c => [byte_of_ascii c; x00]) l ++ rest)
  = map (fun c => byte_to_Z (byte_of_ascii c)) l ++ u16s_of_bytes rest.
Proof.
  induction l as [|c l IH]; [reflexivity|].
  cbn [flat_map app u16s_of_bytes map]. rewrite IH. f_equal.
  unfold le_uint16. change (Z.shiftl (byte_to_Z x00) 8) with 0.
  apply Z.lor_0_r.
Qed.

Lemma u16s_of_bytes_zeros (k : nat) :
  u16s_of_bytes (zeros (2 * k)) = replicate k 0.
Proof.
  induction k as [|k IH]; [reflexivity|].
  replace (2 * S k)%nat with (S (S (2 * k))) by lia.
  unfold zeros in *. cbn [replicate u16s_of_bytes]. by rewrite IH.
Qed.

(** Below the surrogates a code unit is a rune. *)
Lemma utf16_Decode_small (l : list Z) :
  Forall (fun r => r < surr1) l -> utf16_Decode l = l.
Proof.
  induction 1 as [|r l Hr _ IH]; [reflexivity|].
  cbn [utf16_Decode]. rewrite (proj2 (Z.ltb_lt _ _) Hr). cbn [orb].
  by rewrite IH.
Qed.

Lemma utf8_EncodeRune_ascii (r : Z) :
  0 <= r < 128 -> utf8_EncodeRune r = [byte_of_Z r].
Proof.
  intros Hr. unfold utf8_EncodeRune, surr1, surr3.
  replace (r <? 0) with false by (symmetry; apply Z.ltb_ge; lia).
  replace (1114111 <? r) with false by (symmetry; apply Z.ltb_ge; lia).
  replace (55296 <=? r) with false by (symmetry; apply Z.leb_gt; lia).
  cbn [orb andb].
  by replace (r <? 128) with true by (symmetry; apply Z.ltb_lt; lia).
Qed.

Lemma runes_of_ascii (l : list ascii) (k : nat) :
  forallb ascii_char l = true ->
  concat (map utf8_EncodeRune
            (map (fun c => byte_to_Z (byte_of_ascii c)) l ++ replicate k 0))
  = map byte_of_ascii l ++ zeros k.
Proof.
  intros Hl. induction l as [|c l IH].
  - cbn [map app]. unfold zeros. induction k as [|k IHk]; [reflexivity|].
    cbn [replicate map concat]. rewrite IHk. reflexivity.
  - cbn [forallb] in Hl. apply andb_prop in Hl as [Hc Hl].
    unfold ascii_char in Hc. apply andb_prop in Hc as [H0 H1].
    apply Z.ltb_lt in H0, H1.
    cbn [map app concat]. rewrite (IH Hl).
    rewrite utf8_EncodeRune_ascii by lia. by rewrite byte_of_Z_to_Z.
Qed.

Lemma string_of_bytes_ascii (l : list ascii) (k : nat) :
  string_of_bytes (map byte_of_ascii l ++ zeros k)
  = string_of_list_ascii (l ++ replicate k zero).
Proof.
  unfold string_of_bytes, string_of_list_byte, zeros. f_equal.
  rewrite map_app, map_map. f_equal.
  - rewrite <- (map_id l) at 2. apply map_ext. intros c.
    apply ascii_of_byte_of_ascii.
  - induction k as [|k IH]; [reflexivity|]. cbn [replicate map]. by rewrite IH.
Qed.

Lemma TrimRight_nul_nuls (k : nat) :
  TrimRight_nul (string_of_list_ascii (replicate k zero)) = EmptyString.
Proof.
  induction k as [|k IH]; [reflexivity|].
  cbn [replicate string_of_list_ascii TrimRight_nul]. by rewrite IH.
Qed.

Lemma TrimRight_nul_padded (l : list ascii) (k : nat) :
  forallb ascii_char l = true ->
  TrimRight_nul (string_of_list_ascii (l ++ replicate k zero))
  = string_of_list_ascii l.
Proof.
  intros Hl. induction l as [|c l IH]; [apply TrimRight_nul_nuls|].
  cbn [forallb] in Hl. apply andb_prop in Hl as [Hc Hl].
  cbn [app string_of_list_ascii TrimRight_nul]. rewrite (IH Hl).
  destruct (string_of_list_ascii l) as [|d r] eqn:E; [|reflexivity].
  destruct (Ascii.eqb_spec c zero) as [->|_]; [|reflexivity].
  discriminate Hc.
Qed.

Lemma length_utf16le (name : string) :
  length (utf16le name) = (2 * String.length name)%nat.
Proof.
  unfold utf16le. induction name as [|c name IH]; [reflexivity|].
  cbn [list_ascii_of_string flat_map app length String.length]. rewrite IH. lia.
Qed.

Lemma decodeUTF16_padded (name : string) (k : nat) :
  ascii_name name -> decodeUTF16 (utf16le name ++ zeros (2 * k)) = name.
Proof.
  intros Hn. unfold decodeUTF16.
  assert (Hlen : (length (utf16le name ++ zeros (2 * k)) mod 2 = 0)%nat).
  { rewrite length_app, length_utf16le. unfold zeros.
    rewrite length_replicate.
    replace (2 * String.length name + 2 * k)%nat
      with ((String.length name + k) * 2)%nat by lia.
    apply Nat.Div0.mod_mul. }
  rewrite Hlen. cbn [Nat.eqb]. unfold utf16le.
  rewrite u16s_of_bytes_utf16, u16s_of_bytes_zeros.
  rewrite utf16_Decode_small.
  - unfold string_of_runes. rewrite (runes_of_ascii _ _ Hn).
    rewrite string_of_bytes_ascii, (TrimRight_nul_padded _ _ Hn).
    apply string_of_list_ascii_of_string.
  - apply Forall_app. split.
    + apply List.Forall_map, Forall_true. intros c.
      pose proof (byte_to_Z_range (byte_of_ascii c)). unfold surr1. lia.
    + apply Forall_replicate. unfold surr1. lia.
Qed.

(** X15. [decodeUTF16] gives back an ASCII name from its UTF-16LE bytes
    followed by any number of NUL code units, as in a 64-byte name field of
    the file for a name of at most 32 characters; and an odd last byte does
    not count. *)
Theorem decodeUTF16_names :
  (forall (name : string) (k : nat),
     ascii_name name -> decodeUTF16 (utf16le name ++ zeros (2 * k)) = name)
  /\ (forall name : string,
        ascii_name name -> (String.length name <= 32)%nat ->
        decodeUTF16 (streams.utf16_field name) = name)
  /\ (forall (b : list byte) (x : byte),
        (length b mod 2 = 0)%nat -> decodeUTF16 (b ++ [x]) = decodeUTF16 b).
Proof.
  split; [exact decodeUTF16_padded|]. split.
  - intros name Hn Hl. unfold streams.utf16_field. fold (utf16le name).
    pose proof (length_utf16le name) as Hu.
    replace (take 64 (utf16le name ++ zeros 64))
      with (utf16le name ++ zeros (2 * (32 - String.length name))).
    + by apply decodeUTF16_padded.
    + rewrite take_app_ge by lia. unfold zeros. rewrite take_replicate.
      do 2 f_equal. lia.
  - intros b x Hb. unfold decodeUTF16.
    rewrite length_app. cbn [length].
    replace ((length b + 1) mod 2)%nat with 1%nat.
    + rewrite Hb. cbn [Nat.eqb].
      replace (length b + 1 - 1)%nat with (length b) by lia.
      by rewrite take_app_length.
    + pose proof (Nat.div_mod_eq (length b) 2) as E. rewrite Hb in E.
      replace (length b + 1)%nat with (1 + (length b / 2) * 2)%nat by lia.
      by rewrite Nat.Div0.mod_add.
Qed.

Lemma decodeUTF16_names_witness :
  decodeUTF16 (streams.utf16_field "Warm Pad 01") = "Warm Pad 01"%string.
Proof.
  destruct decodeUTF16_names as (_ & H & _).
  apply H; [reflexivity|simpl; lia].
Defined.

(** ** Files that decode *)

Lemma read_buf_run (n : nat) (what : string) (s : state) :
  n <> 0%nat -> (n <= length (remaining (file s)))%nat ->
  read_buf n what s = Ok (take n (remaining (file s))) (advance n s).
Proof.
  intros Hn Hle. unfold read_buf.
  destruct (file_Read_run (zeros n) s) as (k & Hk & E).
  rewrite (mbind_run _ _ _ _ _ E). cbv beta iota.
  unfold zeros in *. rewrite length_replicate in Hk.
  assert (k = n) as -> by lia.
  rewrite decide_False.
  - rewrite drop_replicate, Nat.sub_diag. cbn [replicate].
    by rewrite app_nil_r.
  - intros [_ Hr]. rewrite Hr in Hle. simpl in Hle. lia.
Qed.

Lemma read_u32_run (order : ByteOrder) (what : string) (s : state) :
  (4 <= length (remaining (file s)))%nat ->
  read_u32 order what s
  = Ok (Uint32 order (take 4 (remaining (file s)))) (advance 4 s).
Proof.
  intros Hle. unfold read_u32, binary_Read.
  rewrite mbind_assoc.
  erewrite mbind_run by (apply io_ReadFull_run; exact Hle).
  reflexivity.
Qed.

(** Running a stage on a file that holds what the stage reads. *)
Ltac run :=
  rewrite ?mbind_assoc;
  first
    [ erewrite mbind_run by apply get_ebl_run
    | erewrite mbind_run by apply modify_ebl_run
    | erewrite mbind_run by apply ret_run
    | erewrite mbind_run by (apply make_run; lia)
    | erewrite mbind_run by (apply read_u32_run; norm; lia)
    | erewrite mbind_run by (apply read_buf_run; [lia|norm; lia])
    | match goal with
      | |- context [(?m ≫= ?k) ?st] =>
          let l := fresh "l" in
          let El := fresh "El" in
          let El' := fresh "El" in
          assert (El : prints m) by auto 10 with prints;
          destruct (El st) as [l El'];
          rewrite (mbind_run _ _ _ _ _ El'); clear El El'
      end ];
  cbv beta iota.

(** The last statement of a stage. *)
Ltac finish :=
  match goal with
  | |- exists s', ?m ?st = Ok ?a s' =>
      let El := fresh "El" in
      assert (El : prints m) by auto 10 with prints;
      destruct (El st) as [? ->]; eauto
  | |- exists s', modify_ebl _ _ = Ok _ s' => eexists; reflexivity
  | |- exists s', ret _ _ = Ok _ s' => eexists; reflexivity
  end.

Lemma readHeader1_returns (p : Parser) (s : state) :
  (8 <= length (remaining (file s)))%nat ->
  take 4 (remaining (file s)) = FORM ->
  exists s', readHeader1 p s = Ok tt s'.
Proof.
  intros Hle Hm. unfold readHeader1.
  do 2 run. rewrite Hm.
  change (negb (string_of_bytes FORM =? "FORM")%string) with false. cbv iota.
  do 3 run. finish.
Qed.

Lemma readHeader2_returns (p : Parser) (s : state) :
  (12 <= length (remaining (file s)))%nat ->
  take 8 (remaining (file s)) = E5B0TOC2 ->
  exists s', readHeader2 p s = Ok tt s'.
Proof.
  intros Hle Hm. unfold readHeader2.
  do 2 run. rewrite Hm.
  change (negb (string_of_bytes E5B0TOC2 =? "E5B0TOC2")%string) with false.
  cbv iota.
  do 3 run. finish.
Qed.

Lemma readHeader3_returns (p : Parser) (s : state) :
  (78 <= length (remaining (file s)))%nat ->
  take 4 (remaining (file s)) = E5S1 ->
  exists filename s', readHeader3 p s = Ok filename s'.
Proof.
  intros Hle Hm. unfold readHeader3.
  do 2 run. rewrite Hm.
  change (negb (string_of_bytes E5S1 =? "E5S1")%string) with false.
  cbv iota.
  do 8 run. eexists _, _. reflexivity.
Qed.

Lemma readPadding_returns (p : Parser) (s : state) :
  (0 < Header3_Data (Hdr3 (eblFile s)) - Read (eblFile s) ->
   remaining (file s) <> []) ->
  exists la s', readPadding p s = Ok la s'.
Proof.
  intros Hr. unfold readPadding. run.
  destruct (Z.ltb_spec 0 (Header3_Data (Hdr3 (eblFile s)) - Read (eblFile s)))
    as [Hpos|Hneg].
  - do 3 run.
    match goal with
    | |- context [(file_Read ?b ≫= _) ?st] =>
        destruct (file_Read_run b st) as (n & _ & E)
    end.
    rewrite (mbind_run _ _ _ _ _ E). cbv beta iota. clear E.
    rewrite decide_False by (intros [_ ?]; by apply Hr).
    do 2 run.
    destruct (_ && _).
    + run. destruct (_ <=? _)%nat.
      * run. eexists _, _. reflexivity.
      * eexists _, _. reflexivity.
    + eexists _, _. reflexivity.
  - do 2 run. eexists _, _. reflexivity.
Qed.

Lemma readHeader4_returns (p : Parser) (la : Lookahead) (s : state) :
  (header4StartBytes la + 6 <= length (remaining (file s)))%nat ->
  (foundHeader4InPadding la = false -> take 4 (remaining (file s)) = E5S1) ->
  exists s', readHeader4 p la s = Ok tt s'.
Proof.
  intros Hle Hm. unfold readHeader4, header4Start, header4StartBytes in *.
  destruct (foundHeader4InPadding la).
  - destruct (header4SizeBytes la) as [b|].
    + repeat run. finish.
    + repeat run. finish.
  - specialize (Hm eq_refl). rewrite mbind_assoc.
    destruct (file_Read_run (zeros 4) s) as (n & Hn & E).
    unfold zeros in Hn. rewrite length_replicate in Hn.
    assert (n = 4%nat) as -> by lia.
    rewrite (mbind_run _ _ _ _ _ E). cbv beta iota. clear E.
    rewrite decide_False
      by (intros [_ Hr]; rewrite Hr in Hle; simpl in Hle; lia).
    change (drop 4 (zeros 4)) with (@nil byte). rewrite app_nil_r, Hm.
    run.
    change (negb (string_of_bytes E5S1 =? "E5S1")%string) with false.
    cbv iota.
    repeat run. finish.
Qed.

Lemma readHeaderData_returns (p : Parser) (filename : string) (s : state) :
  (176 <= length (remaining (file s)))%nat ->
  exists s', readHeaderData p filename s = Ok tt s'.
Proof.
  intros Hle. unfold readHeaderData.
  do 17 run. finish.
Qed.

Lemma readAudio_returns (p : Parser) (s : state) :
  0 <= Channel1Size (eblFile s) -> 0 <= Channel2Size (eblFile s) ->
  (Z.to_nat (Channel1Size (eblFile s)) + Z.to_nat (Channel2Size (eblFile s))
   <= length (remaining (file s)))%nat ->
  exists s', readAudio p s = Ok tt s'.
Proof.
  intros H1 H2 Hle. unfold readAudio. do 2 run.
  erewrite mbind_run
    by (apply io_ReadFull_run; unfold zeros; rewrite length_replicate; lia).
  cbv beta iota. do 3 run.
  erewrite mbind_run
    by (apply io_ReadFull_run; norm; unfold zeros;
        rewrite !length_replicate; lia).
  cbv beta iota. run. eexists. reflexivity.
Qed.

Lemma readHeaders_returns (p : Parser) (inputFile : string) (data : list byte)
    (h : nat) :
  bytes_at 0 4 data = FORM ->
  bytes_at 8 8 data = E5B0TOC2 ->
  bytes_at 20 4 data = E5S1 ->
  header4_start data h ->
  (98 + padding_of data + h + 6 + 176 <= length data)%nat ->
  exists s,
    readHeaders p (initial inputFile data) = Ok tt s
    /\ metadata_at (eblFile s) = (98 + padding_of data + h + 6)%nat.
Proof.
  unfold bytes_at, header4_start. intros M1 M2 M3 M4 Hlen.
  assert (Hret : exists s, readHeaders p (initial inputFile data) = Ok tt s
                           /\ Header4_Read (Hdr4 (eblFile s)) = Z.of_nat h + 6).
  { unfold readHeaders.
    destruct (readHeader1_returns p (initial inputFile data)) as [s1 E1];
      [change (remaining (file (initial inputFile data))) with data; lia
      |exact M1|].
    rewrite (mbind_run _ _ _ _ _ E1). cbv beta.
    apply readHeader1_bytes in E1 as (_ & _ & R1 & F1). cbv zeta in *.
    change (remaining (file (initial inputFile data))) with data in *.
    destruct (readHeader2_returns p s1) as [s2 E2];
      [rewrite R1, length_drop; lia|by rewrite R1|].
    rewrite (mbind_run _ _ _ _ _ E2). cbv beta.
    apply readHeader2_bytes in E2 as (_ & _ & R2 & F2). cbv zeta in *.
    rewrite R1 in *. norm.
    destruct (readHeader3_returns p s2) as (filename & s3 & E3);
      [rewrite R2, length_drop; lia|by rewrite R2|].
    rewrite ?mbind_assoc, (mbind_run _ _ _ _ _ E3). cbv beta.
    apply readHeader3_bytes in E3 as (_ & _ & R3 & _ & F3). cbv zeta in *.
    rewrite R2 in *. norm.
    rewrite (Nat.min_l 64) in R3 by lia.
    assert (R3' : remaining (file s3) = drop 98 data)
      by (rewrite R3; f_equal; lia).
    clear R3.
    assert (HR3 : Read (eblFile s3) = 94) by (rewrite F3, F2, F1; reflexivity).
    assert (HD3 : Header3_Data (Hdr3 (eblFile s3)) = be_at 28 data)
      by (rewrite F3; reflexivity).
    destruct (readPadding_returns p s3) as (la & s4 & E4).
    { intros _ Hnil. rewrite R3' in Hnil.
      apply (f_equal length) in Hnil. rewrite length_drop in Hnil.
      simpl in Hnil. lia. }
    rewrite ?mbind_assoc, (mbind_run _ _ _ _ _ E4). cbv beta.
    apply readPadding_bytes in E4 as (R4 & _ & L4). cbv zeta in *.
    rewrite HR3, HD3, R3' in *. norm.
    assert (En : (if 0 <? be_at 28 data - 94
                  then Nat.min (Z.to_nat (be_at 28 data - 94))
                         (length data - 98)
                  else 0%nat) = padding_of data).
    { unfold padding_of in *. destruct (Z.ltb_spec 0 (be_at 28 data - 94)); lia. }
    rewrite En in *. clear En.
    assert (Eh : header4StartBytes la = h
                 /\ (foundHeader4InPadding la = false ->
                     take 4 (drop (98 + padding_of data) data) = E5S1)).
    { unfold header4StartBytes.
      destruct L4 as [[Ef Hno]|(Ef & _ & Em & [[Es Hn48]|[Es Hn8]])];
        rewrite Ef, ?Es;
        destruct M4 as [(Hc & Hm & ->)|[(Hc & Hm & ->)|(Hc & Hm & ->)]];
        try (split; [reflexivity|done]);
        try (exfalso; destruct Hno; [lia|contradiction]);
        try (exfalso; destruct Hc; [lia|contradiction]);
        try (exfalso; lia). }
    destruct Eh as [Eh Hm4].
    destruct (readHeader4_returns p la s4) as [s5 E5];
      [rewrite R4, length_drop, Eh; lia|by rewrite R4|].
    rewrite ?mbind_assoc, (mbind_run _ _ _ _ _ E5). cbv beta.
    apply readHeader4_bytes in E5 as (_ & R5 & prefix4 & size & F5 & _).
    cbv zeta in *. rewrite R4, Eh in *. norm.
    rewrite (Nat.min_l 6) in R5 by lia.
    destruct (readHeaderData_returns p filename s5) as [s6 E6'];
      [rewrite R5, length_drop; lia|].
    exists s6. split; [exact E6'|].
    apply readHeaderData_bytes in E6' as (_ & _ & F6).
    rewrite F6, F5. reflexivity. }
  destruct Hret as (s & E & H4r). exists s. split; [exact E|].
  apply readHeaders_layout in E as (L & _).
  unfold metadata_at. rewrite H4r, (lay_padding _ _ _ L).
  unfold padding_of. lia.
Qed.

Lemma header4_found_start (inputFile : string) (data : list byte)
    (f : EBLFile) (h : nat) :
  laid_out inputFile data f -> header4_start data h ->
  metadata_at f = (98 + padding_of data + h + 6)%nat.
Proof.
  intros L M4. pose proof (lay_padding _ _ _ L) as HP.
  pose proof (lay_found4 _ _ _ L) as HF.
  unfold header4_found, header4_start, metadata_at in *.
  fold (padding_of data) in HP.
  assert (EP : Z.to_nat (Padding f) = padding_of data)
    by (unfold padding_of; lia).
  rewrite EP in HF. cbv zeta in *.
  destruct HF as [(Hr & Hc & _)|[(Hr & Hc & Hm & _)|(Hr & Hc & Hm & _)]];
    destruct M4 as [(Hc' & _ & ->)|[(Hc' & Hm' & ->)|(Hc' & Hm' & ->)]];
    try (unfold padding_of in *; lia);
    try (exfalso; destruct Hc; [lia|contradiction]);
    try (exfalso; destruct Hc'; [lia|contradiction]).
Qed.

(** The decoder before the audio, on a file that is well formed up to
    there. *)
Lemma payload_ready (p : Parser) (inputFile : string) (data : list byte)
    (h : nat) :
  bytes_at 0 4 data = FORM ->
  bytes_at 8 8 data = E5B0TOC2 ->
  bytes_at 20 4 data = E5S1 ->
  header4_start data h ->
  let B := (98 + padding_of data + h + 6)%nat in
  let start := (B + 176 + Z.to_nat (audio_padding_at B data))%nat in
  (start <= length data)%nat ->
  exists s,
    (readHeaders p ;; channelSizes p ;; readDataPadding p)
      (initial inputFile data) = Ok tt s
    /\ remaining (file s) = drop start data
    /\ Channel1Size (eblFile s) = (extents_at B data).1
    /\ Channel2Size (eblFile s) = (extents_at B data).2.
Proof.
  intros M1 M2 M3 M4. cbv zeta. intros Hlen.
  set (B := (98 + padding_of data + h + 6)%nat) in *.
  destruct (readHeaders_returns p inputFile data h M1 M2 M3 M4)
    as (s1 & E1 & HB); [fold B; lia|]. fold B in HB.
  rewrite (mbind_run _ _ _ _ _ E1). cbv beta.
  pose proof (readHeaders_Ok _ _ _ _ E1) as (L1 & C1 & W1).
  apply readHeaders_layout in E1 as (Lay & Rd).
  destruct (channelSizes_run p s1)
    as (s2 & E2 & F2 & (S2 & D2) & X2 & R2 & Z2 & DS2 & _).
  rewrite (mbind_run _ _ _ _ _ E2). cbv beta.
  assert (L2 : lag 4 s2) by (apply (lag_same 4 s1); assumption).
  assert (Hsz : (Channel1Size (eblFile s2), Channel2Size (eblFile s2))
                = extents_at B data).
  { rewrite Z2, (lay_metadata _ _ _ Lay), HB. reflexivity. }
  assert (H1 : Channel1Size (eblFile s2) = (extents_at B data).1)
    by (by rewrite <- Hsz).
  assert (H2 : Channel2Size (eblFile s2) = (extents_at B data).2)
    by (by rewrite <- Hsz).
  assert (Hdp : Z.max 0 (dataPadding_of (eblFile s2))
                = audio_padding_at B data).
  { unfold dataPadding_of, audio_padding_at.
    rewrite DS2, H1, H2, D2, (lay_metadata _ _ _ Lay), HB. reflexivity. }
  pose proof L2 as (HS2 & HP2 & HO2).
  assert (Hoff : offset (file s2) = (B + 176)%nat).
  { unfold same_file in F2. rewrite HO2, R2, Rd, HB, F2, C1. lia. }
  assert (Hc2 : content (file s2) = data)
    by (unfold same_file in F2; by rewrite F2).
  assert (Hrem : length (remaining (file s2)) = (length data - (B + 176))%nat)
    by (by rewrite length_remaining, Hc2, Hoff).
  destruct (readDataPadding_run p s2) as [s3 E3].
  { destruct (Z_le_gt_dec (dataPadding_of (eblFile s2)) 0) as [?|Hpos];
      [by left|right].
    intros Hnil. rewrite Hnil in Hrem. simpl in Hrem. lia. }
  exists s3. split; [exact E3|].
  apply readDataPadding_Ok with (k := 4%nat) in E3
    as (L3 & C3 & _ & _ & A3 & B3 & _ & O3); [|done].
  split; [|by rewrite A3, B3].
  unfold remaining. rewrite C3, Hc2, O3, Hrem, Hoff. f_equal. lia.
Qed.

(** X16. Every well-formed file decodes.  Let a file start with [FORM], have
    [E5B0TOC2] at offset 8 and [E5S1] at offset 20, and have Header 4 where
    the padding puts it; let the words of its metadata block give channel
    extents that are not negative; and let it hold the metadata block, the
    padding before the audio and the audio.  Then [ReadFile] returns a
    sample: its extents are those the words give and its channels are the
    bytes of the file at the place of the audio. *)
Theorem well_formed_decodes (p : Parser) (inputFile errorDir : string)
    (data : list byte) (h : nat) :
  bytes_at 0 4 data = FORM ->
  bytes_at 8 8 data = E5B0TOC2 ->
  bytes_at 20 4 data = E5S1 ->
  header4_start data h ->
  let B := (98 + padding_of data + h + 6)%nat in
  let c1 := (extents_at B data).1 in
  let c2 := (extents_at B data).2 in
  let start := (B + 176 + Z.to_nat (audio_padding_at B data))%nat in
  0 <= c1 -> 0 <= c2 ->
  (start + Z.to_nat c1 + Z.to_nat c2 <= length data)%nat ->
  exists f s,
    ReadFile p inputFile errorDir data = Ok f s
    /\ metadata_at f = B
    /\ Channel1Size f = c1 /\ Channel2Size f = c2
    /\ Channel1Data f = bytes_at start (Z.to_nat c1) data
    /\ Channel2Data f = bytes_at (start + Z.to_nat c1) (Z.to_nat c2) data.
Proof.
  intros M1 M2 M3 M4. cbv zeta. intros P1 P2 Hlen.
  set (B := (98 + padding_of data + h + 6)%nat) in *.
  assert (Hok : exists f s, ReadFile p inputFile errorDir data = Ok f s).
  { unfold ReadFile, parse, readPayload.
    destruct (payload_ready p inputFile data h M1 M2 M3 M4)
      as (s3 & E3 & R3 & A3 & B3); [fold B; lia|]. fold B in R3, A3, B3.
    rewrite ?mbind_assoc.
    apply mbind_Ok in E3 as ([] & s1 & E1 & E3).
    rewrite (mbind_run _ _ _ _ _ E1). cbv beta.
    apply mbind_Ok in E3 as ([] & s2 & E2 & E3).
    rewrite ?mbind_assoc, (mbind_run _ _ _ _ _ E2). cbv beta.
    rewrite ?mbind_assoc, (mbind_run _ _ _ _ _ E3). cbv beta.
    destruct (readAudio_returns p s3) as [s4 E4].
    { rewrite A3. exact P1. }
    { rewrite B3. exact P2. }
    { rewrite A3, B3, R3, length_drop. lia. }
    rewrite ?mbind_assoc, (mbind_run _ _ _ _ _ E4). cbv beta.
    destruct (checkEnd_run p s4) as (s5 & E5 & _).
    rewrite ?mbind_assoc, (mbind_run _ _ _ _ _ E5). cbv beta.
    eexists _, _. reflexivity. }
  destruct Hok as (f & s & E). exists f, s. split; [exact E|].
  pose proof (ReadFile_Ok _ _ _ _ _ _ E) as D.
  pose proof (ReadFile_audio _ _ _ _ _ _ E) as (_ & HA & HB' & _).
  apply ReadFile_layout in E as (Lay & Hc & HR).
  pose proof (header4_found_start _ _ _ _ Lay M4) as HB. fold B in HB.
  assert (Hsz : (Channel1Size f, Channel2Size f) = extents_at B data).
  { rewrite (dec_sizes _ _ _ _ D), (lay_metadata _ _ _ Lay), HB. reflexivity. }
  assert (H1 : Channel1Size f = (extents_at B data).1) by (by rewrite <- Hsz).
  assert (H2 : Channel2Size f = (extents_at B data).2) by (by rewrite <- Hsz).
  assert (Hdp : Z.max 0 (dataPadding_of f) = audio_padding_at B data).
  { unfold dataPadding_of, audio_padding_at.
    rewrite Hc, H1, H2, (lay_metadata _ _ _ Lay), HB. reflexivity. }
  assert (Es : (Z.to_nat (HeaderRead f) + 4)%nat
               = (B + 176 + Z.to_nat (audio_padding_at B data))%nat)
    by (rewrite HR, HB, Hdp; unfold audio_padding_at; lia).
  cbv zeta in HA, HB'. rewrite Es, H1 in HA. rewrite Es, H1, H2 in HB'.
  split; [exact HB|]. split; [exact H1|]. split; [exact H2|].
  split; [exact HA|exact HB'].
Qed.

Lemma well_formed_decodes_witness :
  exists f s,
    ReadFile streams.quiet "Pad.ebl" "errors" stereo_stream = Ok f s
    /\ Channel1Data f = [x01; x02; x03; x04]
    /\ Channel2Data f = [x05; x06; x07; x08].
Proof.
  destruct (well_formed_decodes streams.quiet "Pad.ebl" "errors" stereo_stream 4)
    as (f & s & E & _ & _ & _ & HA & HB).
  - reflexivity.
  - reflexivity.
  - reflexivity.
  - right. left. split; [vm_compute; lia|]. split; reflexivity.
  - vm_compute. discriminate.
  - vm_compute. discriminate.
  - vm_compute. lia.
  - exists f, s. split; [exact E|]. rewrite HA, HB. split; reflexivity.
Defined.

(** ** Files that end inside the audio *)

Lemma io_ReadFull_cut (buf : list byte) (s : state) :
  (length (remaining (file s)) < length buf)%nat ->
  exists r,
    io_ReadFull buf s
    = Ok (length (remaining (file s)),
          Some (if decide (length (remaining (file s)) = 0%nat)
                then EOF else ErrUnexpectedEOF), r)
        (advance (length (remaining (file s))) s).
Proof.
  intros H. unfold io_ReadFull. rewrite decide_False by lia.
  destruct (remaining (file s)) as [|b rest].
  - exists buf. by rewrite advance_0.
  - eexists. reflexivity.
Qed.

Lemma readAudio_cut (p : Parser) (s : state) :
  let c1 := Channel1Size (eblFile s) in
  let c2 := Channel2Size (eblFile s) in
  let n := length (remaining (file s)) in
  let eof := fun k : nat => if decide (k = 0%nat) then EOF else ErrUnexpectedEOF in
  0 <= c1 ->
  ((n < Z.to_nat c1)%nat ->
   exists s',
     readAudio p s
     = Fail (ReadErrorPartial "channel 1 data" (eof n) n c1) s')
  /\ ((Z.to_nat c1 <= n)%nat -> 0 <= c2 -> (n - Z.to_nat c1 < Z.to_nat c2)%nat ->
      exists s',
        readAudio p s
        = Fail (ReadErrorPartial "channel 2 data" (eof (n - Z.to_nat c1)%nat)
                  (n - Z.to_nat c1) c2) s').
Proof.
  cbv zeta. intros P1. split.
  - intros Hlt. unfold readAudio. do 2 run.
    destruct (io_ReadFull_cut (zeros (Z.to_nat (Channel1Size (eblFile s)))) s)
      as [r E]; [unfold zeros; rewrite length_replicate; lia|].
    rewrite (mbind_run _ _ _ _ _ E). cbv beta iota. do 2 run.
    eexists. reflexivity.
  - intros Hle P2 Hlt. unfold readAudio. do 2 run.
    erewrite mbind_run
      by (apply io_ReadFull_run; unfold zeros; rewrite length_replicate; lia).
    cbv beta iota. do 3 run.
    match goal with
    | |- context [(io_ReadFull ?b ≫= _) ?st] =>
        destruct (io_ReadFull_cut b st) as [r E];
          [norm; unfold zeros; rewrite !length_replicate; lia|]
    end.
    rewrite (mbind_run _ _ _ _ _ E). cbv beta iota. clear E. norm.
    unfold zeros. rewrite !length_replicate. do 2 run.
    eexists. reflexivity.
Qed.

(** X17. A file that ends inside the audio is refused, with the number of
    bytes that were there.  For a file that is well formed up to the audio
    and whose extents are not negative: when it ends before the end of
    channel A, [ReadFile] returns the error of the channel 1 read, and when
    it holds channel A and ends before the end of channel B, the error of
    the channel 2 read; the error carries [io.EOF] when no byte of the
    channel is there and [io.ErrUnexpectedEOF] otherwise, the number of
    bytes read and the extent. *)
Theorem truncated_audio (p : Parser) (inputFile errorDir : string)
    (data : list byte) (h : nat) :
  bytes_at 0 4 data = FORM ->
  bytes_at 8 8 data = E5B0TOC2 ->
  bytes_at 20 4 data = E5S1 ->
  header4_start data h ->
  let B := (98 + padding_of data + h + 6)%nat in
  let c1 := (extents_at B data).1 in
  let c2 := (extents_at B data).2 in
  let start := (B + 176 + Z.to_nat (audio_padding_at B data))%nat in
  let eof := fun k : nat => if decide (k = 0%nat) then EOF else ErrUnexpectedEOF in
  (start <= length data)%nat -> 0 <= c1 ->
  let n := (length data - start)%nat in
  ((n < Z.to_nat c1)%nat ->
   exists s,
     ReadFile p inputFile errorDir data
     = Fail (ReadErrorPartial "channel 1 data" (eof n) n c1) s)
  /\ ((Z.to_nat c1 <= n)%nat -> 0 <= c2 -> (n - Z.to_nat c1 < Z.to_nat c2)%nat ->
      exists s,
        ReadFile p inputFile errorDir data
        = Fail (ReadErrorPartial "channel 2 data" (eof (n - Z.to_nat c1)%nat)
                  (n - Z.to_nat c1) c2) s).
Proof.
  intros M1 M2 M3 M4. cbv zeta. intros Hlen P1.
  destruct (payload_ready p inputFile data h M1 M2 M3 M4 Hlen)
    as (s3 & E3 & R3 & A3 & B3).
  assert (Hrun : forall e s',
            readAudio p s3 = Fail e s' ->
            ReadFile p inputFile errorDir data = Fail e s').
  { intros e s' E. unfold ReadFile, parse, readPayload.
    rewrite ?mbind_assoc.
    apply mbind_Ok in E3 as ([] & s1 & E1 & E3).
    rewrite (mbind_run _ _ _ _ _ E1). cbv beta.
    apply mbind_Ok in E3 as ([] & s2 & E2 & E3).
    rewrite ?mbind_assoc, (mbind_run _ _ _ _ _ E2). cbv beta.
    rewrite ?mbind_assoc, (mbind_run _ _ _ _ _ E3). cbv beta.
    rewrite ?mbind_assoc. by apply mbind_Fail. }
  pose proof (readAudio_cut p s3) as Hcut. cbv zeta in Hcut.
  rewrite A3, B3, R3, length_drop in Hcut.
  destruct (Hcut P1) as [Ha Hb]. split.
  - intros Hlt. destruct (Ha Hlt) as [s' E]. exists s'. by apply Hrun.
  - intros Hle P2 Hlt. destruct (Hb Hle P2 Hlt) as [s' E]. exists s'.
    by apply Hrun.
Qed.

Lemma truncated_audio_witness :
  exists s,
    ReadFile streams.quiet "Pad.ebl" "errors"
      (streams.stream 98 0 4 4 8 44100 (streams.ramp 6))
    = Fail (ReadErrorPartial "channel 2 data" ErrUnexpectedEOF 2 4) s.
Proof.
  destruct (truncated_audio streams.quiet "Pad.ebl" "errors"
              (streams.stream 98 0 4 4 8 44100 (streams.ramp 6)) 4)
    as [_ H].
  - reflexivity.
  - reflexivity.
  - reflexivity.
  - right. left. split; [vm_compute; lia|]. split; reflexivity.
  - vm_compute. lia.
  - vm_compute. discriminate.
  - apply H; vm_compute; [lia|discriminate|lia].
Defined.

(** ** Files that do not decode: the magic of a frame *)

Lemma read_buf_padded (n : nat) (what : string) (s : state) :
  remaining (file s) <> [] ->
  read_buf n what s
  = Ok (take n (remaining (file s) ++ zeros n))
      (advance (Nat.min n (length (remaining (file s)))) s).
Proof.
  intros Hr. unfold read_buf.
  destruct (file_Read_run (zeros n) s) as (k & Hk & E).
  rewrite (mbind_run _ _ _ _ _ E). cbv beta iota.
  unfold zeros in Hk. rewrite length_replicate in Hk.
  rewrite decide_False by (intros [_ ?]; done).
  unfold zeros. rewrite drop_replicate. fold (zeros (n - k)) (zeros n).
  rewrite (padded_read _ n k Hk). by subst k.
Qed.

Lemma readHeader2_invalid (p : Parser) (s : state) :
  remaining (file s) <> [] ->
  take 8 (remaining (file s) ++ zeros 8) <> E5B0TOC2 ->
  exists s',
    readHeader2 p s
    = Fail (InvalidPrefix "E5B0TOC2" (take 8 (remaining (file s) ++ zeros 8))) s'.
Proof.
  intros Hr Hm. unfold readHeader2.
  rewrite (mbind_run _ _ _ _ _ (read_buf_padded 8 _ s Hr)). cbv beta.
  run. rewrite (eqb_string_of_bytes _ _ Hm). cbn [negb]. run.
  eexists. reflexivity.
Qed.

Lemma readHeader3_invalid (p : Parser) (s : state) :
  remaining (file s) <> [] ->
  take 4 (remaining (file s) ++ zeros 4) <> E5S1 ->
  exists s',
    readHeader3 p s
    = Fail (InvalidPrefix "E5S1" (take 4 (remaining (file s) ++ zeros 4))) s'.
Proof.
  intros Hr Hm. unfold readHeader3.
  rewrite (mbind_run _ _ _ _ _ (read_buf_padded 4 _ s Hr)). cbv beta.
  run. rewrite (eqb_string_of_bytes _ _ Hm). cbn [negb]. run.
  eexists. reflexivity.
Qed.

(** A magic has no zero byte: a frame cut short by the end of the file does
    not have it. *)
Lemma padded_magic (r magic : list byte) :
  Forall (fun b => b <> x00) magic ->
  take (length magic) (r ++ zeros (length magic)) = magic ->
  take (length magic) r = magic.
Proof.
  intros Hnz E.
  destruct (decide (length magic <= length r)%nat) as [Hle|Hgt].
  - by rewrite take_app_le in E by lia.
  - exfalso. rewrite take_app_ge in E by lia.
    assert (Hl : magic !! length r = Some x00).
    { rewrite <- E at 1. rewrite lookup_app_r by lia.
      rewrite Nat.sub_diag. unfold zeros. rewrite take_replicate.
      apply lookup_replicate_2. lia. }
    rewrite Forall_forall in Hnz. apply (Hnz x00); [|reflexivity].
    apply list_elem_of_lookup. eauto.
Qed.

(** X18. A file whose second or third frame does not have its magic is
    refused with the error of that magic: after [FORM] and the four bytes of
    the size, eight bytes other than [E5B0TOC2], or, after a second frame in
    place, four bytes other than [E5S1] at offset 20, make [ReadFile] return
    the invalid-prefix error with the bytes it found, padded with zero bytes
    when the file ends inside the magic. *)
Theorem invalid_frame_magic (p : Parser) (inputFile errorDir : string)
    (data : list byte) :
  bytes_at 0 4 data = FORM ->
  ((9 <= length data)%nat -> bytes_at 8 8 data <> E5B0TOC2 ->
   exists s,
     ReadFile p inputFile errorDir data
     = Fail (InvalidPrefix "E5B0TOC2" (padded_at 8 8 data)) s)
  /\ ((21 <= length data)%nat -> bytes_at 8 8 data = E5B0TOC2 ->
      bytes_at 20 4 data <> E5S1 ->
      exists s,
        ReadFile p inputFile errorDir data
        = Fail (InvalidPrefix "E5S1" (padded_at 20 4 data)) s).
Proof.
  unfold bytes_at, padded_at. intros M1.
  assert (H1 : (8 <= length data)%nat ->
            exists s1, readHeader1 p (initial inputFile data) = Ok tt s1
                       /\ remaining (file s1) = drop 8 data).
  { intros Hle.
    destruct (readHeader1_returns p (initial inputFile data)) as [s1 E1];
      [exact Hle|exact M1|].
    exists s1. split; [exact E1|].
    by apply readHeader1_bytes in E1 as (_ & _ & R1 & _). }
  assert (Hne : forall n, (n < length data)%nat -> drop n data <> []).
  { intros n Hn E. apply (f_equal length) in E.
    rewrite length_drop in E. simpl in E. lia. }
  split.
  - intros Hlen Hm. destruct H1 as (s1 & E1 & R1); [lia|].
    destruct (readHeader2_invalid p s1) as [s2 E2].
    + rewrite R1. apply Hne. lia.
    + rewrite R1. intros E. apply Hm.
      apply (padded_magic _ E5B0TOC2); [|exact E].
      repeat constructor; discriminate.
    + rewrite R1 in E2. exists s2.
      unfold ReadFile, parse, readHeaders. rewrite !mbind_assoc.
      rewrite (mbind_run _ _ _ _ _ E1). cbv beta.
      rewrite ?mbind_assoc. by apply mbind_Fail.
  - intros Hlen M2 Hm. destruct H1 as (s1 & E1 & R1); [lia|].
    destruct (readHeader2_returns p s1) as [s2 E2];
      [rewrite R1, length_drop; lia|by rewrite R1|].
    pose proof (readHeader2_bytes _ _ _ E2) as (_ & _ & R2 & _).
    cbv zeta in R2. rewrite R1, drop_drop in R2.
    destruct (readHeader3_invalid p s2) as [s3 E3].
    + rewrite R2. apply Hne. lia.
    + rewrite R2. intros E. apply Hm.
      apply (padded_magic _ E5S1); [|exact E].
      repeat constructor; discriminate.
    + rewrite R2 in E3. exists s3.
      unfold ReadFile, parse, readHeaders. rewrite !mbind_assoc.
      rewrite (mbind_run _ _ _ _ _ E1). cbv beta.
      rewrite ?mbind_assoc, (mbind_run _ _ _ _ _ E2). cbv beta.
      rewrite ?mbind_assoc. by apply mbind_Fail.
Qed.

Lemma invalid_frame_magic_witness :
  exists s,
    ReadFile streams.quiet "Pad.ebl" "errors"
      (bytes_of_string "FORM" ++ zeros 4 ++ bytes_of_string "E5B0TOC")
    = Fail (InvalidPrefix "E5B0TOC2" (bytes_of_string "E5B0TOC" ++ [x00])) s.
Proof.
  destruct (invalid_frame_magic streams.quiet "Pad.ebl" "errors"
              (bytes_of_string "FORM" ++ zeros 4 ++ bytes_of_string "E5B0TOC")
              eq_refl) as [H _].
  apply H; [simpl; lia|discriminate].
Defined.
